(** * Advent of Code workspace manager: scaffold generator, registry and
      execution harness

    A shallow embedding of [src/template.py], [src/aoc_cli.py],
    [src/runner.py] and [main.py].  The file system, the console and the
    process exit status are an explicit world that every operation threads;
    what the program only calls (the JSON decoder, [str.format], the Python
    interpreter running a solution file, the [aoc] and [pytest] executables,
    the performance counter and float arithmetic) is collected in one
    interface, [Env], and never given a body here. *)

From Stdlib Require Import ZArith Ascii String DecimalString DecimalZ.
From stdpp Require Import base option list gmap strings sorting.

Open Scope Z_scope.
Open Scope string_scope.
Open Scope list_scope.

(** ** Text: [str], [f"{n:02d}"], [int], [str.replace], [Path.stem], glob *)

Module Text.

(** [str(n)] for a Python [int]. *)
Definition py_str (n : Z) : string := NilEmpty.string_of_int (Z.to_int n).

(** [f"{n:02d}"]: sign-aware zero padding to width two. *)
Definition pad2 (n : Z) : string :=
  if decide (0 <= n < 10) then "0" +:+ py_str n else py_str n.

(** The ASCII white space that [int] strips: tab, line feed, vertical tab,
    form feed, carriage return and space.  The separators 28 to 31, which
    [str.strip] removes, are not among them: [int] raises on them. *)
Definition is_space (c : ascii) : bool :=
  let n := nat_of_ascii c in
  (Nat.leb 9 n && Nat.leb n 13) || Nat.eqb n 32.

(** Text of ASCII characters only. *)
Fixpoint is_ascii (s : string) : bool :=
  match s with
  | String c r => Nat.ltb (nat_of_ascii c) 128 && is_ascii r
  | EmptyString => true
  end.

Fixpoint lstrip (s : string) : string :=
  match s with
  | String c r => if is_space c then lstrip r else s
  | EmptyString => EmptyString
  end.

Fixpoint rstrip (s : string) : string :=
  match s with
  | String c r =>
      match rstrip r with
      | EmptyString => if is_space c then EmptyString else String c EmptyString
      | r' => String c r'
      end
  | EmptyString => EmptyString
  end.

Definition strip (s : string) : string := rstrip (lstrip s).

(** Underscores in an [int] literal: single, and only between digits.
    [after_digit] tells whether the previous character may be followed by
    an underscore or by the end of the text. *)
Fixpoint drop_underscores (after_digit : bool) (s : string) : option string :=
  match s with
  | EmptyString => if after_digit then Some EmptyString else None
  | String c r =>
      if Ascii.eqb c "_"
      then (if after_digit then drop_underscores false r else None)
      else String c <$> drop_underscores true r
  end.

(** An optional sign in front of the digits. *)
Definition split_sign (t : string) : bool * string :=
  match t with
  | String "-" r => (true, r)
  | String "+" r => (false, r)
  | _ => (false, t)
  end.

(** [int(s)], base ten, for ASCII text; [None] is [ValueError].  Outside
    ASCII [int] also takes the Unicode spaces and decimal digits, which are
    not modelled: what is stated through [py_int] about names that are read
    from a directory is stated for ASCII names. *)
Definition py_int (s : string) : option Z :=
  let '(negative, body) := split_sign (strip s) in
  digits ← drop_underscores false body;
  u ← NilEmpty.uint_of_string digits;
  Some (if negative : bool then - Z.of_uint u else Z.of_uint u).

(** [s.replace("day", "")]: every occurrence, scanning left to right. *)
Fixpoint remove_day (s : string) : string :=
  match s with
  | String "d" (String "a" (String "y" r)) => remove_day r
  | String c r => String c (remove_day r)
  | EmptyString => EmptyString
  end.

Fixpoint has_dot (s : string) : bool :=
  match s with
  | String c r => Ascii.eqb c "." || has_dot r
  | EmptyString => false
  end.

Fixpoint ends_with_dot (s : string) : bool :=
  match s with
  | String c EmptyString => Ascii.eqb c "."
  | String _ r => ends_with_dot r
  | EmptyString => false
  end.

(** [s] up to its last dot, for an [s] that has one. *)
Fixpoint before_last_dot (s : string) : string :=
  match s with
  | String c r => if has_dot r then String c (before_last_dot r) else EmptyString
  | EmptyString => EmptyString
  end.

(** [Path.stem]: the name without its last suffix; a dot that leads or
    ends the name starts no suffix. *)
Definition stem (name : string) : string :=
  match name with
  | String c r =>
      if has_dot r && negb (ends_with_dot r)
      then String c (before_last_dot r) else name
  | EmptyString => EmptyString
  end.

Fixpoint ends_with_py (s : string) : bool :=
  match s with
  | String _ r => String.eqb s ".py" || ends_with_py r
  | EmptyString => false
  end.

(** The names [glob("day*.py")] keeps: [day], anything, [.py]. *)
Definition glob_day_py (name : string) : bool :=
  match name with
  | String "d" (String "a" (String "y" r)) => ends_with_py r
  | _ => false
  end.

End Text.

(** ** Exceptions, console lines and the world *)

(** Paths are kept relative to the project root ([Path(__file__).parent.parent]
    in every module) as their list of components, so that [root / "a" / "b"]
    is [["a"; "b"]]. *)
Abbreviation path := (list string).

Definition show_path (p : path) : string :=
  foldr (λ c acc, "/" +:+ c +:+ acc) "" p.

(** The classes below all derive from [Exception]; [SystemExit] and
    [KeyboardInterrupt] derive from [BaseException] only, so that
    [except Exception] lets them through. *)
Inductive exn_class :=
| FileNotFoundError | FileExistsError | RuntimeError | ImportError
| AttributeError | ValueError | KeyError | OtherException.

Global Instance exn_class_eq_dec : EqDecision exn_class.
Proof. solve_decision. Defined.

Inductive exn :=
| Raise (c : exn_class) (msg : string)
| SystemExit (code : Z)
| KeyboardInterrupt.

Definition is_Exception (e : exn) : bool :=
  match e with Raise _ _ => true | _ => false end.

Definition has_class (c : exn_class) (e : exn) : bool :=
  match e with
  | Raise c' _ => bool_decide (c' = c)
  | _ => false
  end.

(** [str(e)]. *)
Definition exn_str (e : exn) : string :=
  match e with
  | Raise _ msg => msg
  | SystemExit code => Text.py_str code
  | KeyboardInterrupt => ""
  end.

(** One constructor per [print] of the program; numbers and results are kept
    as the text that was formatted. *)
Inductive line :=
(* template.py *)
| WarnDownload (msg : string)
(* runner.py, run_day *)
| ErrSolutionNotFound (day : Z)
| ErrInputNotFound (day : Z)
| DayHeader (day_padded : string)
| Dashes
| PartOne (result time_ms : string)
| PartTwo (result time_ms : string)
| ErrRunning (day : Z) (msg : string)
(* runner.py, run_all *)
| NoSolutionsFound
| RunningDays (n : nat)
| Rule
| DayCouldNotLoad (day_padded : string)
| DayInputMissing (day_padded : string)
| DayDone (day_padded result1 result2 elapsed_ms : string)
| DayFailed (day_padded msg : string)
| TotalTime (total_ms : string)
(* runner.py, time_day *)
| ErrTestNotFound (day : Z)
(* main.py *)
| Scaffolded (day_padded : string)
| SolutionAt (p : path)
| TestsAt (p : path)
| ExampleAt (p : path)
| InputAndPuzzleDownloaded
| ErrMessage (msg : string)
| AocNotInstalled
| AocInstallHint
| AocConfigureHint
| DownloadedInput (day_padded : string)
| DownloadedPuzzle (day_padded : string)
| PuzzleText (text : string)
| ErrSpecifyDay
| Help.

(** Calls into a loaded solution, in the order they were made. *)
Inductive call :=
| CallParseInput (raw_text : string)
| CallPartOne
| CallPartTwo.

Record World := {
  files : gmap path string;      (* regular files and their text *)
  stdout : list line;            (* the lines the program printed, oldest first *)
  stderr : list line;
  ticks : nat;                   (* readings of the performance counter so far *)
  calls : list call;             (* calls into solutions so far *)
  spawned : list (list string);  (* pytest command lines run so far *)
}.

Definition set_files (f : gmap path string → gmap path string) (w : World) : World :=
  {| files := f (files w); stdout := stdout w; stderr := stderr w;
     ticks := ticks w; calls := calls w; spawned := spawned w |}.

Inductive res (A : Type) :=
| Val (a : A)
| Exc (e : exn).
Arguments Val {A} a.
Arguments Exc {A} e.

(** A computation: runs in a world, returns or raises, leaves a world. *)
Definition M (A : Type) : Type := World → res A * World.

Global Instance M_ret : MRet M := λ A a w, (Val a, w).
Global Instance M_bind : MBind M := λ A B f m w,
  match m w with
  | (Val a, w') => f a w'
  | (Exc e, w') => (Exc e, w')
  end.

Global Instance M_fmap : FMap M := λ A B f m w,
  match m w with
  | (Val a, w') => (Val (f a), w')
  | (Exc e, w') => (Exc e, w')
  end.

Definition raise {A} (e : exn) : M A := λ w, (Exc e, w).

(** [try: body  except <caught>: handler]. *)
Definition try_except {A} (body : M A) (caught : exn → bool) (handler : exn → M A) : M A :=
  λ w, match body w with
       | (Exc e, w') => if caught e then handler e w' else (Exc e, w')
       | r => r
       end.

Definition sys_exit {A} (code : Z) : M A := raise (SystemExit code).

Definition print (l : line) : M unit := λ w,
  (Val (), {| files := files w; stdout := stdout w ++ [l]; stderr := stderr w;
              ticks := ticks w; calls := calls w; spawned := spawned w |}).

Definition eprint (l : line) : M unit := λ w,
  (Val (), {| files := files w; stdout := stdout w; stderr := stderr w ++ [l];
              ticks := ticks w; calls := calls w; spawned := spawned w |}).

Definition log_call (c : call) : M unit := λ w,
  (Val (), {| files := files w; stdout := stdout w; stderr := stderr w;
              ticks := ticks w; calls := calls w ++ [c]; spawned := spawned w |}).

(** ** The file system

    Only regular files are tracked: a world stands for a file system in
    which every path the program tests, reads, writes or lists is a regular
    file or absent, and in which a directory can be made wherever the
    program makes one.  So [Path.exists()] is asked of files only, and
    [mkdir(parents=True, exist_ok=True)], which the program calls on the
    parent of a file it is about to write, succeeds; where outcomes are
    stated for the program the second condition is a hypothesis, [can_make]
    below. *)

Definition exists_ (p : path) : M bool := λ w, (Val (bool_decide (is_Some (files w !! p))), w).

Definition mkdir_p (p : path) : M unit := mret ().

Definition write_text (p : path) (text : string) : M unit := λ w,
  (Val (), set_files (insert p text) w).

(** [Path.touch()]: an empty file is created when there is none; the text of
    an existing file is kept. *)
Definition touch_fs (p : path) (fs : gmap path string) : gmap path string :=
  match fs !! p with
  | Some _ => fs
  | None => <[p:=""]> fs
  end.

Definition touch (p : path) : M unit := λ w, (Val (), set_files (touch_fs p) w).

(** [Path.read_text()] and [open(p)] followed by a read. *)
Definition read_text (p : path) : M string := λ w,
  match files w !! p with
  | Some text => (Val text, w)
  | None => (Exc (Raise FileNotFoundError (show_path p)), w)
  end.

(** The names of the entries of directory [dir] that are regular files. *)
Fixpoint child_name (dir p : path) : option string :=
  match dir, p with
  | [], [name] => Some name
  | d :: dir', c :: p' => if decide (d = c) then child_name dir' p' else None
  | _, _ => None
  end.

Definition listdir (dir : path) (fs : gmap path string) : list string :=
  omap (child_name dir) (elements (dom fs)).

(** ** What the program calls but does not define *)

(** A loaded solution module: each of the three names is bound or not; a call
    returns or raises.  [Data] and [Result] are whatever the solution uses.
    What solution code does besides returning or raising (the files it may
    write, the lines it may print itself) is not modelled: the console of a
    world holds the lines of the program, and a solution is taken to leave
    the files alone. *)
Record module_obj (Data Result : Type) := {
  parse_input : option (string → sum exn Data);
  part_one : option (Data → sum exn Result);
  part_two : option (Data → sum exn Result);
}.
Arguments parse_input {Data Result} _.
Arguments part_one {Data Result} _.
Arguments part_two {Data Result} _.

Inductive aoc_target := InputOnly | PuzzleOnly.

(** What one run of [aoc download ... --overwrite] leaves behind: an exit
    status, its captured output, and the text it wrote to the target file, if
    it wrote it. *)
Record completed_process := {
  returncode : Z;
  out_text : string;
  err_text : string;
  written : option string;
}.

Class Env := {
  Data : Type;
  Result : Type;
  pyfloat : Type;
  (** [json.load], for a document that is an object with integer values;
      [None] when the text does not decode. *)
  json_load : string → option (gmap string Z);
  (** [template.format(year=, day=, day_padded=)]. *)
  str_format : string → Z → Z → string → sum exn string;
  (** The interpreter: [module_from_spec] and [exec_module] on a module name
      and the source text found at the location. *)
  exec_module : string → string → sum exn (module_obj Data Result);
  (** [f"{result}"], which runs the [__format__] of the result and raises
      what that raises, and [f"{t * 1000:.2f}"] for a float. *)
  format_result : Result → sum exn string;
  format_ms : pyfloat → string;
  (** The [n]-th reading of [time.perf_counter()], float subtraction and
      addition, and the [0] that [total_time] starts from. *)
  perf_counter_at : nat → pyfloat;
  fsub : pyfloat → pyfloat → pyfloat;
  fadd : pyfloat → pyfloat → pyfloat;
  fzero : pyfloat;
  (** [aoc --version] ran and exited with status zero. *)
  aoc_installed : bool;
  (** [aoc download --year y --day d (--input-only|--puzzle-only) ...]. *)
  aoc_download : aoc_target → Z → Z → completed_process;
  (** [subprocess.run(["uv", "run", "pytest", ...])]: the exit status of
      the process, or what [subprocess.run] raises when the process cannot
      be started ([FileNotFoundError] without [uv]). *)
  pytest_status : list string → sum exn Z;
}.

Definition nl : string := String (ascii_of_nat 10) EmptyString.
Definition q : string := String (ascii_of_nat 34) EmptyString.
Definition q3 : string := q +:+ q +:+ q.

(** Lines, each closed by a line feed. *)
Definition unlines (ls : list string) : string :=
  foldr (λ l acc, l +:+ nl +:+ acc) "" ls.

(** ** src/aoc_cli.py *)

Module aoc_cli.
Section aoc_cli.
Context `{Env}.

Definition get_aoc_data_dir (year : option Z) : path :=
  match year with
  | None => ["data"]
  | Some y => [Text.py_str y; "data"]
  end.

Definition check_aoc_cli : M bool := mret aoc_installed.

Definition input_file (day : Z) (year : option Z) : path :=
  get_aoc_data_dir year ++ ["inputs"; Text.pad2 day +:+ ".txt"].
Definition example_file (day : Z) (year : option Z) : path :=
  get_aoc_data_dir year ++ ["examples"; Text.pad2 day +:+ ".txt"].
Definition puzzle_file (day : Z) (year : option Z) : path :=
  get_aoc_data_dir year ++ ["puzzles"; Text.pad2 day +:+ ".md"].

(** What the tool leaves in the file system: it was given the target with
    [--overwrite]. *)
Definition aoc_fs (r : completed_process) (target : path) (fs : gmap path string)
  : gmap path string :=
  match written r with
  | Some text => <[target:=text]> fs
  | None => fs
  end.

(** [subprocess.run(["aoc", "download", ...], capture_output=True)]. *)
Definition run_aoc (t : aoc_target) (year day : Z) (target : path) : M completed_process :=
  λ w, let r := aoc_download t year day in (Val r, set_files (aoc_fs r target) w).

Definition not_installed_msg : string :=
  "aoc-cli not found. Install it with: cargo install aoc-cli" +:+ nl +:+
  "Then configure with: aoc credentials -s <session_cookie>".

Definition download_input (day year : Z) : M path :=
  ok ← check_aoc_cli;
  if negb ok then raise (Raise RuntimeError not_installed_msg) else
  let data_dir := get_aoc_data_dir (Some year) in
  mkdir_p [Text.py_str year];;
  let target := input_file day (Some year) in
  mkdir_p (data_dir ++ ["inputs"]);;
  result ← run_aoc InputOnly year day target;
  if negb (Z.eqb (returncode result) 0)
  then raise (Raise RuntimeError ("Failed to download input: " +:+ err_text result))
  else
    present ← exists_ target;
    if negb present
    then raise (Raise RuntimeError
                  ("Download succeeded but file not found at " +:+ show_path target +:+ nl +:+
                   "stdout: " +:+ out_text result +:+ nl +:+ "stderr: " +:+ err_text result))
    else mret target.

Definition download_puzzle (day year : Z) : M path :=
  ok ← check_aoc_cli;
  if negb ok then raise (Raise RuntimeError not_installed_msg) else
  let data_dir := get_aoc_data_dir (Some year) in
  mkdir_p [Text.py_str year];;
  let target := puzzle_file day (Some year) in
  mkdir_p (data_dir ++ ["puzzles"]);;
  result ← run_aoc PuzzleOnly year day target;
  if negb (Z.eqb (returncode result) 0)
  then raise (Raise RuntimeError ("Failed to download puzzle: " +:+ err_text result))
  else
    present ← exists_ target;
    if negb present
    then raise (Raise RuntimeError
                  ("Download succeeded but file not found at " +:+ show_path target +:+ nl +:+
                   "stdout: " +:+ out_text result +:+ nl +:+ "stderr: " +:+ err_text result))
    else mret target.

Definition read_input (day : Z) (year : option Z) : M string :=
  let p := input_file day year in
  present ← exists_ p;
  if negb present
  then raise (Raise FileNotFoundError
                ("Input file not found: " +:+ show_path p +:+ nl +:+
                 "Download it with: python main.py download " +:+ Text.py_str day))
  else read_text p.

Definition read_example (day : Z) (year : option Z) : M string :=
  let p := example_file day year in
  present ← exists_ p;
  if negb present
  then raise (Raise FileNotFoundError ("Example file not found: " +:+ show_path p))
  else read_text p.

Definition read_puzzle (day : Z) (year : option Z) : M string :=
  let p := puzzle_file day year in
  present ← exists_ p;
  if negb present
  then raise (Raise FileNotFoundError
                ("Puzzle file not found: " +:+ show_path p +:+ nl +:+
                 "Download it with: python main.py download " +:+ Text.py_str day))
  else read_text p.

End aoc_cli.
End aoc_cli.

(** ** src/template.py *)

Module template.
Section template.
Context `{Env}.

Definition config_path : path := [".aoc-cli.json"].

(** [open] raises when the file is missing; [json.load] raises
    [JSONDecodeError], a [ValueError], on text that does not decode. *)
Definition load_config : M (gmap string Z) :=
  text ← read_text config_path;
  match json_load text with
  | Some config => mret config
  | None => raise (Raise ValueError "JSONDecodeError")
  end.

Definition template_path : path := ["src"; "solutions"; "template.txt"].

Definition read_template : M string := read_text template_path.

Definition get_solutions_dir (year : option Z) : path :=
  match year with
  | None => ["src"; "solutions"]
  | Some y => [Text.py_str y; "solutions"]
  end.

Definition get_tests_dir (year : option Z) : path :=
  match year with
  | None => ["tests"]
  | Some y => [Text.py_str y; "tests"]
  end.

Definition conftest_content : string := unlines [
  q3 +:+ "Pytest configuration for year folder." +:+ q3;
  "";
  "import re";
  "import sys";
  "from pathlib import Path";
  "";
  "import pytest";
  "";
  "from src.aoc_cli import read_example";
  "";
  "# Add year solutions to path so imports work";
  "year_dir = Path(__file__).parent.parent";
  "sys.path.insert(0, str(year_dir))";
  "";
  "";
  "@pytest.fixture";
  "def example(request):";
  "    " +:+ q3;
  "    Load example input automatically from data/examples/{day}.txt.";
  "";
  "    Extracts the day number from the test file name (e.g., test_day01.py -> 01)";
  "    and loads the corresponding example file from the year-specific data dir.";
  "    " +:+ q3;
  "    test_file = Path(request.fspath).name  # e.g., " +:+ q +:+ "test_day01.py" +:+ q;
  "    match = re.search(r" +:+ q +:+ "day(\d+)" +:+ q +:+ ", test_file)";
  "    if not match:";
  "        raise ValueError(f" +:+ q +:+ "Could not extract day number from {test_file}" +:+ q +:+ ")";
  "";
  "    day = int(match.group(1))";
  "    year_dir_obj = Path(__file__).parent.parent";
  "    return read_example(day, int(year_dir_obj.name))"
].

Definition test_content (year day : Z) (day_padded : string) : string := unlines [
  q3 +:+ "Tests for Day " +:+ day_padded +:+ "." +:+ q3;
  "";
  "import sys";
  "from pathlib import Path";
  "";
  "import pytest";
  "";
  "# Add year solutions to path so imports work";
  "sys.path.insert(0, str(Path(__file__).parent.parent))";
  "";
  "from solutions.day" +:+ day_padded +:+ " import parse_input, part_one, part_two";
  "";
  "";
  "def test_parse_input(example):";
  "    " +:+ q3 +:+ "Test input parsing." +:+ q3;
  "    data = parse_input(example)";
  "    assert data is not None";
  "";
  "";
  "def test_part_one(example):";
  "    " +:+ q3 +:+ "Test part one with example data." +:+ q3;
  "    data = parse_input(example)";
  "    result = part_one(data)";
  "    assert result == 0  # Update with expected value";
  "";
  "";
  "def test_part_two(example):";
  "    " +:+ q3 +:+ "Test part two with example data." +:+ q3;
  "    data = parse_input(example)";
  "    result = part_two(data)";
  "    assert result == 0  # Update with expected value";
  "";
  "";
  "@pytest.mark.benchmark";
  "def test_benchmark_part_one(benchmark):";
  "    " +:+ q3 +:+ "Benchmark part one." +:+ q3;
  "    from src.aoc_cli import read_input";
  "";
  "    try:";
  "        input_text = read_input(" +:+ Text.py_str day +:+ ", " +:+ Text.py_str year +:+ ")";
  "        data = parse_input(input_text)";
  "        benchmark(part_one, data)";
  "    except FileNotFoundError:";
  "        pytest.skip(" +:+ q +:+ "Input file not found" +:+ q +:+ ")";
  "";
  "";
  "@pytest.mark.benchmark";
  "def test_benchmark_part_two(benchmark):";
  "    " +:+ q3 +:+ "Benchmark part two." +:+ q3;
  "    from src.aoc_cli import read_input";
  "";
  "    try:";
  "        input_text = read_input(" +:+ Text.py_str day +:+ ", " +:+ Text.py_str year +:+ ")";
  "        data = parse_input(input_text)";
  "        benchmark(part_two, data)";
  "    except FileNotFoundError:";
  "        pytest.skip(" +:+ q +:+ "Input file not found" +:+ q +:+ ")"
].

(** The file name of a day's solution, [f"day{day_padded}.py"]. *)
Definition day_name (day : Z) : string := "day" +:+ Text.pad2 day +:+ ".py".

Definition solution_file (day : Z) (year : option Z) : path :=
  get_solutions_dir year ++ [day_name day].
Definition test_file (day : Z) (year : option Z) : path :=
  get_tests_dir year ++ ["test_day" +:+ Text.pad2 day +:+ ".py"].
Definition conftest_file (year : option Z) : path :=
  get_tests_dir year ++ ["conftest.py"].

(** The body of the [try] in [scaffold_day]. *)
Definition download_both (day year : Z) : M unit :=
  aoc_cli.download_input day year;; aoc_cli.download_puzzle day year;; mret ().

(** The [if download: try: ... except Exception as e: print(...)] block. *)
Definition download_step (day year : Z) (download : bool) : M unit :=
  if download
  then try_except (download_both day year) is_Exception
         (λ e, print (WarnDownload (exn_str e)))
  else mret ().

(** [if not p.exists(): p.touch()] and [if not p.exists(): p.write_text(text)]. *)
Definition touch_if_absent (p : path) : M unit :=
  present ← exists_ p;
  if negb present then touch p else mret ().

Definition write_if_absent (p : path) (text : string) : M unit :=
  present ← exists_ p;
  if negb present then write_text p text else mret ().

Definition scaffold_day (day : Z) (download : bool) : M (path * path * path) :=
  config ← load_config;
  let year := default 2025 (config !! "year") in
  let day_padded := Text.pad2 day in
  let solutions_dir := get_solutions_dir (Some year) in
  let tests_dir := get_tests_dir (Some year) in
  let data_dir := aoc_cli.get_aoc_data_dir (Some year) in
  let solution_path := solution_file day (Some year) in
  let test_path := test_file day (Some year) in
  let example_path := aoc_cli.example_file day (Some year) in
  let input_path := aoc_cli.input_file day (Some year) in
  let puzzle_path := aoc_cli.puzzle_file day (Some year) in
  already ← exists_ solution_path;
  if already : bool
  then raise (Raise FileExistsError
                ("Solution for day " +:+ Text.py_str day +:+ " already exists"))
  else
    download_step day year download;;
    mkdir_p solutions_dir;;
    mkdir_p tests_dir;;
    mkdir_p (data_dir ++ ["examples"]);;
    mkdir_p (data_dir ++ ["inputs"]);;
    mkdir_p (data_dir ++ ["puzzles"]);;
    touch (solutions_dir ++ ["__init__.py"]);;
    touch (tests_dir ++ ["__init__.py"]);;
    let conftest_path := conftest_file (Some year) in
    write_if_absent conftest_path conftest_content;;
    template ← read_template;
    match str_format template year day day_padded with
    | inl e => raise e
    | inr solution_content =>
        write_text solution_path solution_content;;
        write_text test_path (test_content year day day_padded);;
        touch_if_absent example_path;;
        touch_if_absent input_path;;
        touch_if_absent puzzle_path;;
        mret (solution_path, test_path, example_path)
    end.

(** The file system a scaffold that gets past its existence check leaves,
    from the one the download block left: the steps of [scaffold_day] after
    the block, composed. *)
Definition write_if_absent_fs (p : path) (text : string) (fs : gmap path string)
  : gmap path string :=
  match fs !! p with
  | Some _ => fs
  | None => <[p:=text]> fs
  end.

Definition scaffold_fs (year day : Z) (solution_content : string)
    (fs : gmap path string) : gmap path string :=
  touch_fs (aoc_cli.puzzle_file day (Some year))
    (touch_fs (aoc_cli.input_file day (Some year))
       (touch_fs (aoc_cli.example_file day (Some year))
          (<[test_file day (Some year) := test_content year day (Text.pad2 day)]>
             (<[solution_file day (Some year) := solution_content]>
                (write_if_absent_fs (conftest_file (Some year)) conftest_content
                   (touch_fs (get_tests_dir (Some year) ++ ["__init__.py"])
                      (touch_fs (get_solutions_dir (Some year) ++ ["__init__.py"]) fs))))))).

(** The day a directory entry stands for: [int(file.stem.replace("day", ""))],
    [None] where that raises [ValueError]. *)
Definition day_of_name (name : string) : option Z :=
  Text.py_int (Text.remove_day (Text.stem name)).

(** [sorted] on integers. *)
Definition sorted (l : list Z) : list Z := merge_sort Z.le l.

Definition available_days (year : option Z) (fs : gmap path string) : list Z :=
  sorted (omap day_of_name
            (filter (λ name, Text.glob_day_py name = true)
                    (listdir (get_solutions_dir year) fs))).

Definition get_available_days (year : option Z) : M (list Z) :=
  λ w, (Val (available_days year (files w)), w).

(** Every entry that [get_available_days] turns into a day is named the way
    [scaffold_day] names that day's solution. *)
Definition canonical_names (year : option Z) (fs : gmap path string) : bool :=
  forallb (λ name, match day_of_name name with
                   | Some d => bool_decide (name = day_name d)
                   | None => true
                   end)
          (filter (λ name, Text.glob_day_py name = true)
                  (listdir (get_solutions_dir year) fs)).

End template.
End template.

(** ** src/runner.py *)

Module runner.
Section runner.
Context `{Env}.

(** [importlib.util.spec_from_file_location(name, location)]: a spec when
    the suffix of the location has a source loader, [None] otherwise.  No
    file is opened and [sys.modules] is neither read nor written. *)
Definition spec_from_file_location (name : string) (location : path)
  : option (string * path) :=
  match last location with
  | Some file => if Text.ends_with_py file then Some (name, location) else None
  | None => None
  end.

(** [module_from_spec(spec)] then [spec.loader.exec_module(module)]: the
    source is read from the location of the spec and run. *)
Definition load (spec : string * path) : M (module_obj Data Result) :=
  source ← read_text spec.2;
  match exec_module spec.1 source with
  | inl e => raise e
  | inr module => mret module
  end.

Definition no_attribute (module_name attr : string) : exn :=
  Raise AttributeError
    ("module '" +:+ module_name +:+ "' has no attribute '" +:+ attr +:+ "'").

(** [module.parse_input(input_text)], [module.part_one(data)] and
    [module.part_two(data)]: the attribute is looked up, then called. *)
Definition call_parse_input (name : string) (module : module_obj Data Result)
    (input_text : string) : M Data :=
  match parse_input module with
  | None => raise (no_attribute name "parse_input")
  | Some f =>
      log_call (CallParseInput input_text);;
      match f input_text with inl e => raise e | inr data => mret data end
  end.

Definition call_part_one (name : string) (module : module_obj Data Result)
    (data : Data) : M Result :=
  match part_one module with
  | None => raise (no_attribute name "part_one")
  | Some f =>
      log_call CallPartOne;;
      match f data with inl e => raise e | inr r => mret r end
  end.

Definition call_part_two (name : string) (module : module_obj Data Result)
    (data : Data) : M Result :=
  match part_two module with
  | None => raise (no_attribute name "part_two")
  | Some f =>
      log_call CallPartTwo;;
      match f data with inl e => raise e | inr r => mret r end
  end.

(** The [{result}] of an f-string. *)
Definition format_value (result : Result) : M string :=
  match format_result result with
  | inl e => raise e
  | inr text => mret text
  end.

Definition perf_counter : M pyfloat := λ w,
  (Val (perf_counter_at (ticks w)),
   {| files := files w; stdout := stdout w; stderr := stderr w;
      ticks := S (ticks w); calls := calls w; spawned := spawned w |}).

Definition run_day (day : Z) (year : option Z) : M unit :=
  let day_padded := Text.pad2 day in
  let name := "day" +:+ day_padded in
  let module_path := template.solution_file day year in
  present ← exists_ module_path;
  if negb present
  then eprint (ErrSolutionNotFound day);; sys_exit 1
  else
    try_except
      (match spec_from_file_location name module_path with
       | None => raise (Raise ImportError ("Could not load " +:+ show_path module_path))
       | Some spec =>
           module ← load spec;
           input_text ← try_except (aoc_cli.read_input day year)
                          (has_class FileNotFoundError)
                          (λ _, eprint (ErrInputNotFound day);; sys_exit 1);
           data ← call_parse_input name module input_text;
           print (DayHeader day_padded);;
           print Dashes;;
           start ← perf_counter;
           result1 ← call_part_one name module data;
           stop ← perf_counter;
           let time1 := fsub stop start in
           start ← perf_counter;
           result2 ← call_part_two name module data;
           stop ← perf_counter;
           let time2 := fsub stop start in
           text1 ← format_value result1;
           print (PartOne text1 (format_ms time1));;
           text2 ← format_value result2;
           print (PartTwo text2 (format_ms time2))
       end)
      is_Exception
      (λ e, eprint (ErrRunning day (exn_str e));; sys_exit 1).

(** One turn of the [for day in available_days] loop of [run_all]; the
    value is [total_time] after the turn.  A [continue] leaves it as it
    was.  The [try] block goes on after [total_time += elapsed] with the
    formatting and the print of the line: the handler of the block is
    written twice, for an exception raised before the assignment, which
    leaves the old total, and for one raised after it, which leaves the new
    one. *)
Definition run_all_body (year : option Z) (day : Z) (total_time : pyfloat) : M pyfloat :=
  let day_padded := Text.pad2 day in
  let name := "day" +:+ day_padded in
  let module_path := template.solution_file day year in
  try_except
    (match spec_from_file_location name module_path with
     | None => print (DayCouldNotLoad day_padded);; mret total_time
     | Some spec =>
         module ← load spec;
         input_text ← try_except (Some <$> aoc_cli.read_input day year)
                        (has_class FileNotFoundError)
                        (λ _, print (DayInputMissing day_padded);; mret None);
         match input_text with
         | None => mret total_time
         | Some input_text =>
             data ← call_parse_input name module input_text;
             start ← perf_counter;
             result1 ← call_part_one name module data;
             stop ← perf_counter;
             let time1 := fsub stop start in
             start ← perf_counter;
             result2 ← call_part_two name module data;
             stop ← perf_counter;
             let time2 := fsub stop start in
             let elapsed := fadd time1 time2 in
             let total_time := fadd total_time elapsed in
             try_except
               (text1 ← format_value result1;
                text2 ← format_value result2;
                print (DayDone day_padded text1 text2 (format_ms elapsed));;
                mret total_time)
               is_Exception
               (λ e, print (DayFailed day_padded (exn_str e));; mret total_time)
         end
     end)
    is_Exception
    (λ e, print (DayFailed day_padded (exn_str e));; mret total_time).

Fixpoint run_all_loop (year : option Z) (days : list Z) (total_time : pyfloat) : M pyfloat :=
  match days with
  | [] => mret total_time
  | day :: rest =>
      total_time ← run_all_body year day total_time;
      run_all_loop year rest total_time
  end.

Definition run_all (year : option Z) : M unit :=
  available_days ← template.get_available_days year;
  match available_days with
  | [] => print NoSolutionsFound
  | _ =>
      print (RunningDays (length available_days));;
      print Rule;;
      total_time ← run_all_loop year available_days fzero;
      print Rule;;
      print (TotalTime (format_ms total_time))
  end.

(** [subprocess.run(["uv", "run", "pytest", ...], cwd=root)]: the status
    of the process that ran, or the exception of one that did not start. *)
Definition run_pytest (argv : list string) : M Z := λ w,
  match pytest_status argv with
  | inr status =>
      (Val status,
       {| files := files w; stdout := stdout w; stderr := stderr w;
          ticks := ticks w; calls := calls w; spawned := spawned w ++ [argv] |})
  | inl e => (Exc e, w)
  end.

Definition time_day (day : Z) (year : option Z) : M unit :=
  let test_path := template.test_file day year in
  present ← exists_ test_path;
  if negb present
  then eprint (ErrTestNotFound day);; sys_exit 1
  else
    status ← run_pytest ["uv"; "run"; "pytest"; show_path test_path;
                         "-v"; "-m"; "benchmark"; "--benchmark-only"];
    sys_exit status.

Definition time_all (year : option Z) : M unit :=
  available_days ← template.get_available_days year;
  match available_days with
  | [] => print NoSolutionsFound
  | _ =>
      let test_dir := match year with
                      | None => "tests/"
                      | Some y => Text.py_str y +:+ "/tests/"
                      end in
      status ← run_pytest ["uv"; "run"; "pytest"; test_dir;
                           "-v"; "-m"; "benchmark"; "--benchmark-only"];
      sys_exit status
  end.

End runner.
End runner.

(** ** main.py *)

Module cli.
Section cli.
Context `{Env}.

(** The sub-command and its arguments, as [argparse] hands them over. *)
Inductive command :=
| CmdScaffold (day : Z) (download : bool)
| CmdDownload (day : Z) (input_only puzzle_only : bool)
| CmdRead (day : Z)
| CmdSolve (day : Z) (release : bool)
| CmdAll
| CmdTime (day : option Z) (all : bool)
| CmdNone.

(** [year_flag] is the value of [--year] when the flag was given. *)
Record args := {
  year_flag : option Z;
  cmd : command;
}.

(** The [if args.command == ...] chain of [main], with [current_year] as
    [main] computed it. *)
Definition run_command (current_year : Z) (a : args) : M unit :=
  match cmd a with
  | CmdScaffold day download =>
      try_except
        (paths ← template.scaffold_day day download;
         let '(solution_path, test_path, example_path) := paths in
         print (Scaffolded (Text.pad2 day));;
         print (SolutionAt solution_path);;
         print (TestsAt test_path);;
         print (ExampleAt example_path);;
         if download : bool then print InputAndPuzzleDownloaded else mret ())
        (has_class FileExistsError)
        (λ e, eprint (ErrMessage (exn_str e));; sys_exit 1)
  | CmdDownload day input_only puzzle_only =>
      try_except
        (installed ← aoc_cli.check_aoc_cli;
         if negb installed
         then eprint AocNotInstalled;; eprint AocInstallHint;;
              eprint AocConfigureHint;; sys_exit 1
         else
           (if negb puzzle_only
            then aoc_cli.download_input day current_year;;
                 print (DownloadedInput (Text.pad2 day))
            else mret ());;
           (if negb input_only
            then aoc_cli.download_puzzle day current_year;;
                 print (DownloadedPuzzle (Text.pad2 day))
            else mret ()))
        is_Exception
        (λ e, eprint (ErrMessage (exn_str e));; sys_exit 1)
  | CmdRead day =>
      try_except
        (puzzle ← aoc_cli.read_puzzle day (Some current_year);
         print (PuzzleText puzzle))
        (has_class FileNotFoundError)
        (λ e, eprint (ErrMessage (exn_str e));; sys_exit 1)
  | CmdSolve day _ => runner.run_day day (Some current_year)
  | CmdAll => runner.run_all (Some current_year)
  | CmdTime day all =>
      if all then runner.time_all (Some current_year)
      else match day with
           | Some d =>
               if bool_decide (d = 0)
               then eprint ErrSpecifyDay;; sys_exit 1
               else runner.time_day d (Some current_year)
           | None => eprint ErrSpecifyDay;; sys_exit 1
           end
  | CmdNone => print Help
  end.

Definition main (a : args) : M unit :=
  config ← template.load_config;
  let year := default 2025 (config !! "year") in
  (* parser.parse_args(): [--year] has [default=year] *)
  let args_year := default year (year_flag a) in
  let current_year := args_year in
  run_command current_year a.

(** The exit status of the process: [0] on return, the code of a
    [SystemExit], [1] after an uncaught exception. *)
Definition exit_status {A} (r : res A) : Z :=
  match r with
  | Val _ => 0
  | Exc (SystemExit code) => code
  | Exc _ => 1
  end.

End cli.
End cli.

(** ** A concrete environment

    A small interpreter for the interface, used to run the program on
    concrete worlds: solutions are recognised by the [def]s their text holds,
    times are whole numbers, and the configuration decoder reads the two
    documents used below. *)

Module Demo.

Fixpoint is_prefix (p s : string) : bool :=
  match p, s with
  | EmptyString, _ => true
  | String a p', String b s' => Ascii.eqb a b && is_prefix p' s'
  | _, _ => false
  end.

Fixpoint contains (needle hay : string) : bool :=
  is_prefix needle hay ||
  match hay with
  | String _ r => contains needle r
  | EmptyString => false
  end.

Fixpoint drop_prefix (p s : string) : option string :=
  match p, s with
  | EmptyString, _ => Some s
  | String a p', String b s' => if Ascii.eqb a b then drop_prefix p' s' else None
  | _, _ => None
  end.

Fixpoint until_close (s : string) : option (string * string) :=
  match s with
  | EmptyString => None
  | String "}" r => Some (EmptyString, r)
  | String c r => '(name, rest) ← until_close r; Some (String c name, rest)
  end.

(** The documents [{}] and [{"year": N}]. *)
Definition decode (text : string) : option (gmap string Z) :=
  if bool_decide (text = "{}") then Some ∅
  else
    rest ← drop_prefix ("{" +:+ q +:+ "year" +:+ q +:+ ": ") text;
    '(number, _) ← until_close rest;
    y ← Text.py_int number;
    Some {[ "year" := y ]}.

(** [str.format] with named fields and doubled braces. *)
Fixpoint format_go (fuel : nat) (fields : list (string * string)) (s : string)
  : sum exn string :=
  match fuel with
  | O => inr EmptyString
  | S fuel =>
      match s with
      | EmptyString => inr EmptyString
      | String "{" (String "{" r) => sum_map id (String "{") (format_go fuel fields r)
      | String "}" (String "}" r) => sum_map id (String "}") (format_go fuel fields r)
      | String "{" r =>
          match until_close r with
          | None => inl (Raise ValueError "expected '}' before end of string")
          | Some (name, rest) =>
              match list_find (λ kv, kv.1 = name) fields with
              | None => inl (Raise KeyError name)
              | Some (_, kv) => sum_map id (String.append kv.2) (format_go fuel fields rest)
              end
          end
      | String "}" _ => inl (Raise ValueError "Single '}' encountered in format string")
      | String c r => sum_map id (String c) (format_go fuel fields r)
      end
  end.

Definition render (template : string) (year day : Z) (day_padded : string)
  : sum exn string :=
  format_go (S (String.length template))
    [("year", Text.py_str year); ("day", Text.py_str day); ("day_padded", day_padded)]
    template.

(** A solution binds each name its text defines; its parts count
    characters, and [part_one] raises when the text says so. *)
Definition interpret (name source : string) : sum exn (module_obj string Z) :=
  if contains "syntax error" source
  then inl (Raise OtherException "invalid syntax")
  else inr {|
    parse_input :=
      if contains "def parse_input(" source then Some (λ raw, inr raw) else None;
    part_one :=
      if contains "def part_one(" source
      then Some (λ data, if contains "raise ValueError" source
                         then inl (Raise ValueError "boom")
                         else inr (Z.of_nat (String.length data)))
      else None;
    part_two :=
      if contains "def part_two(" source
      then Some (λ data, inr (2 * Z.of_nat (String.length data)))
      else None;
  |}.

Definition env (installed : bool) (download : aoc_target → Z → Z → completed_process) : Env := {|
  Data := string;
  Result := Z;
  pyfloat := Z;
  json_load := decode;
  str_format := render;
  exec_module := interpret;
  format_result := λ result, inr (Text.py_str result);
  format_ms := Text.py_str;
  perf_counter_at := λ n, Z.of_nat (n * n);
  fsub := Z.sub;
  fadd := Z.add;
  fzero := 0;
  aoc_installed := installed;
  aoc_download := download;
  pytest_status := λ _, inr 0;
|}.

Definition no_download (t : aoc_target) (year day : Z) : completed_process :=
  {| returncode := 1; out_text := ""; err_text := "no session cookie"; written := None |}.

Definition fresh_download (t : aoc_target) (year day : Z) : completed_process :=
  {| returncode := 0; out_text := ""; err_text := ""; written := Some "new" |}.

Definition world (fs : list (path * string)) : World :=
  {| files := list_to_map fs; stdout := []; stderr := []; ticks := 0;
     calls := []; spawned := [] |}.

Definition config_2025 : path * string :=
  ([".aoc-cli.json"], "{" +:+ q +:+ "year" +:+ q +:+ ": 2025}").

Definition solution_template : path * string :=
  (["src"; "solutions"; "template.txt"],
   unlines [
     "# Advent of Code {year}, day {day}";
     "def parse_input(raw): return raw";
     "def part_one(data): return len(data)";
     "def part_two(data): return 2 * len(data)  # {day_padded}" ]).

End Demo.

(** ** Vocabulary of the statements *)

(** The entries of a solutions directory that [glob("day*.py")] yields. *)
Definition day_files (year : option Z) (fs : gmap path string) : list string :=
  filter (λ name, Text.glob_day_py name = true)
         (listdir (template.get_solutions_dir year) fs).

(** How a computation may change the file system: [agree_outside S] leaves
    every path outside [S] as it was, [keeps_outside S] leaves every file
    that exists outside [S] with its text, [extends] removes no file. *)
Definition agree_outside (S : path → Prop) (fs fs' : gmap path string) : Prop :=
  ∀ p, ¬ S p → fs' !! p = fs !! p.
Definition keeps_outside (S : path → Prop) (fs fs' : gmap path string) : Prop :=
  ∀ p, ¬ S p → is_Some (fs !! p) → fs' !! p = fs !! p.
Definition extends (fs fs' : gmap path string) : Prop :=
  ∀ p, is_Some (fs !! p) → is_Some (fs' !! p).
Definition changes (R : relation (gmap path string)) {A} (m : M A) : Prop :=
  ∀ w, R (files w) (files (m w).2).

(** A computation reads the files in [S] only: it runs the same, and
    leaves the same changes, in a file system changed elsewhere. *)
Definition reads (S : path → Prop) {A} (m : M A) : Prop :=
  ∀ g : gmap path string → gmap path string,
    (∀ fs p, S p → g fs !! p = fs !! p) →
    ∀ w, m (set_files g w) = ((m w).1, set_files g (m w).2).






Definition returned {A} (r : sum exn A) : option A :=
  match r with inr a => Some a | inl _ => None end.

(** A day succeeds fully when its solution loads, its input file is there,
    and the three operations are bound and return. *)
Definition succeeds_fully `{Env} (year : option Z) (day : Z) (fs : gmap path string)
  : option (Result * Result) :=
  source ← fs !! template.solution_file day year;
  m ← returned (exec_module ("day" +:+ Text.pad2 day) source);
  text ← fs !! aoc_cli.input_file day year;
  f0 ← parse_input m;
  data ← returned (f0 text);
  f1 ← part_one m;
  result1 ← returned (f1 data);
  f2 ← part_two m;
  result2 ← returned (f2 data);
  Some (result1, result2).

(** The two results as an f-string shows them, the first one first. *)
Definition formatted `{Env} (result1 result2 : Result) : sum exn (string * string) :=
  match format_result result1 with
  | inl e => inl e
  | inr text1 =>
      match format_result result2 with
      | inl e => inl e
      | inr text2 => inr (text1, text2)
      end
  end.

(** What a run of a day shows: its two results as formatted, when the day
    succeeds fully and both results format. *)
Definition shown `{Env} (year : option Z) (day : Z) (fs : gmap path string)
  : option (string * string) :=
  '(result1, result2) ← succeeds_fully year day fs;
  returned (formatted result1 result2).

(** The lines of a run of [run_day] that returns, timed by the four
    readings of the counter taken from reading [n] on. *)
Definition printed `{Env} (day : Z) (text1 text2 : string) (n : nat) : list line :=
  [DayHeader (Text.pad2 day); Dashes;
   PartOne text1 (format_ms (fsub (perf_counter_at (S n)) (perf_counter_at n)));
   PartTwo text2 (format_ms (fsub (perf_counter_at (S (S (S n))))
                                  (perf_counter_at (S (S n)))))].


Definition raises_Exception {A} (r : sum exn A) : Prop :=
  match r with inl e => is_Exception e = true | inr _ => True end.

(** What solutions raise, when they are loaded, when their operations are
    called and when their results are formatted, are instances of
    [Exception]: none calls [sys.exit] or is interrupted. *)
Definition solutions_raise_Exception `{Env} : Prop :=
  (∀ result, raises_Exception (format_result result))
  ∧ ∀ name source,
      raises_Exception (exec_module name source)
      ∧ ∀ m, exec_module name source = inr m →
          (∀ f x, parse_input m = Some f → raises_Exception (f x))
          ∧ (∀ f x, part_one m = Some f → raises_Exception (f x))
          ∧ (∀ f x, part_two m = Some f → raises_Exception (f x)).



(** Every [day*.py] entry of a solutions directory has an ASCII name. *)
Definition ascii_names (year : option Z) (fs : gmap path string) : bool :=
  forallb Text.is_ascii (day_files year fs).

(** ** Worlds used in the examples *)

Definition registry_world : World :=
  Demo.world [(["2025"; "solutions"; "day03.py"], "");
              (["2025"; "solutions"; "day01.py"], "");
              (["2025"; "solutions"; "__init__.py"], "");
              (["2025"; "solutions"; "dayx.py"], "");
              (["2024"; "solutions"; "day09.py"], "")].

Definition offline : Env := Demo.env false Demo.no_download.
Definition online : Env := Demo.env true Demo.fresh_download.
Definition workspace : World := Demo.world [Demo.config_2025; Demo.solution_template].
Definition year_2025 : gmap string Z := {[ "year" := 2025 ]}.

Definition with_input_7 : World :=
  Demo.world [Demo.config_2025; Demo.solution_template;
              (["2025"; "data"; "inputs"; "07.txt"], "1 2 3")].

Definition full_solution : string :=
  unlines ["def parse_input(raw): return raw";
           "def part_one(data): return len(data)";
           "def part_two(data): return 2 * len(data)"].

Definition no_part_two : string :=
  unlines ["def parse_input(raw): return raw";
           "def part_one(data): return len(data)"].

Definition three_days : World :=
  Demo.world [Demo.config_2025;
              (["2025"; "solutions"; "day01.py"], full_solution);
              (["2025"; "solutions"; "day02.py"], full_solution);
              (["2025"; "solutions"; "day03.py"], full_solution);
              (["2025"; "data"; "inputs"; "01.txt"], "abc");
              (["2025"; "data"; "inputs"; "03.txt"], "abcde")].

Definition lacks_part_two_and_input : World :=
  Demo.world [(["2025"; "solutions"; "day01.py"], no_part_two)].

Definition empty_config : World :=
  Demo.world [([".aoc-cli.json"], "{}"); Demo.solution_template].

Definition no_config : World := Demo.world [Demo.solution_template].

Definition no_template : World := Demo.world [Demo.config_2025].


Definition unprintable : Env := {|
  Data := string;
  Result := Z;
  pyfloat := Z;
  json_load := Demo.decode;
  str_format := Demo.render;
  exec_module := Demo.interpret;
  format_result := λ result,
    if bool_decide (result = 0)
    then inl (Raise OtherException "unsupported format string")
    else inr (Text.py_str result);
  format_ms := Text.py_str;
  perf_counter_at := λ n, Z.of_nat (n * n);
  fsub := Z.sub;
  fadd := Z.add;
  fzero := 0;
  aoc_installed := false;
  aoc_download := Demo.no_download;
  pytest_status := λ _, inr 0;
|}.

(** An environment without [uv]. *)
Definition without_uv : Env := {|
  Data := string;
  Result := Z;
  pyfloat := Z;
  json_load := Demo.decode;
  str_format := Demo.render;
  exec_module := Demo.interpret;
  format_result := λ result, inr (Text.py_str result);
  format_ms := Text.py_str;
  perf_counter_at := λ n, Z.of_nat (n * n);
  fsub := Z.sub;
  fadd := Z.add;
  fzero := 0;
  aoc_installed := false;
  aoc_download := Demo.no_download;
  pytest_status := λ _, inl (Raise FileNotFoundError "[Errno 2] No such file or directory: 'uv'");
|}.




Definition with_old_input : World :=
  Demo.world [Demo.config_2025; Demo.solution_template;
              (["2025"; "data"; "inputs"; "02.txt"], "old");
              (["2025"; "tests"; "conftest.py"], "# mine")].

Definition lacks_part_two : World :=
  Demo.world [(["2025"; "solutions"; "day01.py"], no_part_two);
              (["2025"; "data"; "inputs"; "01.txt"], "abc")].

Definition raising_solution : string :=
  unlines ["def parse_input(raw): return raw";
           "def part_one(data): raise ValueError('boom')";
           "def part_two(data): return 2 * len(data)"].

(** Day 7 of two years, with the same input and different solutions. *)
Definition two_years : World :=
  Demo.world [(["2024"; "solutions"; "day07.py"], full_solution);
              (["2025"; "solutions"; "day07.py"], raising_solution);
              (["2024"; "data"; "inputs"; "07.txt"], "abc");
              (["2025"; "data"; "inputs"; "07.txt"], "abc")].

(** The kinds of file a day has in a partition, and where each is kept:
    the paths that [scaffold_day], the readers, the downloads and the runner
    build. *)
Inductive kind := KSolution | KTest | KExample | KInput | KPuzzle | KConftest.

Definition resolve (day : Z) (year : option Z) (k : kind) : path :=
  match k with
  | KSolution => template.solution_file day year
  | KTest => template.test_file day year
  | KExample => aoc_cli.example_file day year
  | KInput => aoc_cli.input_file day year
  | KPuzzle => aoc_cli.puzzle_file day year
  | KConftest => template.conftest_file year
  end.

(** The paths [scaffold_day] creates or writes for a day, and those among
    them that every day of the year shares. *)
Definition scaffold_targets (year day : Z) : list path :=
  [ template.get_solutions_dir (Some year) ++ ["__init__.py"];
    template.get_tests_dir (Some year) ++ ["__init__.py"];
    template.conftest_file (Some year);
    template.solution_file day (Some year);
    template.test_file day (Some year);
    aoc_cli.example_file day (Some year);
    aoc_cli.input_file day (Some year);
    aoc_cli.puzzle_file day (Some year) ].

Definition shared_files (year : Z) : list path :=
  [ template.get_solutions_dir (Some year) ++ ["__init__.py"];
    template.get_tests_dir (Some year) ++ ["__init__.py"];
    template.conftest_file (Some year) ].

(** What stops a scaffold after its directories were made: a template that
    is missing, or one that [str.format] rejects. *)
Definition template_failure `{Env} (year day : Z) (fs : gmap path string) : option exn :=
  match fs !! template.template_path with
  | None => Some (Raise FileNotFoundError (show_path template.template_path))
  | Some tpl =>
      match str_format tpl year day (Text.pad2 day) with
      | inl e => Some e
      | inr _ => None
      end
  end.

(** The command line [time_day] and [time_all] hand to [subprocess.run]. *)
Definition pytest_argv (target : string) : list string :=
  ["uv"; "run"; "pytest"; target; "-v"; "-m"; "benchmark"; "--benchmark-only"].

(** * Properties *)

(** ** Running the model on samples *)

Example py_int_samples :
  map Text.py_int ["07"; " 7 "; "+7"; "-7"; "1_0"; "1__0"; "_1"; "7a"; ""; "-"]
  = [Some 7; Some 7; Some 7; Some (-7); Some 10; None; None; None; None; None].
Proof. vm_compute. reflexivity. Qed.

Example pad2_samples :
  map Text.pad2 [7; 25; 0; 100; -5] = ["07"; "25"; "00"; "100"; "-5"].
Proof. vm_compute. reflexivity. Qed.

Example stem_samples :
  map Text.stem ["day07.py"; "day.py"; "a.b."; ".py"; "day.tar.py"]
  = ["day07"; "day"; "a.b."; ".py"; "day.tar"].
Proof. vm_compute. reflexivity. Qed.

Example glob_samples :
  map Text.glob_day_py ["day07.py"; "day.py"; "daypy"; "day07.pyc"; "xday07.py"]
  = [true; true; false; false; false].
Proof. vm_compute. reflexivity. Qed.

Example demo_format :
  Demo.render "y={year} d={day} p={day_padded} {{}}" 2025 7 "07"
  = inr "y=2025 d=7 p=07 {}".
Proof. vm_compute. reflexivity. Qed.

Example demo_available_days :
  template.available_days (Some 2025)
    (files (Demo.world [(["2025"; "solutions"; "day03.py"], "");
                        (["2025"; "solutions"; "day01.py"], "");
                        (["2025"; "solutions"; "__init__.py"], "");
                        (["2025"; "solutions"; "dayx.py"], "");
                        (["2024"; "solutions"; "day09.py"], "")]))
  = [1; 3].
Proof. vm_compute. reflexivity. Qed.

(** ** Decimal text: printing and reading back *)

Section decimal.
Import Text.

Lemma lstrip_uint d : lstrip (NilEmpty.string_of_uint d) = NilEmpty.string_of_uint d.
Proof. by destruct d. Qed.

Lemma rstrip_uint d : rstrip (NilEmpty.string_of_uint d) = NilEmpty.string_of_uint d.
Proof.
  induction d as [|d IH|d IH|d IH|d IH|d IH|d IH|d IH|d IH|d IH|d IH];
    [done|..]; cbn [NilEmpty.string_of_uint rstrip]; rewrite IH;
    by destruct (NilEmpty.string_of_uint d).
Qed.

Lemma drop_underscores_uint d :
  drop_underscores true (NilEmpty.string_of_uint d) = Some (NilEmpty.string_of_uint d).
Proof.
  induction d as [|d IH|d IH|d IH|d IH|d IH|d IH|d IH|d IH|d IH|d IH];
    [done|..]; cbn [NilEmpty.string_of_uint drop_underscores Ascii.eqb Bool.eqb];
    cbn; by rewrite IH.
Qed.

Lemma remove_day_uint d :
  remove_day (NilEmpty.string_of_uint d) = NilEmpty.string_of_uint d.
Proof.
  induction d as [|d IH|d IH|d IH|d IH|d IH|d IH|d IH|d IH|d IH|d IH];
    [done|..]; cbn [NilEmpty.string_of_uint]; cbn; by rewrite IH.
Qed.

Lemma has_dot_uint d : has_dot (NilEmpty.string_of_uint d) = false.
Proof.
  induction d as [|d IH|d IH|d IH|d IH|d IH|d IH|d IH|d IH|d IH|d IH];
    [done|..]; cbn; by rewrite IH.
Qed.

Lemma drop_underscores_uint_first d :
  d ≠ Decimal.Nil →
  drop_underscores false (NilEmpty.string_of_uint d) = Some (NilEmpty.string_of_uint d).
Proof.
  intros Hd. destruct d; [done|..]; cbn [NilEmpty.string_of_uint];
    cbn; by rewrite drop_underscores_uint.
Qed.

Lemma split_sign_uint d :
  split_sign (NilEmpty.string_of_uint d) = (false, NilEmpty.string_of_uint d).
Proof. by destruct d. Qed.

(** A run of digits that is not empty reads back as the number it spells. *)
Lemma py_int_digits d :
  d ≠ Decimal.Nil →
  py_int (NilEmpty.string_of_uint d) = Some (Z.of_uint d).
Proof.
  intros Hd. unfold py_int, strip.
  rewrite lstrip_uint, rstrip_uint, split_sign_uint.
  rewrite drop_underscores_uint_first by done. cbn.
  by rewrite NilEmpty.usu.
Qed.

Lemma py_int_minus_digits d :
  d ≠ Decimal.Nil →
  py_int (String "-" (NilEmpty.string_of_uint d)) = Some (- Z.of_uint d).
Proof.
  intros Hd. unfold py_int, strip.
  change (lstrip (String "-" ?r)) with (String "-" r).
  assert (rstrip (String "-" (NilEmpty.string_of_uint d))
          = String "-" (NilEmpty.string_of_uint d)) as ->.
  { cbn [rstrip]. rewrite rstrip_uint. by destruct d. }
  cbn [split_sign]. rewrite drop_underscores_uint_first by done. cbn.
  by rewrite NilEmpty.usu.
Qed.

(** [int(str(n)) == n]. *)
Lemma py_int_py_str n : py_int (py_str n) = Some n.
Proof.
  unfold py_str. destruct n as [|p|p]; [done|..]; cbn [Z.to_int NilEmpty.string_of_int].
  - rewrite py_int_digits by apply DecimalPos.Unsigned.to_uint_nonnil.
    unfold Z.of_uint. by rewrite DecimalPos.Unsigned.of_to.
  - rewrite py_int_minus_digits by apply DecimalPos.Unsigned.to_uint_nonnil.
    unfold Z.of_uint. by rewrite DecimalPos.Unsigned.of_to.
Qed.

(** [int(f"{n:02d}") == n]. *)
Lemma py_int_pad2 n : py_int (pad2 n) = Some n.
Proof.
  unfold pad2. case_decide as Hn; [|apply py_int_py_str].
  assert (n = 0 ∨ n = 1 ∨ n = 2 ∨ n = 3 ∨ n = 4 ∨ n = 5 ∨ n = 6 ∨ n = 7 ∨ n = 8 ∨ n = 9)
    as Hcases by lia.
  by repeat (destruct Hcases as [->|Hcases]); [..|subst n].
Qed.

Lemma py_str_inj n m : py_str n = py_str m → n = m.
Proof. intros E. apply (f_equal py_int) in E. rewrite !py_int_py_str in E. congruence. Qed.

Lemma pad2_inj n m : pad2 n = pad2 m → n = m.
Proof. intros E. apply (f_equal py_int) in E. rewrite !py_int_pad2 in E. congruence. Qed.

End decimal.

(** ** File names *)

Section names.
Import Text.

Lemma remove_day_py_str n : remove_day (py_str n) = py_str n.
Proof.
  unfold py_str. destruct n as [|p|p]; [done|..]; cbn [Z.to_int NilEmpty.string_of_int].
  - apply remove_day_uint.
  - change (remove_day (String "-" ?r)) with (String "-" (remove_day r)).
    by rewrite remove_day_uint.
Qed.

Lemma remove_day_pad2 n : remove_day (pad2 n) = pad2 n.
Proof.
  unfold pad2. case_decide; [|apply remove_day_py_str].
  change (remove_day ("0" +:+ ?r)) with (String "0" (remove_day r)).
  by rewrite remove_day_py_str.
Qed.

Lemma append_cons c r s : String c r +:+ s = String c (r +:+ s).
Proof. reflexivity. Qed.

Lemma has_dot_py r : has_dot (r +:+ ".py") = true.
Proof.
  induction r as [|c r IH]; [done|].
  rewrite append_cons. cbn [has_dot]. rewrite IH. apply orb_true_r.
Qed.

Lemma ends_with_dot_py r : ends_with_dot (r +:+ ".py") = false.
Proof.
  induction r as [|c r IH]; [done|].
  rewrite append_cons. destruct r; [done|]. rewrite append_cons in *. by cbn [ends_with_dot] in *.
Qed.

Lemma before_last_dot_py r : before_last_dot (r +:+ ".py") = r.
Proof.
  induction r as [|c r IH]; [done|].
  rewrite append_cons. cbn [before_last_dot]. by rewrite has_dot_py, IH.
Qed.

(** [Path("x.py").stem == "x"] for a name [x] that is not empty. *)
Lemma stem_py c r : stem (String c r +:+ ".py") = String c r.
Proof.
  rewrite append_cons. cbn [stem].
  by rewrite has_dot_py, ends_with_dot_py, before_last_dot_py.
Qed.

Lemma ends_with_py_py r : ends_with_py (r +:+ ".py") = true.
Proof.
  induction r as [|c r IH]; [done|].
  rewrite append_cons. cbn [ends_with_py]. rewrite IH. apply orb_true_r.
Qed.

Lemma glob_day_name d : glob_day_py (template.day_name d) = true.
Proof.
  unfold template.day_name.
  change (glob_day_py ("day" +:+ ?x)) with (ends_with_py x).
  apply ends_with_py_py.
Qed.

(** The name [scaffold_day] gives a day reads back as that day. *)
Lemma day_of_day_name d : template.day_of_name (template.day_name d) = Some d.
Proof.
  unfold template.day_of_name, template.day_name.
  change ("day" +:+ pad2 d +:+ ".py") with (String "d" ("ay" +:+ pad2 d) +:+ ".py").
  rewrite stem_py.
  change (remove_day (String "d" ("ay" +:+ pad2 d))) with (remove_day (pad2 d)).
  rewrite remove_day_pad2. apply py_int_pad2.
Qed.

Lemma day_name_inj d d' : template.day_name d = template.day_name d' → d = d'.
Proof.
  intros E. apply (f_equal template.day_of_name) in E.
  rewrite !day_of_day_name in E. congruence.
Qed.

End names.

(** ** Directory listings *)

Lemma child_name_Some (dir p : path) (name : string) :
  child_name dir p = Some name ↔ p = dir ++ [name].
Proof.
  revert p. induction dir as [|d dir IH]; intros p.
  - destruct p as [|c [|c' p]]; cbn; split; congruence.
  - destruct p as [|c p]; cbn; [split; congruence|].
    case_decide as Hdc; [subst; rewrite IH|]; split; congruence.
Qed.

Lemma elem_of_listdir (dir : path) (fs : gmap path string) (name : string) :
  name ∈ listdir dir fs ↔ is_Some (fs !! (dir ++ [name])).
Proof.
  unfold listdir. rewrite list_elem_of_omap. split.
  - intros (p & Hp & Hc). apply child_name_Some in Hc as ->.
    by apply elem_of_elements, elem_of_dom in Hp.
  - intros Hp. exists (dir ++ [name]). split; [|by apply child_name_Some].
    by apply elem_of_elements, elem_of_dom.
Qed.

Lemma NoDup_omap_inj {A B} (f : A → option B) (l : list A) :
  (∀ x y z, x ∈ l → y ∈ l → f x = Some z → f y = Some z → x = y) →
  NoDup l → NoDup (omap f l).
Proof.
  intros Hinj Hl. induction Hl as [|x l Hx Hl IH]; cbn; [constructor|].
  assert (NoDup (omap f l)) as IH'.
  { apply IH. intros a b z Ha Hb. apply Hinj; by right. }
  destruct (f x) as [z|] eqn:Hfx; [|done].
  constructor; [|done].
  rewrite list_elem_of_omap. intros (y & Hy & Hfy).
  assert (x = y) as -> by (eapply Hinj; [by left|by right|done..]).
  done.
Qed.

Lemma NoDup_listdir (dir : path) (fs : gmap path string) : NoDup (listdir dir fs).
Proof.
  apply NoDup_omap_inj; [|apply NoDup_elements].
  intros p p' name _ _ Hp Hp'.
  apply child_name_Some in Hp, Hp'. congruence.
Qed.

Lemma StronglySorted_le_lt (l : list Z) :
  StronglySorted Z.le l → NoDup l → StronglySorted Z.lt l.
Proof.
  induction 1 as [|x l Hl IH Hx]; intros Hnd; [constructor|].
  apply NoDup_cons in Hnd as [Hx' Hnd].
  constructor; [by apply IH|].
  rewrite Forall_forall in Hx |- *. intros y Hy.
  assert (x ≠ y) by (intros ->; done).
  specialize (Hx y Hy). lia.
Qed.

(** ** The registry: [get_available_days] *)

Section registry.
Implicit Types (year : option Z) (fs : gmap path string) (d : Z).

Lemma NoDup_day_files year fs : NoDup (day_files year fs).
Proof. apply NoDup_filter, NoDup_listdir. Qed.

(** What is listed, in any directory: the days read off the entries that
    match [day*.py]; an entry that reads as no integer adds nothing. *)
Lemma elem_of_available_days year fs d :
  d ∈ template.available_days year fs ↔
  ∃ name, is_Some (fs !! (template.get_solutions_dir year ++ [name]))
          ∧ Text.glob_day_py name = true
          ∧ template.day_of_name name = Some d.
Proof.
  unfold template.available_days, template.sorted.
  rewrite merge_sort_Permutation, list_elem_of_omap.
  split.
  - intros (name & Hname & Hd). apply list_elem_of_filter in Hname as [Hg Hin].
    apply elem_of_listdir in Hin. eauto.
  - intros (name & Hin & Hg & Hd). exists name. split; [|done].
    apply list_elem_of_filter. split; [done|]. by apply elem_of_listdir.
Qed.

(** The listing is ascending in any directory. *)
Lemma available_days_ascending year fs :
  StronglySorted Z.le (template.available_days year fs).
Proof. apply StronglySorted_merge_sort; apply _. Qed.

Lemma canonical_names_spec year fs name d :
  template.canonical_names year fs = true →
  is_Some (fs !! (template.get_solutions_dir year ++ [name])) →
  Text.glob_day_py name = true →
  template.day_of_name name = Some d →
  name = template.day_name d.
Proof.
  unfold template.canonical_names. rewrite forallb_forall.
  intros Hall Hin Hg Hd. specialize (Hall name).
  rewrite Hd, bool_decide_eq_true in Hall. apply Hall.
  apply list_elem_of_In, list_elem_of_filter. split; [done|].
  by apply elem_of_listdir.
Qed.

End registry.

(** C3, as amended.  In a solutions directory whose [day*.py] entries are
    regular files with ASCII names, each named the way [scaffold_day] names
    its day or read as no integer, [get_available_days] returns, without
    changing anything, a strictly ascending list of days, hence one without
    duplicates, whose members are exactly the days whose solution file
    exists. *)
Theorem get_available_days_canonical (year : option Z) (w : World) :
  ascii_names year (files w) = true →
  template.canonical_names year (files w) = true →
  ∃ days, template.get_available_days year w = (Val days, w)
        ∧ StronglySorted Z.lt days
        ∧ NoDup days
        ∧ ∀ d, d ∈ days ↔ is_Some (files w !! template.solution_file d year).
Proof.
  intros _ Hcanon. exists (template.available_days year (files w)).
  split; [done|].
  assert (NoDup (template.available_days year (files w))) as Hnd.
  { unfold template.available_days, template.sorted.
    rewrite merge_sort_Permutation.
    apply NoDup_omap_inj; [|apply NoDup_day_files].
    intros x y z Hx Hy Hfx Hfy.
    apply list_elem_of_filter in Hx as [Hgx Hx], Hy as [Hgy Hy].
    apply elem_of_listdir in Hx, Hy.
    rewrite (canonical_names_spec year (files w) x z) by done.
    by rewrite (canonical_names_spec year (files w) y z). }
  split; [|split; [done|]].
  - apply StronglySorted_le_lt; [apply available_days_ascending|done].
  - intros d. rewrite elem_of_available_days. unfold template.solution_file. split.
    + intros (name & Hin & Hg & Hd).
      by rewrite <- (canonical_names_spec year (files w) name d).
    + intros Hin. exists (template.day_name d).
      split; [done|]. split; [apply glob_day_name|apply day_of_day_name].
Qed.

(** C3 as amended, on a directory with two days, a package marker and a
    file whose day does not read as an integer. *)
Lemma get_available_days_canonical_witness :
  ∃ days, template.get_available_days (Some 2025) registry_world = (Val days, registry_world)
        ∧ StronglySorted Z.lt days
        ∧ NoDup days
        ∧ ∀ d, d ∈ days ↔ is_Some (files registry_world !! template.solution_file d (Some 2025)).
Proof.
  apply (get_available_days_canonical (Some 2025) registry_world); vm_compute; reflexivity.
Defined.

(** C3, as stated, fails where a stray file reads as a day: with [day1.py]
    next to [day01.py] day 1 is listed twice, and with [day1.py] alone day 1
    is listed although its solution file [day01.py] does not exist. *)
Lemma get_available_days_stray_names :
  let both := Demo.world [(["2025"; "solutions"; "day01.py"], "");
                          (["2025"; "solutions"; "day1.py"], "")] in
  let stray := Demo.world [(["2025"; "solutions"; "day1.py"], "")] in
  template.get_available_days (Some 2025) both = (Val [1; 1], both)
  ∧ ¬ NoDup [1; 1]
  ∧ template.get_available_days (Some 2025) stray = (Val [1], stray)
  ∧ files stray !! template.solution_file 1 (Some 2025) = None.
Proof.
  cbv zeta. split; [vm_compute; reflexivity|].
  split; [|split; vm_compute; reflexivity].
  intros Hnd. apply NoDup_cons in Hnd as [Hin _]. apply Hin. by left.
Qed.

(** ** Effects on the file system, step by step *)

(** Two paths that differ in a literal component. *)
Ltac path_ne :=
  unfold template.solution_file, template.test_file, template.conftest_file,
    template.day_name, template.get_solutions_dir, template.get_tests_dir,
    template.template_path, template.config_path,
    aoc_cli.input_file, aoc_cli.example_file, aoc_cli.puzzle_file,
    aoc_cli.get_aoc_data_dir;
  rewrite ?append_cons; cbn [app]; solve [intros ?; simplify_eq].

Section changes.
Context `{Env}.
Implicit Types (w : World) (fs : gmap path string) (S : path → Prop).

Global Instance agree_outside_po S : PreOrder (agree_outside S).
Proof.
  split; [by intros fs p|].
  intros fs1 fs2 fs3 H12 H23 p Hp. by rewrite H23, H12.
Qed.

Global Instance keeps_outside_po S : PreOrder (keeps_outside S).
Proof.
  split; [by intros fs p|].
  intros fs1 fs2 fs3 H12 H23 p Hp Hsome.
  rewrite H23, H12; [done..|]. by rewrite H12.
Qed.

Global Instance extends_po : PreOrder extends.
Proof. split; [by intros fs p|]. intros fs1 fs2 fs3 H12 H23 p Hp. auto. Qed.

Lemma bind_val {A B} (m : M A) (f : A → M B) w a w' :
  m w = (Val a, w') → (m ≫= f) w = f a w'.
Proof. intros E. unfold mbind, M_bind. by rewrite E. Qed.

Lemma bind_exc {A B} (m : M A) (f : A → M B) w e w' :
  m w = (Exc e, w') → (m ≫= f) w = (Exc e, w').
Proof. intros E. unfold mbind, M_bind. by rewrite E. Qed.

Section rel.
Context (R : relation (gmap path string)) `{!PreOrder R}.

Lemma changes_ret {A} (a : A) : changes R (mret a).
Proof. intros w. reflexivity. Qed.

Lemma changes_raise {A} e : changes R (raise e : M A).
Proof. intros w. reflexivity. Qed.

Lemma changes_bind {A B} (m : M A) (f : A → M B) :
  changes R m → (∀ a, changes R (f a)) → changes R (m ≫= f).
Proof.
  intros Hm Hf w. unfold mbind, M_bind. specialize (Hm w).
  destruct (m w) as [[a|e] w1]; [|done].
  etrans; [exact Hm|apply Hf].
Qed.

Lemma changes_try {A} (body : M A) caught handler :
  changes R body → (∀ e, changes R (handler e)) →
  changes R (try_except body caught handler).
Proof.
  intros Hm Hh w. unfold try_except. specialize (Hm w).
  destruct (body w) as [[a|e] w1]; [done|].
  destruct (caught e); [|done]. etrans; [exact Hm|apply Hh].
Qed.

Lemma changes_print l : changes R (print l).
Proof. intros w. reflexivity. Qed.

Lemma changes_exists p : changes R (exists_ p).
Proof. intros w. reflexivity. Qed.

Lemma changes_mkdir p : changes R (mkdir_p p).
Proof. intros w. reflexivity. Qed.

Lemma changes_read_text p : changes R (read_text p).
Proof. intros w. unfold read_text. by destruct (files w !! p). Qed.

End rel.

Lemma agree_run_aoc S t year day target :
  S target → changes (agree_outside S) (aoc_cli.run_aoc t year day target).
Proof.
  intros HS w p Hp. cbn. unfold aoc_cli.aoc_fs.
  destruct (written _); [|done]. apply lookup_insert_ne. by intros ->.
Qed.

Lemma extends_run_aoc t year day target :
  changes extends (aoc_cli.run_aoc t year day target).
Proof.
  intros w p Hp. cbn. unfold aoc_cli.aoc_fs.
  destruct (written _); [|done]. rewrite lookup_insert. by case_decide.
Qed.

Ltac changes_steps :=
  repeat first
    [ apply changes_ret; apply _ | apply changes_raise; apply _
    | apply changes_print; apply _ | apply changes_exists; apply _
    | apply changes_mkdir; apply _ | apply changes_read_text; apply _
    | apply changes_bind; [apply _| |intros ?]
    | apply changes_try; [apply _| |intros ?]
    | match goal with |- changes _ (if ?b then _ else _) => destruct b end ].

Lemma agree_download_both day year :
  changes (agree_outside (λ p, p = aoc_cli.input_file day (Some year)
                             ∨ p = aoc_cli.puzzle_file day (Some year)))
          (template.download_both day year).
Proof.
  unfold template.download_both, aoc_cli.download_input, aoc_cli.download_puzzle,
    aoc_cli.check_aoc_cli.
  changes_steps; apply agree_run_aoc; auto.
Qed.

Lemma extends_download_both day year :
  changes extends (template.download_both day year).
Proof.
  unfold template.download_both, aoc_cli.download_input, aoc_cli.download_puzzle,
    aoc_cli.check_aoc_cli.
  changes_steps; apply extends_run_aoc.
Qed.

Lemma download_both_raises day year w e w' :
  template.download_both day year w = (Exc e, w') → is_Exception e = true.
Proof.
  unfold template.download_both, aoc_cli.download_input, aoc_cli.download_puzzle,
    aoc_cli.check_aoc_cli, aoc_cli.run_aoc, exists_, mbind, M_bind, mret, M_ret, raise.
  intros E. repeat (case_match; simplify_eq/=); done.
Qed.

(** *** Steps of [scaffold_day] *)

Lemma download_step_run day year download w :
  ∃ w1, template.download_step day year download w = (Val (), w1)
      ∧ agree_outside (λ p, p = aoc_cli.input_file day (Some year)
                            ∨ p = aoc_cli.puzzle_file day (Some year))
                      (files w) (files w1)
      ∧ extends (files w) (files w1)
      ∧ (download = false → w1 = w).
Proof.
  destruct download; [|by exists w].
  unfold template.download_step, try_except.
  pose proof (agree_download_both day year w) as Ha.
  pose proof (extends_download_both day year w) as He.
  destruct (template.download_both day year w) as [[[]|e] wd] eqn:E.
  - by exists wd.
  - rewrite (download_both_raises _ _ _ _ _ E). by eexists.
Qed.

Lemma load_config_run w text config :
  files w !! template.config_path = Some text →
  json_load text = Some config →
  template.load_config w = (Val config, w).
Proof.
  intros Hf Hj. unfold template.load_config.
  rewrite (bind_val _ _ w text w) by (unfold read_text; by rewrite Hf).
  by rewrite Hj.
Qed.

Lemma exists_run p w :
  exists_ p w = (Val (bool_decide (is_Some (files w !! p))), w).
Proof. done. Qed.

Lemma set_files_id w : set_files (λ fs, fs) w = w.
Proof. by destruct w. Qed.

Lemma touch_if_absent_run p w :
  template.touch_if_absent p w = (Val (), set_files (touch_fs p) w).
Proof.
  unfold template.touch_if_absent, exists_, mbind, M_bind, touch, touch_fs, set_files.
  destruct w as [fs out err n cs ps]; cbn [files stdout stderr ticks calls spawned].
  destruct (fs !! p) as [text|] eqn:E.
  - rewrite bool_decide_eq_true_2 by eauto. by cbn.
  - rewrite bool_decide_eq_false_2 by (by intros [? ?]). cbn. by rewrite ?E.
Qed.

Lemma write_if_absent_run p text w :
  template.write_if_absent p text w
  = (Val (), set_files (template.write_if_absent_fs p text) w).
Proof.
  unfold template.write_if_absent, exists_, mbind, M_bind, write_text,
    template.write_if_absent_fs, set_files.
  destruct w as [fs out err n cs ps]; cbn [files stdout stderr ticks calls spawned].
  destruct (fs !! p) as [old|] eqn:E.
  - rewrite bool_decide_eq_true_2 by eauto. by cbn.
  - rewrite bool_decide_eq_false_2 by (by intros [? ?]). cbn. by rewrite ?E.
Qed.

(** *** The file system after the steps *)

Lemma lookup_touch_fs_ne p q fs : p ≠ q → touch_fs p fs !! q = fs !! q.
Proof.
  intros Hne. unfold touch_fs. destruct (fs !! p); [done|]. by apply lookup_insert_ne.
Qed.

Lemma lookup_touch_fs_kept p q fs : is_Some (fs !! q) → touch_fs p fs !! q = fs !! q.
Proof.
  intros Hq. unfold touch_fs. destruct (fs !! p) eqn:E; [done|].
  apply lookup_insert_ne. intros ->. rewrite E in Hq. by destruct Hq.
Qed.

Lemma lookup_touch_fs_absent p fs : fs !! p = None → touch_fs p fs !! p = Some "".
Proof. intros E. unfold touch_fs. rewrite E. apply lookup_insert_eq. Qed.

Lemma lookup_write_if_absent_fs_ne p q text fs :
  p ≠ q → template.write_if_absent_fs p text fs !! q = fs !! q.
Proof.
  intros Hne. unfold template.write_if_absent_fs.
  destruct (fs !! p); [done|]. by apply lookup_insert_ne.
Qed.

Lemma lookup_write_if_absent_fs_kept p q text fs :
  is_Some (fs !! q) → template.write_if_absent_fs p text fs !! q = fs !! q.
Proof.
  intros Hq. unfold template.write_if_absent_fs. destruct (fs !! p) eqn:E; [done|].
  apply lookup_insert_ne. intros ->. rewrite E in Hq. by destruct Hq.
Qed.

(** The steps of [scaffold_day], run one after the other in a world where
    the configuration and the template can be read and the day is new. *)
Lemma scaffold_day_run day download w text config tpl content :
  files w !! template.config_path = Some text →
  json_load text = Some config →
  let year := default 2025%Z (config !! "year") in
  files w !! template.solution_file day (Some year) = None →
  files w !! template.template_path = Some tpl →
  str_format tpl year day (Text.pad2 day) = inr content →
  ∃ w1, template.download_step day year download w = (Val (), w1)
      ∧ agree_outside (λ p, p = aoc_cli.input_file day (Some year)
                            ∨ p = aoc_cli.puzzle_file day (Some year))
                      (files w) (files w1)
      ∧ extends (files w) (files w1)
      ∧ (download = false → w1 = w)
      ∧ template.scaffold_day day download w
        = (Val (template.solution_file day (Some year),
                template.test_file day (Some year),
                aoc_cli.example_file day (Some year)),
           set_files (template.scaffold_fs year day content) w1).
Proof.
  intros Hcfg Hjson year Hnew Htpl Hfmt.
  destruct (download_step_run day year download w) as (w1 & Hdl & Hagree & Hext & Hsame).
  exists w1. do 4 (split; [done|]).
  unfold template.scaffold_day.
  rewrite (bind_val _ _ w config w) by by eapply load_config_run.
  fold year.
  rewrite (bind_val _ _ w false w)
    by (rewrite exists_run, Hnew; f_equal; f_equal; by apply bool_decide_eq_false_2; intros [? ?]).
  rewrite (bind_val _ _ w () w1) by done.
  do 5 (rewrite (bind_val (mkdir_p _) _ _ () _) by done).
  do 2 (rewrite (bind_val (touch _) _ _ () _) by done).
  rewrite (bind_val _ _ _ () _) by apply write_if_absent_run.
  unfold template.read_template.
  erewrite (bind_val (read_text _) _ _ tpl _).
  2:{ unfold read_text. cbn [files set_files].
      rewrite lookup_write_if_absent_fs_ne by path_ne.
      rewrite !lookup_touch_fs_ne by path_ne.
      rewrite Hagree, Htpl; [done|]. intros [E|E]; revert E; path_ne. }
  rewrite Hfmt.
  do 2 (rewrite (bind_val (write_text _ _) _ _ () _) by done).
  do 3 (rewrite (bind_val _ _ _ () _) by apply touch_if_absent_run).
  done.
Qed.

(** The scaffold was refused: the solution file is there. *)
Lemma scaffold_day_exists day download w text config :
  files w !! template.config_path = Some text →
  json_load text = Some config →
  let year := default 2025%Z (config !! "year") in
  is_Some (files w !! template.solution_file day (Some year)) →
  template.scaffold_day day download w
  = (Exc (Raise FileExistsError
            ("Solution for day " +:+ Text.py_str day +:+ " already exists")), w).
Proof.
  intros Hcfg Hjson year Hold.
  unfold template.scaffold_day.
  rewrite (bind_val _ _ w config w) by by eapply load_config_run.
  fold year.
  by rewrite (bind_val _ _ w true w)
    by (rewrite exists_run; f_equal; f_equal; by apply bool_decide_eq_true_2).
Qed.

(** The scaffold stops at the template: it is missing, or it does not
    format. *)
Lemma scaffold_day_stops day download w text config e :
  files w !! template.config_path = Some text →
  json_load text = Some config →
  let year := default 2025%Z (config !! "year") in
  files w !! template.solution_file day (Some year) = None →
  template_failure year day (files w) = Some e →
  ∃ w', template.scaffold_day day download w = (Exc e, w').
Proof.
  intros Hcfg Hjson year Hnew Hfail.
  destruct (download_step_run day year download w) as (w1 & Hdl & Hagree & _ & _).
  eexists.
  unfold template.scaffold_day.
  rewrite (bind_val _ _ w config w) by by eapply load_config_run.
  fold year.
  rewrite (bind_val _ _ w false w)
    by (rewrite exists_run, Hnew; f_equal; f_equal;
        by apply bool_decide_eq_false_2; intros [? ?]).
  rewrite (bind_val _ _ w () w1) by done.
  do 5 (rewrite (bind_val (mkdir_p _) _ _ () _) by done).
  do 2 (rewrite (bind_val (touch _) _ _ () _) by done).
  rewrite (bind_val _ _ _ () _) by apply write_if_absent_run.
  unfold template.read_template, template_failure in *.
  match goal with
  | |- (read_text _ ≫= _) ?w0 = _ =>
      assert (files w0 !! template.template_path = files w !! template.template_path) as Ht
  end.
  { cbn [files set_files].
    rewrite lookup_write_if_absent_fs_ne by path_ne.
    rewrite !lookup_touch_fs_ne by path_ne.
    apply Hagree. intros [E|E]; revert E; path_ne. }
  destruct (files w !! template.template_path) as [tpl|] eqn:Htpl.
  - erewrite (bind_val (read_text _) _ _ tpl _) by (unfold read_text; by rewrite Ht).
    destruct (str_format tpl year day (Text.pad2 day)); by simplify_eq.
  - simplify_eq.
    by erewrite (bind_exc (read_text _) _ _ _ _) by (unfold read_text; by rewrite Ht).
Qed.

(** A scaffold returns only where the configuration and the template were
    read, the template formatted and the solution was not there. *)
Lemma scaffold_day_returns day download w paths w' :
  template.scaffold_day day download w = (Val paths, w') →
  ∃ text config tpl content,
    files w !! template.config_path = Some text
    ∧ json_load text = Some config
    ∧ files w !! template.solution_file day (Some (default 2025%Z (config !! "year"))) = None
    ∧ files w !! template.template_path = Some tpl
    ∧ str_format tpl (default 2025%Z (config !! "year")) day (Text.pad2 day) = inr content.
Proof.
  intros Hrun.
  destruct (files w !! template.config_path) as [text|] eqn:Hcfg.
  2:{ unfold template.scaffold_day, template.load_config, read_text, mbind, M_bind in Hrun.
      by rewrite Hcfg in Hrun. }
  destruct (json_load text) as [config|] eqn:Hjson.
  2:{ unfold template.scaffold_day, template.load_config, read_text, mbind, M_bind in Hrun.
      by rewrite Hcfg, Hjson in Hrun. }
  destruct (files w !! template.solution_file day (Some (default 2025%Z (config !! "year"))))
    as [old|] eqn:Hsol.
  { rewrite (scaffold_day_exists day download w text config) in Hrun by (rewrite ?Hsol; eauto).
    done. }
  destruct (template_failure (default 2025%Z (config !! "year")) day (files w)) as [e|] eqn:Hfail.
  { destruct (scaffold_day_stops day download w text config e) as [w0 Hstop]; [done..|].
    by rewrite Hstop in Hrun. }
  unfold template_failure in Hfail.
  destruct (files w !! template.template_path) as [tpl|]; [|done].
  destruct (str_format tpl _ day (Text.pad2 day)) as [e|content] eqn:Hfmt; [done|].
  by exists text, config, tpl, content.
Qed.

(** *** What [scaffold_fs] leaves where *)

Lemma scaffold_fs_solution year day content fs :
  template.scaffold_fs year day content fs !! template.solution_file day (Some year)
  = Some content.
Proof.
  unfold template.scaffold_fs.
  rewrite !lookup_touch_fs_ne by path_ne.
  rewrite lookup_insert_ne by path_ne.
  apply lookup_insert_eq.
Qed.

Lemma scaffold_fs_test year day content fs :
  template.scaffold_fs year day content fs !! template.test_file day (Some year)
  = Some (template.test_content year day (Text.pad2 day)).
Proof.
  unfold template.scaffold_fs.
  rewrite !lookup_touch_fs_ne by path_ne.
  apply lookup_insert_eq.
Qed.

Lemma keeps_touch_fs S p fs : keeps_outside S fs (touch_fs p fs).
Proof. intros q _ Hq. by apply lookup_touch_fs_kept. Qed.

Lemma keeps_write_if_absent_fs S p text fs :
  keeps_outside S fs (template.write_if_absent_fs p text fs).
Proof. intros q _ Hq. by apply lookup_write_if_absent_fs_kept. Qed.

Lemma keeps_insert S p text fs : S p → keeps_outside S fs (<[p:=text]> fs).
Proof. intros Hp q Hq _. apply lookup_insert_ne. by intros ->. Qed.

Lemma extends_touch_fs p fs : extends fs (touch_fs p fs).
Proof.
  intros q Hq. by rewrite lookup_touch_fs_kept.
Qed.

Lemma extends_write_if_absent_fs p text fs :
  extends fs (template.write_if_absent_fs p text fs).
Proof. intros q Hq. by rewrite lookup_write_if_absent_fs_kept. Qed.

Lemma extends_insert p text fs : extends fs (<[p:=text]> fs).
Proof. intros q Hq. rewrite lookup_insert. by case_decide. Qed.

(** After the download block a scaffold overwrites two files only, the
    solution and the test of its day: any other file that was there keeps
    its text. *)
Lemma scaffold_fs_keeps year day content fs :
  keeps_outside (λ p, p = template.solution_file day (Some year)
                      ∨ p = template.test_file day (Some year))
                fs (template.scaffold_fs year day content fs).
Proof.
  unfold template.scaffold_fs.
  do 3 (etrans; [|apply keeps_touch_fs]).
  do 2 (etrans; [|apply keeps_insert; auto]).
  etrans; [|apply keeps_write_if_absent_fs].
  etrans; [|apply keeps_touch_fs]. apply keeps_touch_fs.
Qed.

Lemma scaffold_fs_extends year day content fs :
  extends fs (template.scaffold_fs year day content fs).
Proof.
  unfold template.scaffold_fs.
  do 3 (etrans; [|apply extends_touch_fs]).
  do 2 (etrans; [|apply extends_insert]).
  etrans; [|apply extends_write_if_absent_fs].
  etrans; [|apply extends_touch_fs]. apply extends_touch_fs.
Qed.

(** The paths a scaffold may create or write. *)
Lemma scaffold_fs_agree year day content fs p :
  p ∉ [ template.get_solutions_dir (Some year) ++ ["__init__.py"];
        template.get_tests_dir (Some year) ++ ["__init__.py"];
        template.conftest_file (Some year);
        template.solution_file day (Some year);
        template.test_file day (Some year);
        aoc_cli.example_file day (Some year);
        aoc_cli.input_file day (Some year);
        aoc_cli.puzzle_file day (Some year) ] →
  template.scaffold_fs year day content fs !! p = fs !! p.
Proof.
  intros Hp. unfold template.scaffold_fs.
  rewrite !not_elem_of_cons in Hp. destruct_and!.
  rewrite !lookup_touch_fs_ne by done.
  rewrite !lookup_insert_ne by done.
  rewrite lookup_write_if_absent_fs_ne by done.
  by rewrite !lookup_touch_fs_ne by done.
Qed.

(** ** Scaffolding is create-once *)


(** ** What a scaffold leaves untouched *)

Lemma lookup_touch_fs_eq p fs : touch_fs p fs !! p = Some (default "" (fs !! p)).
Proof.
  unfold touch_fs. destruct (fs !! p) eqn:E; cbn; [done|]. apply lookup_insert_eq.
Qed.

Lemma lookup_write_if_absent_fs_eq p text fs :
  template.write_if_absent_fs p text fs !! p = Some (default text (fs !! p)).
Proof.
  unfold template.write_if_absent_fs.
  destruct (fs !! p) eqn:E; cbn; [done|]. apply lookup_insert_eq.
Qed.

Lemma append_length s t :
  String.length (s +:+ t) = (String.length s + String.length t)%nat.
Proof. induction s as [|c s IH]; [done|]. rewrite append_cons. cbn. by rewrite IH. Qed.

Lemma append_inj_r s1 s2 t : s1 +:+ t = s2 +:+ t → s1 = s2.
Proof.
  revert s2. induction s1 as [|c s1 IH]; intros [|c' s2] E; [done|..].
  - apply (f_equal String.length) in E. rewrite !append_length in E. cbn in E. lia.
  - apply (f_equal String.length) in E. rewrite !append_length in E. cbn in E. lia.
  - rewrite !append_cons in E. simplify_eq. f_equal. by apply IH.
Qed.

(** The data files of two different days are different files. *)
Lemma data_files_of_other_day year d day :
  d ≠ day →
  ∀ p, p ∈ [aoc_cli.example_file d (Some year); aoc_cli.input_file d (Some year);
            aoc_cli.puzzle_file d (Some year)] →
       p ∉ [aoc_cli.example_file day (Some year); aoc_cli.input_file day (Some year);
            aoc_cli.puzzle_file day (Some year); template.solution_file day (Some year);
            template.test_file day (Some year)].
Proof.
  intros Hd p Hp.
  assert (∀ ext, Text.pad2 d +:+ ext ≠ Text.pad2 day +:+ ext) as Hne.
  { intros ext E. apply append_inj_r, pad2_inj in E. done. }
  rewrite !elem_of_cons, elem_of_nil in Hp.
  rewrite !not_elem_of_cons.
  unfold aoc_cli.example_file, aoc_cli.input_file, aoc_cli.puzzle_file,
    template.solution_file, template.test_file, aoc_cli.get_aoc_data_dir,
    template.get_solutions_dir, template.get_tests_dir in *.
  cbn [app] in *.
  destruct Hp as [->|[->|[->|[]]]];
    repeat split; try apply not_elem_of_nil;
    intros E; simplify_eq; by eapply Hne.
Qed.

(** C9, as amended.  A scaffold that succeeds writes two files whatever was
    there, the solution and the test of its day.  The conftest is written
    only if there was none, and the example, input and puzzle placeholders
    are created empty only if there were none.  So a scaffold without
    download leaves the conftest and every example, input and puzzle file
    that existed byte for byte as they were; a scaffold with download does so
    too for every file but the input and the puzzle of the day it scaffolds,
    which the download tool was told to overwrite: the files of every other
    day are kept in both cases. *)
Theorem scaffold_day_keeps_files day download w text config tpl content :
  files w !! template.config_path = Some text →
  json_load text = Some config →
  let year := default 2025%Z (config !! "year") in
  let solution := template.solution_file day (Some year) in
  let test := template.test_file day (Some year) in
  let conftest := template.conftest_file (Some year) in
  let example := aoc_cli.example_file day (Some year) in
  let input := aoc_cli.input_file day (Some year) in
  let puzzle := aoc_cli.puzzle_file day (Some year) in
  files w !! solution = None →
  files w !! template.template_path = Some tpl →
  str_format tpl year day (Text.pad2 day) = inr content →
  ∃ w', template.scaffold_day day download w = (Val (solution, test, example), w')
      ∧ (∀ p, p ≠ solution → p ≠ test →
              (download = true → p ≠ input ∧ p ≠ puzzle) →
              is_Some (files w !! p) → files w' !! p = files w !! p)
      ∧ files w' !! conftest = Some (default template.conftest_content (files w !! conftest))
      ∧ files w' !! example = Some (default "" (files w !! example))
      ∧ (download = false →
           files w' !! input = Some (default "" (files w !! input))
           ∧ files w' !! puzzle = Some (default "" (files w !! puzzle)))
      ∧ (∀ d p, d ≠ day →
                p ∈ [aoc_cli.example_file d (Some year); aoc_cli.input_file d (Some year);
                     aoc_cli.puzzle_file d (Some year)] →
                is_Some (files w !! p) → files w' !! p = files w !! p).
Proof.
  intros Hcfg Hjson year solution test conftest example input puzzle Hnew Htpl Hfmt.
  destruct (scaffold_day_run day download w text config tpl content)
    as (w1 & _ & Hagree & _ & Hsame & Hrun); [done..|].
  fold year solution test example in Hrun. fold year input puzzle in Hagree.
  eexists. split; [exact Hrun|]. cbn [files set_files].
  assert (∀ p, p ≠ solution → p ≠ test → files w1 !! p = files w !! p →
               is_Some (files w !! p) →
               template.scaffold_fs year day content (files w1) !! p = files w !! p)
    as Hkeep.
  { intros p Hp1 Hp2 Hw1 Hsome. rewrite <- Hw1. apply scaffold_fs_keeps.
    - intros [?|?]; done.
    - by rewrite Hw1. }
  split; [|split; [|split; [|split]]].
  - intros p Hp1 Hp2 Hdl Hsome. apply Hkeep; [done..| |done].
    destruct download.
    + destruct Hdl as [??]; [done|]. apply Hagree. intros [?|?]; done.
    + by rewrite Hsame.
  - unfold template.scaffold_fs.
    rewrite !lookup_touch_fs_ne by path_ne.
    rewrite !lookup_insert_ne by path_ne.
    rewrite lookup_write_if_absent_fs_eq.
    rewrite !lookup_touch_fs_ne by path_ne.
    rewrite Hagree; [done|]. intros [E|E]; revert E; path_ne.
  - unfold template.scaffold_fs.
    rewrite !lookup_touch_fs_ne by path_ne.
    rewrite lookup_touch_fs_eq.
    rewrite !lookup_insert_ne by path_ne.
    rewrite lookup_write_if_absent_fs_ne by path_ne.
    rewrite !lookup_touch_fs_ne by path_ne.
    rewrite Hagree; [done|]. intros [E|E]; revert E; path_ne.
  - intros ->. rewrite Hsame by done. unfold template.scaffold_fs. split.
    + rewrite lookup_touch_fs_ne by path_ne.
      rewrite lookup_touch_fs_eq.
      rewrite lookup_touch_fs_ne by path_ne.
      rewrite !lookup_insert_ne by path_ne.
      rewrite lookup_write_if_absent_fs_ne by path_ne.
      by rewrite !lookup_touch_fs_ne by path_ne.
    + rewrite lookup_touch_fs_eq.
      rewrite !lookup_touch_fs_ne by path_ne.
      rewrite !lookup_insert_ne by path_ne.
      rewrite lookup_write_if_absent_fs_ne by path_ne.
      by rewrite !lookup_touch_fs_ne by path_ne.
  - intros d p Hd Hp Hsome.
    pose proof (data_files_of_other_day year d day Hd p Hp) as Hother.
    rewrite !not_elem_of_cons in Hother. destruct_and!.
    apply Hkeep; [done..| |done].
    apply Hagree. intros [?|?]; done.
Qed.

(** ** A failed download does not stop a scaffold *)

Lemma download_both_console day year w r w' :
  template.download_both day year w = (r, w') →
  stdout w' = stdout w ∧ stderr w' = stderr w.
Proof.
  unfold template.download_both, aoc_cli.download_input, aoc_cli.download_puzzle,
    aoc_cli.check_aoc_cli, aoc_cli.run_aoc, exists_, mbind, M_bind, mret, M_ret, raise.
  intros E. repeat (case_match; simplify_eq/=); done.
Qed.

Lemma touch_fs_local q p fs1 fs2 :
  fs1 !! p = fs2 !! p → touch_fs q fs1 !! p = touch_fs q fs2 !! p.
Proof.
  intros E. destruct (decide (q = p)) as [->|Hne].
  - by rewrite !lookup_touch_fs_eq, E.
  - by rewrite !lookup_touch_fs_ne.
Qed.

Lemma write_if_absent_fs_local q text p fs1 fs2 :
  fs1 !! p = fs2 !! p →
  template.write_if_absent_fs q text fs1 !! p = template.write_if_absent_fs q text fs2 !! p.
Proof.
  intros E. destruct (decide (q = p)) as [->|Hne].
  - by rewrite !lookup_write_if_absent_fs_eq, E.
  - by rewrite !lookup_write_if_absent_fs_ne.
Qed.

Lemma insert_local (q : path) (text : string) (p : path) (fs1 fs2 : gmap path string) :
  fs1 !! p = fs2 !! p → <[q:=text]> fs1 !! p = <[q:=text]> fs2 !! p.
Proof. intros E. rewrite !lookup_insert. by case_decide. Qed.

(** What a scaffold leaves at a path depends on what was at that path only. *)
Lemma scaffold_fs_local year day content p fs1 fs2 :
  fs1 !! p = fs2 !! p →
  template.scaffold_fs year day content fs1 !! p
  = template.scaffold_fs year day content fs2 !! p.
Proof.
  intros E. unfold template.scaffold_fs.
  do 3 apply touch_fs_local. do 2 apply insert_local.
  apply write_if_absent_fs_local. by do 2 apply touch_fs_local.
Qed.

(** Every file of the resource set, the package markers and the conftest are
    there after a scaffold. *)
Lemma scaffold_fs_created year day content fs :
  Forall (λ p, is_Some (template.scaffold_fs year day content fs !! p))
    [ template.solution_file day (Some year);
      template.test_file day (Some year);
      aoc_cli.example_file day (Some year);
      aoc_cli.input_file day (Some year);
      aoc_cli.puzzle_file day (Some year);
      template.conftest_file (Some year);
      template.get_solutions_dir (Some year) ++ ["__init__.py"];
      template.get_tests_dir (Some year) ++ ["__init__.py"] ].
Proof.
  unfold template.scaffold_fs.
  repeat constructor;
    repeat first
      [ rewrite lookup_touch_fs_eq; by eexists
      | rewrite lookup_insert_eq; by eexists
      | rewrite lookup_write_if_absent_fs_eq; by eexists
      | rewrite lookup_touch_fs_ne by path_ne
      | rewrite lookup_insert_ne by path_ne
      | rewrite lookup_write_if_absent_fs_ne by path_ne ].
Qed.

(** C8.  When the download block of a scaffold fails, whatever the tool or
    the check raised, the scaffold prints one warning and goes on: it returns
    the same three paths as a scaffold without download, every file of the
    resource set is there afterwards, and the file system is the one the
    scaffold without download leaves, except possibly for the input and the
    puzzle file, and exactly that one when the failed download wrote
    nothing. *)
Theorem scaffold_day_download_failure day w text config tpl content e wd :
  files w !! template.config_path = Some text →
  json_load text = Some config →
  let year := default 2025%Z (config !! "year") in
  let paths := (template.solution_file day (Some year),
                template.test_file day (Some year),
                aoc_cli.example_file day (Some year)) in
  files w !! template.solution_file day (Some year) = None →
  files w !! template.template_path = Some tpl →
  str_format tpl year day (Text.pad2 day) = inr content →
  template.download_both day year w = (Exc e, wd) →
  ∃ w_dl w_plain,
    template.scaffold_day day true w = (Val paths, w_dl)
    ∧ template.scaffold_day day false w = (Val paths, w_plain)
    ∧ stdout w_dl = stdout w ++ [WarnDownload (exn_str e)]
    ∧ stderr w_dl = stderr w
    ∧ (∀ p, p ≠ aoc_cli.input_file day (Some year) →
            p ≠ aoc_cli.puzzle_file day (Some year) →
            files w_dl !! p = files w_plain !! p)
    ∧ (files wd = files w → files w_dl = files w_plain)
    ∧ Forall (λ p, is_Some (files w_dl !! p))
        [ template.solution_file day (Some year);
          template.test_file day (Some year);
          aoc_cli.example_file day (Some year);
          aoc_cli.input_file day (Some year);
          aoc_cli.puzzle_file day (Some year);
          template.conftest_file (Some year);
          template.get_solutions_dir (Some year) ++ ["__init__.py"];
          template.get_tests_dir (Some year) ++ ["__init__.py"] ].
Proof.
  intros Hcfg Hjson year paths Hnew Htpl Hfmt Hfail.
  destruct (scaffold_day_run day true w text config tpl content)
    as (w1 & Hdl & Hagree & _ & _ & Hrun); [done..|].
  destruct (scaffold_day_run day false w text config tpl content)
    as (w0 & _ & _ & _ & Hsame & Hrun0); [done..|].
  rewrite Hsame in Hrun0 by done. clear w0 Hsame.
  fold year in Hdl, Hagree, Hrun, Hrun0.
  unfold template.download_step, try_except in Hdl. rewrite Hfail in Hdl.
  rewrite (download_both_raises _ _ _ _ _ Hfail) in Hdl.
  destruct (download_both_console _ _ _ _ _ Hfail) as [Hout Herr].
  injection Hdl as <-.
  do 2 eexists. split; [exact Hrun|]. split; [exact Hrun0|].
  cbn [files stdout stderr set_files print fst snd].
  split; [by rewrite Hout|]. split; [done|]. split; [|split].
  - intros p Hp1 Hp2. apply scaffold_fs_local.
    pose proof (agree_download_both day year w p) as Hp.
    rewrite Hfail in Hp. apply Hp. intros [?|?]; done.
  - by intros ->.
  - apply scaffold_fs_created.
Qed.

(** The placeholders of the day: created empty, or left with their text. *)
Lemma scaffold_fs_input year day content fs :
  template.scaffold_fs year day content fs !! aoc_cli.input_file day (Some year)
  = Some (default "" (fs !! aoc_cli.input_file day (Some year))).
Proof.
  unfold template.scaffold_fs.
  rewrite lookup_touch_fs_ne by path_ne.
  rewrite lookup_touch_fs_eq.
  rewrite lookup_touch_fs_ne by path_ne.
  rewrite !lookup_insert_ne by path_ne.
  rewrite lookup_write_if_absent_fs_ne by path_ne.
  by rewrite !lookup_touch_fs_ne by path_ne.
Qed.

Lemma scaffold_fs_puzzle year day content fs :
  template.scaffold_fs year day content fs !! aoc_cli.puzzle_file day (Some year)
  = Some (default "" (fs !! aoc_cli.puzzle_file day (Some year))).
Proof.
  unfold template.scaffold_fs.
  rewrite lookup_touch_fs_eq.
  rewrite !lookup_touch_fs_ne by path_ne.
  rewrite !lookup_insert_ne by path_ne.
  rewrite lookup_write_if_absent_fs_ne by path_ne.
  by rewrite !lookup_touch_fs_ne by path_ne.
Qed.

End changes.

(** ** Batch execution: [run_all] *)

Section run.
Context `{Env}.
Implicit Types (w : World) (year : option Z) (day : Z).

Lemma ends_with_py_app s r : Text.ends_with_py r = true → Text.ends_with_py (s +:+ r) = true.
Proof.
  intros Hr. induction s as [|c s IH]; [done|].
  rewrite append_cons. cbn [Text.ends_with_py]. rewrite IH. apply orb_true_r.
Qed.

Lemma spec_from_day_file name day year :
  runner.spec_from_file_location name (template.solution_file day year)
  = Some (name, template.solution_file day year).
Proof.
  unfold runner.spec_from_file_location, template.solution_file.
  rewrite last_snoc. unfold template.day_name.
  by rewrite ends_with_py_app by apply (ends_with_py_py (Text.pad2 day)).
Qed.

Ltac step :=
  cbv beta iota zeta;
  cbn [negb has_class is_Exception fst snd files stdout stderr ticks calls spawned
       runner.no_attribute].






Ltac unfold_run_day :=
  unfold runner.run_day;
  rewrite spec_from_day_file;
  unfold runner.load, runner.call_parse_input, runner.call_part_one, runner.call_part_two,
    runner.perf_counter, runner.format_value, aoc_cli.read_input,
    try_except, exists_, read_text, print, eprint, log_call,
    sys_exit, raise, mbind, M_bind, mret, M_ret, fmap, M_fmap;
  step.

Ltac run :=
  repeat (step;
          first [ rewrite bool_decide_eq_true_2 by (done || eauto)
                | rewrite bool_decide_eq_false_2 by (by intros [? ?])
                | match goal with E : _ = _ |- _ => rewrite E end ]);
  step.

(** *** [run_day] *)

Lemma run_day_not_found day year w :
  files w !! template.solution_file day year = None →
  runner.run_day day year w
  = (Exc (SystemExit 1), (eprint (ErrSolutionNotFound day) w).2).
Proof. intros Hsrc. unfold_run_day. by run. Qed.

Lemma run_day_input_missing day year w source m :
  files w !! template.solution_file day year = Some source →
  exec_module ("day" +:+ Text.pad2 day) source = inr m →
  files w !! aoc_cli.input_file day year = None →
  runner.run_day day year w
  = (Exc (SystemExit 1), (eprint (ErrInputNotFound day) w).2).
Proof. intros Hsrc Hexec Hin. unfold_run_day. by run. Qed.

(** The run of a day whose solution loads and whose input is there, up to
    the first operation that is missing. *)
Lemma run_day_missing_operation day year w source m text :
  files w !! template.solution_file day year = Some source →
  exec_module ("day" +:+ Text.pad2 day) source = inr m →
  files w !! aoc_cli.input_file day year = Some text →
  let name := "day" +:+ Text.pad2 day in
  let failed_at (attr : string) (cs : list call) (out : list line) w' :=
    runner.run_day day year w = (Exc (SystemExit 1), w')
    ∧ calls w' = calls w ++ cs
    ∧ stdout w' = stdout w ++ out
    ∧ stderr w' = stderr w ++ [ErrRunning day (exn_str (runner.no_attribute name attr))] in
  (parse_input m = None → ∃ w', failed_at "parse_input" [] [] w')
  ∧ (∀ f0 data, parse_input m = Some f0 → f0 text = inr data →
       part_one m = None →
       ∃ w', failed_at "part_one" [CallParseInput text]
               [DayHeader (Text.pad2 day); Dashes] w')
  ∧ (∀ f0 data f1 result1,
       parse_input m = Some f0 → f0 text = inr data →
       part_one m = Some f1 → f1 data = inr result1 →
       part_two m = None →
       ∃ w', failed_at "part_two" [CallParseInput text; CallPartOne]
               [DayHeader (Text.pad2 day); Dashes] w').
Proof.
  intros Hsrc Hexec Hin name failed_at. unfold failed_at, name.
  split; [|split].
  - intros Hf0. unfold_run_day. run. eexists. split; [reflexivity|].
    cbn. by rewrite !app_nil_r.
  - intros f0 data Hf0 Hdata Hf1. unfold_run_day. run.
    eexists. split; [reflexivity|]. cbn. by rewrite <- !app_assoc.
  - intros f0 data f1 result1 Hf0 Hdata Hf1 Hr1 Hf2. unfold_run_day. run.
    eexists. split; [reflexivity|]. cbn. by rewrite <- !app_assoc.
Qed.

(** *** The loader *)

(** Two partitions keep the solution of a day at two different paths. *)
Lemma solution_file_partition_inj day year year' :
  template.solution_file day year = template.solution_file day year' → year = year'.
Proof.
  unfold template.solution_file, template.get_solutions_dir.
  destruct year as [y|], year' as [y'|]; cbn [app]; intros E; simplify_eq; [| | |done].
  - f_equal. by apply py_str_inj.
  - assert (Text.py_int (Text.py_str y) = Text.py_int "src") as E by by f_equal.
    rewrite py_int_py_str in E. vm_compute in E. done.
  - assert (Text.py_int (Text.py_str y') = Text.py_int "src") as E by by f_equal.
    rewrite py_int_py_str in E. vm_compute in E. done.
Qed.

(** What is loaded is what the interpreter makes of the text found at the
    location; loading changes nothing. *)
Lemma load_run name location w :
  runner.load (name, location) w =
  (match files w !! location with
   | Some source =>
       match exec_module name source with
       | inl e => Exc e
       | inr module => Val module
       end
   | None => Exc (Raise FileNotFoundError (show_path location))
   end, w).
Proof.
  unfold runner.load, read_text, mbind, M_bind, raise, mret, M_ret. cbn [fst snd].
  destruct (files w !! location) as [source|]; [|done].
  by destruct (exec_module name source).
Qed.

Section reads.
Context (S : path → Prop).

Lemma reads_ret {A} (a : A) : reads S (mret a).
Proof. by intros g Hg w. Qed.

Lemma reads_raise {A} e : reads S (raise e : M A).
Proof. by intros g Hg w. Qed.

Lemma reads_print l : reads S (print l).
Proof. by intros g Hg w. Qed.

Lemma reads_eprint l : reads S (eprint l).
Proof. by intros g Hg w. Qed.

Lemma reads_log_call c : reads S (log_call c).
Proof. by intros g Hg w. Qed.

Lemma reads_perf_counter : reads S runner.perf_counter.
Proof. by intros g Hg w. Qed.

Lemma reads_exists p : S p → reads S (exists_ p).
Proof.
  intros Hp g Hg w. unfold exists_. cbn [files set_files fst snd]. by rewrite Hg.
Qed.

Lemma reads_read_text p : S p → reads S (read_text p).
Proof.
  intros Hp g Hg w. unfold read_text. cbn [files set_files]. rewrite Hg by done.
  by destruct (files w !! p).
Qed.

Lemma reads_bind {A B} (m : M A) (f : A → M B) :
  reads S m → (∀ a, reads S (f a)) → reads S (m ≫= f).
Proof.
  intros Hm Hf g Hg w. unfold mbind, M_bind. rewrite (Hm g Hg w).
  destruct (m w) as [[a|e] w1]; cbn [fst snd]; [|done].
  rewrite (Hf a g Hg w1). by destruct (f a w1).
Qed.

Lemma reads_fmap {A B} (h : A → B) (m : M A) : reads S m → reads S (h <$> m).
Proof.
  intros Hm g Hg w. unfold fmap, M_fmap. rewrite (Hm g Hg w).
  by destruct (m w) as [[a|e] w1].
Qed.

Lemma reads_try {A} (body : M A) caught handler :
  reads S body → (∀ e, reads S (handler e)) →
  reads S (try_except body caught handler).
Proof.
  intros Hm Hh g Hg w. unfold try_except. rewrite (Hm g Hg w).
  destruct (body w) as [[a|e] w1]; cbn [fst snd]; [done|].
  destruct (caught e); [|done].
  rewrite (Hh e g Hg w1). by destruct (handler e w1).
Qed.

End reads.

Ltac reads_steps :=
  repeat first
    [ apply reads_ret | apply reads_raise | apply reads_print | apply reads_eprint
    | apply reads_log_call | apply reads_perf_counter
    | apply reads_exists; solve [auto] | apply reads_read_text; solve [auto]
    | apply reads_bind; [|intros ?]
    | apply reads_fmap
    | apply reads_try; [|intros ?]
    | match goal with
      | |- reads _ (if ?b then _ else _) => destruct b
      | |- reads _ (match ?x with _ => _ end) => destruct x
      end ].

(** A run reads two files, the solution and the input of its day in its
    partition. *)
Lemma reads_run_day day year :
  reads (λ p, p = template.solution_file day year ∨ p = aoc_cli.input_file day year)
        (runner.run_day day year).
Proof.
  unfold runner.run_day. rewrite spec_from_day_file.
  unfold runner.load, runner.call_parse_input, runner.call_part_one,
    runner.call_part_two, runner.format_value, aoc_cli.read_input, sys_exit.
  cbn [fst snd]. reads_steps.
Qed.

Lemma reads_run_all_body day year total_time :
  reads (λ p, p = template.solution_file day year ∨ p = aoc_cli.input_file day year)
        (runner.run_all_body year day total_time).
Proof.
  unfold runner.run_all_body. rewrite spec_from_day_file.
  unfold runner.load, runner.call_parse_input, runner.call_part_one,
    runner.call_part_two, runner.format_value, aoc_cli.read_input, sys_exit.
  cbn [fst snd]. reads_steps.
Qed.

(** With the solution loaded and the input file there, [parse_input] is
    the first thing called, on the text of the file; nothing is said about a
    missing input. *)
Lemma run_day_reads_input day year w source m text f0 :
  files w !! template.solution_file day year = Some source →
  exec_module ("day" +:+ Text.pad2 day) source = inr m →
  files w !! aoc_cli.input_file day year = Some text →
  parse_input m = Some f0 →
  ∃ r w', runner.run_day day year w = (r, w')
        ∧ (∃ rest, calls w' = calls w ++ CallParseInput text :: rest)
        ∧ (stderr w' = stderr w ∨ ∃ msg, stderr w' = stderr w ++ [ErrRunning day msg]).
Proof.
  intros Hsrc Hexec Hin Hf0. unfold_run_day. run.
  assert (∀ (r : res ()) w', (∃ rest, calls w' = calls w ++ CallParseInput text :: rest) →
            (stderr w' = stderr w ∨ ∃ msg, stderr w' = stderr w ++ [ErrRunning day msg]) →
            ∃ r0 w0, (r, w') = (r0, w0)
              ∧ (∃ rest, calls w0 = calls w ++ CallParseInput text :: rest)
              ∧ (stderr w0 = stderr w ∨ ∃ msg, stderr w0 = stderr w ++ [ErrRunning day msg]))
    as Hdone by (intros r w' ? ?; by exists r, w').
  destruct (f0 text) as [e|data]; step.
  { destruct (is_Exception e); apply Hdone; cbn; eauto. }
  destruct (part_one m) as [f1|]; step;
    [|apply Hdone; cbn; rewrite <- ?app_assoc; eauto].
  destruct (f1 data) as [e|result1]; step.
  { destruct (is_Exception e); apply Hdone; cbn; rewrite <- ?app_assoc; eauto. }
  destruct (part_two m) as [f2|]; step;
    [|apply Hdone; cbn; rewrite <- ?app_assoc; eauto].
  destruct (f2 data) as [e|result2]; step.
  { destruct (is_Exception e); apply Hdone; cbn; rewrite <- ?app_assoc; eauto. }
  destruct (format_result result1) as [e|text1]; step.
  { destruct (is_Exception e); apply Hdone; cbn; rewrite <- ?app_assoc; eauto. }
  destruct (format_result result2) as [e|text2]; step.
  { destruct (is_Exception e); apply Hdone; cbn; rewrite <- ?app_assoc; eauto. }
  apply Hdone; cbn; rewrite <- ?app_assoc; eauto.
Qed.

(** *** A run of a day, in full *)

Ltac evaluated :=
  unfold succeeds_fully, returned, formatted;
  repeat (match goal with E : _ = _ |- _ => rewrite E end; cbn [mbind option_bind]);
  done.

Ltac failed :=
  step; right; right; eexists _, _; split; [evaluated|];
  split; [reflexivity|]; cbn; eauto 6.

Ltac unprintable e :=
  step; right; left; eexists _, _, e, _; split; [evaluated|]; split; [evaluated|];
  split; [reflexivity|]; cbn;
  repeat match goal with E : format_result _ = _ |- _ => rewrite E end;
  rewrite <- ?app_assoc; by split_and!.

Lemma run_day_cases day year w :
  solutions_raise_Exception →
  let time1 := fsub (perf_counter_at (S (ticks w))) (perf_counter_at (ticks w)) in
  (∃ result1 result2 text1 text2 w',
      succeeds_fully year day (files w) = Some (result1, result2)
      ∧ formatted result1 result2 = inr (text1, text2)
      ∧ runner.run_day day year w = (Val (), w')
      ∧ files w' = files w
      ∧ stderr w' = stderr w
      ∧ stdout w' = stdout w ++ printed day text1 text2 (ticks w))
  ∨ (∃ result1 result2 e w',
      succeeds_fully year day (files w) = Some (result1, result2)
      ∧ formatted result1 result2 = inl e
      ∧ runner.run_day day year w = (Exc (SystemExit 1), w')
      ∧ files w' = files w
      ∧ stderr w' = stderr w ++ [ErrRunning day (exn_str e)]
      ∧ stdout w' = stdout w ++ [DayHeader (Text.pad2 day); Dashes]
                    ++ match format_result result1 with
                       | inr text1 => [PartOne text1 (format_ms time1)]
                       | inl _ => []
                       end)
  ∨ (∃ l w',
      succeeds_fully year day (files w) = None
      ∧ runner.run_day day year w = (Exc (SystemExit 1), w')
      ∧ files w' = files w
      ∧ stderr w' = stderr w ++ [l]
      ∧ (l = ErrSolutionNotFound day ∨ l = ErrInputNotFound day
         ∨ ∃ msg, l = ErrRunning day msg)).
Proof.
  intros [Hfmt Hok] time1. subst time1.
  unfold_run_day.
  destruct (Hok ("day" +:+ Text.pad2 day)
              (default "" (files w !! template.solution_file day year)))
    as [Hload Hcalls].
  destruct (files w !! template.solution_file day year) as [source|] eqn:Hsrc.
  2:{ rewrite bool_decide_eq_false_2 by (by intros [? ?]). failed. }
  rewrite bool_decide_eq_true_2 by eauto.
  step. rewrite Hsrc. step. cbn in Hload, Hcalls.
  destruct (exec_module ("day" +:+ Text.pad2 day) source) as [e|m] eqn:Hexec.
  { cbn in Hload. step. rewrite Hload. failed. }
  destruct (Hcalls m eq_refl) as (Hp0 & Hp1 & Hp2). clear Hcalls Hload.
  step.
  destruct (files w !! aoc_cli.input_file day year) as [text|] eqn:Hin.
  2:{ rewrite bool_decide_eq_false_2 by (by intros [? ?]). step.
      rewrite bool_decide_eq_true_2 by done. failed. }
  rewrite bool_decide_eq_true_2 by eauto. step. rewrite Hin. step.
  destruct (parse_input m) as [f0|] eqn:Hf0; [|failed].
  specialize (Hp0 f0 text eq_refl). step.
  destruct (f0 text) as [e|data] eqn:Hdata; cbn in Hp0.
  { step. rewrite Hp0. failed. }
  step.
  destruct (part_one m) as [f1|] eqn:Hf1; [|failed].
  specialize (Hp1 f1 data eq_refl). step.
  destruct (f1 data) as [e|r1] eqn:Hr1; cbn in Hp1.
  { step. rewrite Hp1. failed. }
  step.
  destruct (part_two m) as [f2|] eqn:Hf2; [|failed].
  specialize (Hp2 f2 data eq_refl). step.
  destruct (f2 data) as [e|r2] eqn:Hr2; cbn in Hp2.
  { step. rewrite Hp2. failed. }
  step.
  pose proof (Hfmt r1) as Hx1. pose proof (Hfmt r2) as Hx2.
  destruct (format_result r1) as [e|text1] eqn:Ht1; cbn in Hx1.
  { step. rewrite Hx1. unprintable e. }
  step.
  destruct (format_result r2) as [e|text2] eqn:Ht2; cbn in Hx2.
  { step. rewrite Hx2. unprintable e. }
  step. left. eexists r1, r2, text1, text2, _. split; [evaluated|]. split; [evaluated|].
  split; [reflexivity|]. unfold printed. cbn. by rewrite <- !app_assoc.
Qed.

(** What it takes for a day to show its results. *)
Lemma shown_Some day year (fs : gmap path string) text1 text2 :
  shown year day fs = Some (text1, text2) →
  ∃ source m text f0 data f1 result1 f2 result2,
    fs !! template.solution_file day year = Some source
    ∧ exec_module ("day" +:+ Text.pad2 day) source = inr m
    ∧ fs !! aoc_cli.input_file day year = Some text
    ∧ parse_input m = Some f0 ∧ f0 text = inr data
    ∧ part_one m = Some f1 ∧ f1 data = inr result1
    ∧ part_two m = Some f2 ∧ f2 data = inr result2
    ∧ format_result result1 = inr text1 ∧ format_result result2 = inr text2.
Proof.
  unfold shown, succeeds_fully, formatted, returned. intros Hs.
  destruct (fs !! template.solution_file day year) as [source|] eqn:Hsrc; [|done].
  cbn [mbind option_bind] in Hs.
  destruct (exec_module ("day" +:+ Text.pad2 day) source) as [|m] eqn:Hexec; [done|].
  cbn [mbind option_bind] in Hs.
  destruct (fs !! aoc_cli.input_file day year) as [text|] eqn:Hin; [|done].
  cbn [mbind option_bind] in Hs.
  destruct (parse_input m) as [f0|] eqn:Hf0; [|done]. cbn [mbind option_bind] in Hs.
  destruct (f0 text) as [|data] eqn:Hdata; [done|]. cbn [mbind option_bind] in Hs.
  destruct (part_one m) as [f1|] eqn:Hf1; [|done]. cbn [mbind option_bind] in Hs.
  destruct (f1 data) as [|result1] eqn:Hr1; [done|]. cbn [mbind option_bind] in Hs.
  destruct (part_two m) as [f2|] eqn:Hf2; [|done]. cbn [mbind option_bind] in Hs.
  destruct (f2 data) as [|result2] eqn:Hr2; [done|]. cbn [mbind option_bind] in Hs.
  destruct (format_result result1) as [|t1] eqn:Ht1; [done|].
  destruct (format_result result2) as [|t2] eqn:Ht2; [done|].
  simplify_eq. exists source, m, text, f0, data, f1, result1, f2, result2.
  by split_and!.
Qed.

(** A day that shows its results: [run_day] returns, whatever else
    solutions may raise, and so does the turn of [run_all]. *)
Lemma run_day_returns day year w text1 text2 :
  shown year day (files w) = Some (text1, text2) →
  ∃ w', runner.run_day day year w = (Val (), w')
      ∧ files w' = files w
      ∧ stderr w' = stderr w
      ∧ stdout w' = stdout w ++ printed day text1 text2 (ticks w).
Proof.
  intros Hs. apply shown_Some in Hs
    as (source & m & text & f0 & data & f1 & r1 & f2 & r2
        & Hsrc & Hexec & Hin & Hf0 & Hdata & Hf1 & Hr1 & Hf2 & Hr2 & Ht1 & Ht2).
  unfold_run_day. run. eexists. split; [reflexivity|].
  unfold printed. cbn. by rewrite <- !app_assoc.
Qed.

Lemma run_all_body_returns day year total_time w text1 text2 :
  shown year day (files w) = Some (text1, text2) →
  let elapsed := fadd (fsub (perf_counter_at (S (ticks w))) (perf_counter_at (ticks w)))
                      (fsub (perf_counter_at (S (S (S (ticks w)))))
                            (perf_counter_at (S (S (ticks w))))) in
  ∃ w', runner.run_all_body year day total_time w = (Val (fadd total_time elapsed), w')
      ∧ files w' = files w
      ∧ stdout w' = stdout w ++ [DayDone (Text.pad2 day) text1 text2 (format_ms elapsed)].
Proof.
  intros Hs elapsed. subst elapsed. apply shown_Some in Hs
    as (source & m & text & f0 & data & f1 & r1 & f2 & r2
        & Hsrc & Hexec & Hin & Hf0 & Hdata & Hf1 & Hr1 & Hf2 & Hr2 & Ht1 & Ht2).
  unfold runner.run_all_body.
  rewrite spec_from_day_file.
  unfold runner.load, runner.call_parse_input, runner.call_part_one, runner.call_part_two,
    runner.perf_counter, runner.format_value, aoc_cli.read_input,
    try_except, exists_, read_text, print, eprint, log_call,
    sys_exit, raise, mbind, M_bind, mret, M_ret, fmap, M_fmap.
  run. by eexists.
Qed.

(** A day that does not show its results: [run_day] does not return. *)
Lemma run_day_raises day year w :
  shown year day (files w) = None →
  ∃ e w', runner.run_day day year w = (Exc e, w').
Proof.
  unfold shown, succeeds_fully, formatted, returned. intros Hs.
  unfold_run_day.
  destruct (files w !! template.solution_file day year) as [source|] eqn:Hsrc.
  2:{ rewrite bool_decide_eq_false_2 by (by intros [? ?]). step. eauto. }
  rewrite bool_decide_eq_true_2 by eauto. step. rewrite Hsrc. step.
  cbn [mbind option_bind] in Hs.
  destruct (exec_module ("day" +:+ Text.pad2 day) source) as [e|m].
  { step. destruct (is_Exception e); eauto. }
  step. cbn [mbind option_bind] in Hs.
  destruct (files w !! aoc_cli.input_file day year) as [text|] eqn:Hin.
  2:{ rewrite bool_decide_eq_false_2 by (by intros [? ?]). step.
      rewrite bool_decide_eq_true_2 by done. step. eauto. }
  rewrite bool_decide_eq_true_2 by eauto. step. rewrite Hin. step.
  cbn [mbind option_bind] in Hs.
  destruct (parse_input m) as [f0|]; [|step; eauto].
  step. cbn [mbind option_bind] in Hs.
  destruct (f0 text) as [e|data]; [step; destruct (is_Exception e); eauto|].
  step. cbn [mbind option_bind] in Hs.
  destruct (part_one m) as [f1|]; [|step; eauto].
  step. cbn [mbind option_bind] in Hs.
  destruct (f1 data) as [e|r1]; [step; destruct (is_Exception e); eauto|].
  step. cbn [mbind option_bind] in Hs.
  destruct (part_two m) as [f2|]; [|step; eauto].
  step. cbn [mbind option_bind] in Hs.
  destruct (f2 data) as [e|r2]; [step; destruct (is_Exception e); eauto|].
  step. cbn [mbind option_bind] in Hs.
  destruct (format_result r1) as [e|t1]; [step; destruct (is_Exception e); eauto|].
  step.
  destruct (format_result r2) as [e|t2]; [step; destruct (is_Exception e); eauto|].
  done.
Qed.

(** Where solutions raise instances of [Exception] only, a day that does
    not show its results ends the process with status 1. *)
Lemma run_day_shown day year w :
  solutions_raise_Exception →
  match shown year day (files w) with
  | Some (text1, text2) =>
      ∃ w', runner.run_day day year w = (Val (), w')
          ∧ files w' = files w
          ∧ stderr w' = stderr w
          ∧ stdout w' = stdout w ++ printed day text1 text2 (ticks w)
  | None =>
      ∃ w', runner.run_day day year w = (Exc (SystemExit 1), w')
          ∧ files w' = files w
  end.
Proof.
  intros Hok. unfold shown.
  destruct (run_day_cases day year w Hok)
    as [(r1 & r2 & text1 & text2 & w' & -> & Hf & Hrun & Hfs & Herr & Hout)
       |[(r1 & r2 & e & w' & -> & Hf & Hrun & Hfs & _)
        |(l & w' & -> & Hrun & Hfs & _)]];
    cbn [mbind option_bind]; rewrite ?Hf; cbn [returned]; eauto 6.
Qed.

(** C5.  Two different partitions keep the solution of a day at two
    different paths, though both are loaded under the same module name
    [dayDD].  What is loaded is what the interpreter makes of the text found
    at the full path, and loading registers nothing: the world is left as it
    was.  So the same-named file of the other partition, whatever its text,
    changes neither the unit loaded here nor the run of the day, by [run_day]
    or by a turn of [run_all]; and when the day is run for the one partition
    and then, in the world that run left, for the other, by [run_day] or by
    two turns of [run_all], each run ends as its own file and its own input
    determine: the second shows the results of its own solution, or does not
    return when its own solution does not show any, whatever the first one
    loaded. *)
Theorem loader_keyed_by_path day year year' w :
  year ≠ year' →
  let name := "day" +:+ Text.pad2 day in
  let here := template.solution_file day year in
  let there := template.solution_file day year' in
  here ≠ there
  ∧ runner.spec_from_file_location name here = Some (name, here)
  ∧ runner.spec_from_file_location name there = Some (name, there)
  ∧ runner.load (name, here) w
    = (match files w !! here with
       | Some source =>
           match exec_module name source with
           | inl e => Exc e
           | inr module => Val module
           end
       | None => Exc (Raise FileNotFoundError (show_path here))
       end, w)
  ∧ (∀ text,
      let other := set_files (insert there text) in
      (runner.load (name, here) (other w)).1 = (runner.load (name, here) w).1
      ∧ runner.run_day day year (other w)
        = ((runner.run_day day year w).1, other (runner.run_day day year w).2)
      ∧ ∀ total_time,
          runner.run_all_body year day total_time (other w)
          = ((runner.run_all_body year day total_time w).1,
             other (runner.run_all_body year day total_time w).2))
  ∧ match shown year day (files w) with
    | Some (text1, text2) =>
        ∃ w1, runner.run_day day year w = (Val (), w1)
            ∧ stdout w1 = stdout w ++ printed day text1 text2 (ticks w)
            ∧ match shown year' day (files w1) with
              | Some (text1', text2') =>
                  ∃ w2, runner.run_day day year' w1 = (Val (), w2)
                      ∧ stdout w2 = stdout w1 ++ printed day text1' text2' (ticks w1)
              | None => ∃ e w2, runner.run_day day year' w1 = (Exc e, w2)
              end
    | None => ∃ e w1, runner.run_day day year w = (Exc e, w1)
    end
  ∧ (∀ total_time text1 text2,
       shown year day (files w) = Some (text1, text2) →
       ∃ total_time' w1,
         runner.run_all_body year day total_time w = (Val total_time', w1)
         ∧ ∀ text1' text2',
             shown year' day (files w1) = Some (text1', text2') →
             ∃ total_time'' w2 elapsed_ms elapsed_ms',
               runner.run_all_body year' day total_time' w1 = (Val total_time'', w2)
               ∧ stdout w2 = stdout w ++ [DayDone (Text.pad2 day) text1 text2 elapsed_ms;
                                          DayDone (Text.pad2 day) text1' text2' elapsed_ms']).
Proof.
  intros Hyear name here there.
  assert (here ≠ there) as Hne.
  { intros E. by apply solution_file_partition_inj in E. }
  split; [done|]. split; [apply spec_from_day_file|]. split; [apply spec_from_day_file|].
  split; [apply load_run|].
  split; [|split].
  - intros text other.
    assert (∀ (fs : gmap path string) p, p = here ∨ p = aoc_cli.input_file day year →
                    <[there:=text]> fs !! p = fs !! p) as Hg.
    { intros fs p [->| ->]; apply lookup_insert_ne; [done|].
      unfold there. destruct year, year'; path_ne. }
    split; [|split].
    + rewrite !load_run. cbn [fst files set_files]. unfold other. cbn [files set_files].
      by rewrite Hg by auto.
    + by apply reads_run_day.
    + intros total_time. by apply reads_run_all_body.
  - destruct (shown year day (files w)) as [[text1 text2]|] eqn:Hs;
      [|by apply run_day_raises].
    destruct (run_day_returns day year w text1 text2 Hs) as (w1 & Hrun & _ & _ & Hout).
    exists w1. split; [done|]. split; [done|].
    destruct (shown year' day (files w1)) as [[text1' text2']|] eqn:Hs';
      [|by apply run_day_raises].
    destruct (run_day_returns day year' w1 text1' text2' Hs') as (w2 & Hrun' & _ & _ & Hout').
    by exists w2.
  - intros total_time text1 text2 Hs.
    destruct (run_all_body_returns day year total_time w text1 text2 Hs)
      as (w1 & Hrun & _ & Hout).
    eexists _, w1. split; [exact Hrun|].
    intros text1' text2' Hs'.
    match type of Hrun with _ = (Val ?t, _) =>
      destruct (run_all_body_returns day year' t w1 text1' text2' Hs')
        as (w2 & Hrun' & _ & Hout')
    end.
    eexists _, w2, _, _. split; [exact Hrun'|].
    by rewrite Hout', Hout, <- app_assoc.
Qed.

(** C4, as amended.  [run_day] on a day whose solution file is absent prints
    the not-found error and exits with status 1 without loading anything.  A
    solution that lacks one of the three operations is not rejected when it
    is loaded: with the input file there, the run goes on until it reaches
    the missing name, so the operations before it are called (for a missing
    [part_two], both [parse_input] and [part_one]), and the attribute error
    raised at the call is what the generic handler reports before it exits
    with status 1. *)
Theorem run_day_load_errors day year w :
  let name := "day" +:+ Text.pad2 day in
  let failed_at (attr : string) (cs : list call) (out : list line) w' :=
    runner.run_day day year w = (Exc (SystemExit 1), w')
    ∧ calls w' = calls w ++ cs
    ∧ stdout w' = stdout w ++ out
    ∧ stderr w' = stderr w ++ [ErrRunning day (exn_str (runner.no_attribute name attr))] in
  match files w !! template.solution_file day year with
  | None =>
      runner.run_day day year w
      = (Exc (SystemExit 1), (eprint (ErrSolutionNotFound day) w).2)
  | Some source =>
      ∀ m text,
        exec_module name source = inr m →
        files w !! aoc_cli.input_file day year = Some text →
        (parse_input m = None → ∃ w', failed_at "parse_input" [] [] w')
        ∧ (∀ f0 data, parse_input m = Some f0 → f0 text = inr data →
             part_one m = None →
             ∃ w', failed_at "part_one" [CallParseInput text]
                     [DayHeader (Text.pad2 day); Dashes] w')
        ∧ (∀ f0 data f1 result1,
             parse_input m = Some f0 → f0 text = inr data →
             part_one m = Some f1 → f1 data = inr result1 →
             part_two m = None →
             ∃ w', failed_at "part_two" [CallParseInput text; CallPartOne]
                     [DayHeader (Text.pad2 day); Dashes] w')
  end.
Proof.
  intros name failed_at.
  destruct (files w !! template.solution_file day year) as [source|] eqn:Hsrc.
  - intros m text Hexec Hin.
    by apply (run_day_missing_operation day year w source m text).
  - by apply run_day_not_found.
Qed.

Lemma read_input_run day year w text :
  files w !! aoc_cli.input_file day year = Some text →
  aoc_cli.read_input day year w = (Val text, w).
Proof.
  intros E. unfold aoc_cli.read_input, exists_, read_text, mbind, M_bind.
  rewrite E. rewrite bool_decide_eq_true_2 by eauto. cbn. by rewrite E.
Qed.

Lemma read_puzzle_run day year w text :
  files w !! aoc_cli.puzzle_file day year = Some text →
  aoc_cli.read_puzzle day year w = (Val text, w).
Proof.
  intros E. unfold aoc_cli.read_puzzle, exists_, read_text, mbind, M_bind.
  rewrite E. rewrite bool_decide_eq_true_2 by eauto. cbn. by rewrite E.
Qed.

(** C10, as amended.  After a scaffold without download that succeeds, the
    input and the puzzle file of the day exist: empty when there was none
    before, with the text they had otherwise.  Reading either returns that
    text, the empty text for a fresh placeholder, and raises nothing; a run
    of the day whose solution loads then calls [parse_input] on that text
    and reports no missing input. *)
Theorem scaffold_then_solve day w text config tpl content :
  files w !! template.config_path = Some text →
  json_load text = Some config →
  let year := default 2025%Z (config !! "year") in
  let input := aoc_cli.input_file day (Some year) in
  let puzzle := aoc_cli.puzzle_file day (Some year) in
  files w !! template.solution_file day (Some year) = None →
  files w !! template.template_path = Some tpl →
  str_format tpl year day (Text.pad2 day) = inr content →
  ∃ w', template.scaffold_day day false w
        = (Val (template.solution_file day (Some year),
                template.test_file day (Some year),
                aoc_cli.example_file day (Some year)), w')
      ∧ files w' !! input = Some (default "" (files w !! input))
      ∧ files w' !! puzzle = Some (default "" (files w !! puzzle))
      ∧ aoc_cli.read_input day (Some year) w' = (Val (default "" (files w !! input)), w')
      ∧ aoc_cli.read_puzzle day (Some year) w' = (Val (default "" (files w !! puzzle)), w')
      ∧ ∀ m f0,
          exec_module ("day" +:+ Text.pad2 day) content = inr m →
          parse_input m = Some f0 →
          ∃ r w'', runner.run_day day (Some year) w' = (r, w'')
                 ∧ (∃ rest, calls w'' = calls w'
                                       ++ CallParseInput (default "" (files w !! input)) :: rest)
                 ∧ (stderr w'' = stderr w'
                    ∨ ∃ msg, stderr w'' = stderr w' ++ [ErrRunning day msg]).
Proof.
  intros Hcfg Hjson year input puzzle Hnew Htpl Hfmt.
  destruct (scaffold_day_run day false w text config tpl content)
    as (w1 & _ & _ & _ & Hsame & Hrun); [done..|].
  rewrite Hsame in Hrun by done. clear w1 Hsame. fold year in Hrun.
  eexists. split; [exact Hrun|].
  assert (files (set_files (template.scaffold_fs year day content) w) !! input
          = Some (default "" (files w !! input))) as Hin
    by apply scaffold_fs_input.
  assert (files (set_files (template.scaffold_fs year day content) w) !! puzzle
          = Some (default "" (files w !! puzzle))) as Hpz
    by apply scaffold_fs_puzzle.
  split; [done|]. split; [done|].
  split; [by apply read_input_run|]. split; [by apply read_puzzle_run|].
  intros m f0 Hexec Hf0.
  eapply run_day_reads_input; [|done..].
  apply scaffold_fs_solution.
Qed.

End run.

(** ** The command line *)

(** ** The statements at concrete worlds *)



(** C9 as amended, at a workspace that has an input file for day 2 and a
    conftest of its own: a scaffold of day 2 without download keeps both. *)
Lemma scaffold_day_keeps_files_witness :
  ∃ w', template.scaffold_day (H:=offline) 2 false with_old_input
        = (Val (["2025"; "solutions"; "day02.py"], ["2025"; "tests"; "test_day02.py"],
                ["2025"; "data"; "examples"; "02.txt"]), w')
      ∧ files w' !! ["2025"; "data"; "inputs"; "02.txt"] = Some "old"
      ∧ files w' !! ["2025"; "tests"; "conftest.py"] = Some "# mine"
      ∧ files w' !! ["2025"; "data"; "puzzles"; "02.md"] = Some "".
Proof.
  destruct (scaffold_day_keeps_files (H:=offline) 2 false with_old_input
              Demo.config_2025.2 year_2025 Demo.solution_template.2 _
              ltac:(vm_compute; reflexivity) ltac:(vm_compute; reflexivity)
              ltac:(vm_compute; reflexivity) ltac:(vm_compute; reflexivity)
              ltac:(vm_compute; reflexivity))
    as (w' & Hrun & _ & Hconftest & _ & Hdata & _).
  destruct (Hdata eq_refl) as [Hin Hpz].
  exists w'. split; [exact Hrun|]. split; [exact Hin|]. split; [exact Hconftest|exact Hpz].
Defined.

(** C9, as stated, fails for a scaffold with download: after day 1 was
    scaffolded, the scaffold of day 2 replaces the text of the input file of
    day 2 that was there. *)
Lemma scaffold_day_download_overwrites_input :
  let first := template.scaffold_day (H:=online) 1 false with_old_input in
  let second := template.scaffold_day (H:=online) 2 true first.2 in
  first.1 = Val (["2025"; "solutions"; "day01.py"], ["2025"; "tests"; "test_day01.py"],
                 ["2025"; "data"; "examples"; "01.txt"])
  ∧ files first.2 !! ["2025"; "data"; "inputs"; "02.txt"] = Some "old"
  ∧ second.1 = Val (["2025"; "solutions"; "day02.py"], ["2025"; "tests"; "test_day02.py"],
                    ["2025"; "data"; "examples"; "02.txt"])
  ∧ files second.2 !! ["2025"; "data"; "inputs"; "02.txt"] = Some "new".
Proof. cbv zeta. split; [|split; [|split]]; vm_compute; reflexivity. Qed.

(** C8 where [aoc] is not installed: one warning, the same paths and the
    same files as without download. *)
Lemma scaffold_day_download_failure_witness :
  ∃ w_dl w_plain,
    template.scaffold_day (H:=offline) 7 true workspace
    = (Val (["2025"; "solutions"; "day07.py"], ["2025"; "tests"; "test_day07.py"],
            ["2025"; "data"; "examples"; "07.txt"]), w_dl)
    ∧ template.scaffold_day (H:=offline) 7 false workspace
      = (Val (["2025"; "solutions"; "day07.py"], ["2025"; "tests"; "test_day07.py"],
              ["2025"; "data"; "examples"; "07.txt"]), w_plain)
    ∧ stdout w_dl = [WarnDownload aoc_cli.not_installed_msg]
    ∧ files w_dl = files w_plain.
Proof.
  destruct (scaffold_day_download_failure (H:=offline) 7 workspace
              Demo.config_2025.2 year_2025 Demo.solution_template.2 _
              (Raise RuntimeError aoc_cli.not_installed_msg) workspace
              ltac:(vm_compute; reflexivity) ltac:(vm_compute; reflexivity)
              ltac:(vm_compute; reflexivity) ltac:(vm_compute; reflexivity)
              ltac:(vm_compute; reflexivity) ltac:(vm_compute; reflexivity))
    as (w_dl & w_plain & Hdl & Hplain & Hout & _ & _ & Hsame & _).
  exists w_dl, w_plain. split; [exact Hdl|]. split; [exact Hplain|].
  split; [exact Hout|exact (Hsame eq_refl)].
Defined.

(** C10 as amended, at a fresh workspace: the placeholders of day 7 are
    empty and the run calls [parse_input] on the empty text. *)
Lemma scaffold_then_solve_witness :
  ∃ w', template.scaffold_day (H:=offline) 7 false workspace
        = (Val (["2025"; "solutions"; "day07.py"], ["2025"; "tests"; "test_day07.py"],
                ["2025"; "data"; "examples"; "07.txt"]), w')
      ∧ files w' !! ["2025"; "data"; "inputs"; "07.txt"] = Some ""
      ∧ aoc_cli.read_input 7 (Some 2025) w' = (Val "", w')
      ∧ aoc_cli.read_puzzle 7 (Some 2025) w' = (Val "", w')
      ∧ ∃ r w'', runner.run_day (H:=offline) 7 (Some 2025) w' = (r, w'')
               ∧ ∃ rest, calls w'' = calls w' ++ CallParseInput "" :: rest.
Proof.
  destruct (scaffold_then_solve (H:=offline) 7 workspace
              Demo.config_2025.2 year_2025 Demo.solution_template.2 _
              ltac:(vm_compute; reflexivity) ltac:(vm_compute; reflexivity)
              ltac:(vm_compute; reflexivity) ltac:(vm_compute; reflexivity)
              ltac:(vm_compute; reflexivity))
    as (w' & Hrun & Hin & _ & Hread & Hpuzzle & Hsolve).
  exists w'. split; [exact Hrun|]. split; [exact Hin|].
  split; [exact Hread|]. split; [exact Hpuzzle|].
  destruct (Hsolve _ _ ltac:(vm_compute; reflexivity) ltac:(vm_compute; reflexivity))
    as (r & w'' & Hday & Hcalls & _).
  exists r, w''. split; [exact Hday|exact Hcalls].
Defined.

(** C10, as stated, fails where the input was there before the scaffold:
    the file is not empty afterwards and the run parses its text. *)
Lemma scaffold_keeps_downloaded_input :
  let scaffolded := template.scaffold_day (H:=offline) 7 false with_input_7 in
  scaffolded.1 = Val (["2025"; "solutions"; "day07.py"], ["2025"; "tests"; "test_day07.py"],
                      ["2025"; "data"; "examples"; "07.txt"])
  ∧ files scaffolded.2 !! ["2025"; "data"; "inputs"; "07.txt"] = Some "1 2 3"
  ∧ (aoc_cli.read_input 7 (Some 2025) scaffolded.2).1 = Val "1 2 3"
  ∧ calls (runner.run_day (H:=offline) 7 (Some 2025) scaffolded.2).2
    = [CallParseInput "1 2 3"; CallPartOne; CallPartTwo].
Proof. cbv zeta. split; [|split; [|split]]; vm_compute; reflexivity. Qed.



(** What is printed there: two days done, one input missing, and a total
    that is the sum of the two days done. *)
Example run_all_three_days :
  stdout (runner.run_all (H:=offline) (Some 2025) three_days).2
  = [RunningDays 3; Rule;
     DayDone "01" "3" "6" "6";
     DayInputMissing "02";
     DayDone "03" "5" "10" "22";
     Rule; TotalTime "28"].
Proof. vm_compute. reflexivity. Qed.


(** C4 as amended, on a solution without [part_two]. *)
Lemma run_day_load_errors_witness :
  ∃ w', runner.run_day (H:=offline) 1 (Some 2025) lacks_part_two = (Exc (SystemExit 1), w')
      ∧ calls w' = [CallParseInput "abc"; CallPartOne]
      ∧ stdout w' = [DayHeader "01"; Dashes]
      ∧ stderr w' = [ErrRunning 1 "module 'day01' has no attribute 'part_two'"].
Proof.
  pose proof (run_day_load_errors (H:=offline) 1 (Some 2025) lacks_part_two) as Hthm.
  cbv zeta in Hthm.
  assert (files lacks_part_two !! template.solution_file 1 (Some 2025) = Some no_part_two)
    as Hsrc by (vm_compute; reflexivity).
  rewrite Hsrc in Hthm.
  destruct (Hthm _ "abc" ltac:(vm_compute; reflexivity) ltac:(vm_compute; reflexivity))
    as (_ & _ & Hmissing).
  destruct (Hmissing _ "abc" _ 3 ltac:(vm_compute; reflexivity) ltac:(vm_compute; reflexivity)
              ltac:(vm_compute; reflexivity) ltac:(vm_compute; reflexivity)
              ltac:(vm_compute; reflexivity))
    as (w' & Hrun & Hcalls & Hout & Herr).
  exists w'. split; [exact Hrun|]. split; [exact Hcalls|]. split; [exact Hout|exact Herr].
Defined.

(** C4, as stated, fails: a solution without [part_two] is loaded and run up
    to the call of [part_two], and when its input is missing too it is the
    missing input that is reported. *)
Lemma run_day_validates_nothing_at_load :
  (∃ m, Demo.interpret "day01" no_part_two = inr m ∧ part_two m = None)
  ∧ calls (runner.run_day (H:=offline) 1 (Some 2025) lacks_part_two).2
    = [CallParseInput "abc"; CallPartOne]
  ∧ stderr (runner.run_day (H:=offline) 1 (Some 2025) lacks_part_two).2
    = [ErrRunning 1 "module 'day01' has no attribute 'part_two'"]
  ∧ stderr (runner.run_day (H:=offline) 1 (Some 2025) lacks_part_two_and_input).2
    = [ErrInputNotFound 1].
Proof.
  split; [eexists; split; vm_compute; reflexivity|].
  split; [|split]; vm_compute; reflexivity.
Qed.

(** C5 for day 7 of 2024 and 2025, run one after the other: the first
    shows its results, the second, whose own [part_one] raises, does not
    return. *)
Lemma loader_keyed_by_path_witness :
  template.solution_file 7 (Some 2024) ≠ template.solution_file 7 (Some 2025)
  ∧ ∃ w1 e w2,
      runner.run_day (H:=offline) 7 (Some 2024) two_years = (Val (), w1)
      ∧ stdout w1 = [DayHeader "07"; Dashes; PartOne "3" "1"; PartTwo "6" "5"]
      ∧ runner.run_day (H:=offline) 7 (Some 2025) w1 = (Exc e, w2).
Proof.
  destruct (loader_keyed_by_path (H:=offline) 7 (Some 2024) (Some 2025) two_years
              ltac:(discriminate))
    as (Hne & _ & _ & _ & _ & Hruns & _).
  split; [exact Hne|].
  assert (shown (H:=offline) (Some 2024) 7 (files two_years) = Some ("3", "6")) as Hhere
    by (vm_compute; reflexivity).
  rewrite Hhere in Hruns.
  destruct Hruns as (w1 & Hrun & Hout & Hnext).
  assert (shown (H:=offline) (Some 2025) 7 (files w1) = None) as Hthere.
  { assert (w1 = (runner.run_day (H:=offline) 7 (Some 2024) two_years).2) as ->
      by by rewrite Hrun.
    vm_compute. reflexivity. }
  rewrite Hthere in Hnext. destruct Hnext as (e & w2 & Hrun').
  exists w1, e, w2. split; [exact Hrun|]. split; [exact Hout|exact Hrun'].
Defined.

Section cli_props.
Context `{Env}.

Lemma load_config_missing w :
  files w !! template.config_path = None →
  template.load_config w
  = (Exc (Raise FileNotFoundError (show_path template.config_path)), w).
Proof.
  intros E. unfold template.load_config, read_text, mbind, M_bind. by rewrite E.
Qed.

Lemma main_run_command a w text config :
  files w !! template.config_path = Some text →
  json_load text = Some config →
  cli.main a w
  = cli.run_command (default (default 2025 (config !! "year")) (cli.year_flag a)) a w.
Proof.
  intros Hcfg Hjson. unfold cli.main.
  by rewrite (bind_val _ _ w config w) by by eapply load_config_run.
Qed.

(** C7, as amended.  With the configuration file present and without a
    [year] key, [main] runs the command in the partition of the [--year]
    flag, or of 2025 when the flag was not given, and [scaffold_day]
    scaffolds into the partition of 2025.  With the file absent nothing falls
    back: [load_config] raises [FileNotFoundError], and so do [main] and
    [scaffold_day], before anything else happens. *)
Theorem config_fallback a w :
  match files w !! template.config_path with
  | None =>
      let missing {A} : res A :=
        Exc (Raise FileNotFoundError (show_path template.config_path)) in
      template.load_config w = (missing, w)
      ∧ cli.main a w = (missing, w)
      ∧ ∀ day download, template.scaffold_day day download w = (missing, w)
  | Some text =>
      ∀ config,
        json_load text = Some config →
        config !! "year" = None →
        cli.main a w = cli.run_command (default 2025 (cli.year_flag a)) a w
        ∧ ∀ day download tpl content,
            files w !! template.solution_file day (Some 2025) = None →
            files w !! template.template_path = Some tpl →
            str_format tpl 2025 day (Text.pad2 day) = inr content →
            ∃ w', template.scaffold_day day download w
                  = (Val (template.solution_file day (Some 2025),
                          template.test_file day (Some 2025),
                          aoc_cli.example_file day (Some 2025)), w')
  end.
Proof.
  destruct (files w !! template.config_path) as [text|] eqn:Hcfg.
  - intros config Hjson Hyear. split.
    + rewrite (main_run_command a w text config) by done. by rewrite Hyear.
    + intros day download tpl content Hnew Htpl Hfmt.
      destruct (scaffold_day_run day download w text config tpl content)
        as (w1 & _ & _ & _ & _ & Hrun); rewrite ?Hyear; [done..|].
      rewrite Hyear in Hrun. by eexists.
  - pose proof (load_config_missing w Hcfg) as Hload.
    split; [done|]. split.
    + unfold cli.main. by rewrite (bind_exc _ _ _ _ _ Hload).
    + intros day download. unfold template.scaffold_day.
      by rewrite (bind_exc _ _ _ _ _ Hload).
Qed.

End cli_props.

(** C7 as amended, with the configuration [{}]. *)
Lemma config_fallback_witness :
  cli.main (H:=offline) {| cli.year_flag := None; cli.cmd := cli.CmdSolve 1 false |} empty_config
  = runner.run_day (H:=offline) 1 (Some 2025) empty_config
  ∧ ∃ w', template.scaffold_day (H:=offline) 3 false empty_config
          = (Val (["2025"; "solutions"; "day03.py"], ["2025"; "tests"; "test_day03.py"],
                  ["2025"; "data"; "examples"; "03.txt"]), w').
Proof.
  pose proof (config_fallback (H:=offline)
                {| cli.year_flag := None; cli.cmd := cli.CmdSolve 1 false |} empty_config)
    as Hthm.
  assert (files empty_config !! template.config_path = Some "{}") as Hcfg
    by (vm_compute; reflexivity).
  rewrite Hcfg in Hthm.
  destruct (Hthm ∅ ltac:(vm_compute; reflexivity) ltac:(vm_compute; reflexivity))
    as [Hmain Hscaffold].
  split; [exact Hmain|].
  exact (Hscaffold 3 false Demo.solution_template.2 _
           ltac:(vm_compute; reflexivity) ltac:(vm_compute; reflexivity)
           ltac:(vm_compute; reflexivity)).
Defined.

(** C7, as stated, fails where there is no configuration file: [main] ends
    with an uncaught [FileNotFoundError], exit status 1. *)
Lemma main_fails_without_config :
  cli.main (H:=offline) {| cli.year_flag := None; cli.cmd := cli.CmdAll |} no_config
  = (Exc (Raise FileNotFoundError "/.aoc-cli.json"), no_config)
  ∧ cli.exit_status
      (cli.main (H:=offline) {| cli.year_flag := None; cli.cmd := cli.CmdAll |} no_config).1
    = 1.
Proof. split; vm_compute; reflexivity. Qed.

(** C6.  [main] does not hand the year of [--year] to [scaffold_day], which
    reads the configuration again: with [--year 2023] and a configured year
    of 2025, [scaffold 5] creates the files of day 5 under [2025/] and
    nothing under [2023/]. *)
Lemma main_scaffold_ignores_year_flag :
  let run := cli.main (H:=offline)
               {| cli.year_flag := Some 2023; cli.cmd := cli.CmdScaffold 5 false |}
               workspace in
  run.1 = Val ()
  ∧ stdout run.2 = [Scaffolded "05";
                    SolutionAt ["2025"; "solutions"; "day05.py"];
                    TestsAt ["2025"; "tests"; "test_day05.py"];
                    ExampleAt ["2025"; "data"; "examples"; "05.txt"]]
  ∧ bool_decide (is_Some (files run.2 !! ["2025"; "solutions"; "day05.py"])) = true
  ∧ files run.2 !! ["2023"; "solutions"; "day05.py"] = None.
Proof. cbv zeta. split; [|split; [|split]]; vm_compute; reflexivity. Qed.

(** * Further properties *)

(** ** The layout of a partition *)

(** A year never prints as a word. *)
Lemma py_str_not_literal (y : Z) (s : string) :
  Text.py_int s = None → Text.py_str y ≠ s.
Proof. intros Hs E. rewrite <- E, py_int_py_str in Hs. done. Qed.

Lemma file_name_inj (prefix ext : string) d d' :
  prefix +:+ Text.pad2 d +:+ ext = prefix +:+ Text.pad2 d' +:+ ext → d = d'.
Proof.
  intros E. apply (inj (String.app prefix)) in E.
  by apply append_inj_r, pad2_inj in E.
Qed.

(** X1.  The layout is injective: two files of the layout are the same path
    only if they are of the same kind and the same partition and, the
    conftest apart, of which there is one per partition, of the same day.
    So no two days, kinds or partitions share a solution, test, example,
    input or puzzle file. *)
Theorem resolve_inj day year k day' year' k' :
  resolve day year k = resolve day' year' k' →
  k = k' ∧ year = year' ∧ (k ≠ KConftest → day = day').
Proof.
  assert (∀ y : Z, Text.py_str y ≠ "src") as Hsrc
    by (intros y; by apply py_str_not_literal).
  assert (∀ y : Z, Text.py_str y ≠ "tests") as Htests
    by (intros y; by apply py_str_not_literal).
  assert (∀ y : Z, Text.py_str y ≠ "data") as Hdata
    by (intros y; by apply py_str_not_literal).
  unfold resolve, template.solution_file, template.test_file, template.conftest_file,
    template.day_name, template.get_solutions_dir, template.get_tests_dir,
    aoc_cli.input_file, aoc_cli.example_file, aoc_cli.puzzle_file,
    aoc_cli.get_aoc_data_dir.
  intros E.
  destruct k, k', year as [y|], year' as [y'|]; cbn [app] in E;
    try (rewrite ?append_cons in E; by simplify_eq);
    try (injection E as E1 E2; first [by apply Hsrc in E1 | by apply Htests in E1
           | by apply Hdata in E1 | by symmetry in E1; apply Hsrc in E1
           | by symmetry in E1; apply Htests in E1 | by symmetry in E1; apply Hdata in E1]).
  all: simplify_eq.
  all: repeat match goal with
         | E : Text.py_str _ = Text.py_str _ |- _ => apply py_str_inj in E; subst
         | E : _ +:+ Text.pad2 _ +:+ _ = _ +:+ Text.pad2 _ +:+ _ |- _ =>
             apply file_name_inj in E; subst
         | E : Text.pad2 _ +:+ _ = Text.pad2 _ +:+ _ |- _ =>
             apply append_inj_r, pad2_inj in E; subst
         end.
  all: try done.
Qed.

(** ** What a scaffold writes, and where *)

Section scaffold_props.
Context `{Env}.
Implicit Types (w : World) (fs : gmap path string).

(** Every path a scaffold writes lies under the directory of its year. *)
Lemma scaffold_targets_head year day p :
  p ∈ scaffold_targets year day → head p = Some (Text.py_str year).
Proof.
  unfold scaffold_targets. rewrite !elem_of_cons, elem_of_nil.
  intros Hp. by repeat destruct Hp as [->|Hp].
Qed.

(** A scaffold that succeeds leaves every path outside its targets as it
    was, removes no file, and leaves a file at each target. *)
Lemma scaffold_day_outside day download w text config tpl content :
  files w !! template.config_path = Some text →
  json_load text = Some config →
  let year := default 2025%Z (config !! "year") in
  files w !! template.solution_file day (Some year) = None →
  files w !! template.template_path = Some tpl →
  str_format tpl year day (Text.pad2 day) = inr content →
  ∃ w', template.scaffold_day day download w
        = (Val (template.solution_file day (Some year),
                template.test_file day (Some year),
                aoc_cli.example_file day (Some year)), w')
      ∧ (∀ p, p ∉ scaffold_targets year day → files w' !! p = files w !! p)
      ∧ extends (files w) (files w')
      ∧ Forall (λ p, is_Some (files w' !! p)) (scaffold_targets year day).
Proof.
  intros Hcfg Hjson year Hnew Htpl Hfmt.
  destruct (scaffold_day_run day download w text config tpl content)
    as (w1 & _ & Hagree & Hext & _ & Hrun); [done..|].
  fold year in Hrun, Hagree.
  eexists. split; [exact Hrun|]. cbn [files set_files]. split; [|split].
  - intros p Hp. rewrite scaffold_fs_agree by exact Hp.
    apply Hagree. unfold scaffold_targets in Hp.
    rewrite !not_elem_of_cons in Hp. destruct_and!. by intros [?|?].
  - etrans; [exact Hext|apply scaffold_fs_extends].
  - pose proof (scaffold_fs_created year day content (files w1)) as Hc.
    rewrite !Forall_cons in Hc. destruct_and!.
    unfold scaffold_targets. by repeat constructor.
Qed.

(** X2.  A scaffold that succeeds, with or without download, writes under
    the directory of the configured year only: every path whose first
    component is not that year, the root template, the configuration and the
    files of every other year among them, is afterwards what it was.  It
    removes no file and prints nothing on the error stream. *)
Theorem scaffold_day_stays_in_partition day download w text config tpl content :
  files w !! template.config_path = Some text →
  json_load text = Some config →
  let year := default 2025%Z (config !! "year") in
  files w !! template.solution_file day (Some year) = None →
  files w !! template.template_path = Some tpl →
  str_format tpl year day (Text.pad2 day) = inr content →
  ∃ w', template.scaffold_day day download w
        = (Val (template.solution_file day (Some year),
                template.test_file day (Some year),
                aoc_cli.example_file day (Some year)), w')
      ∧ (∀ p, head p ≠ Some (Text.py_str year) → files w' !! p = files w !! p)
      ∧ (∀ p, is_Some (files w !! p) → is_Some (files w' !! p))
      ∧ stderr w' = stderr w.
Proof.
  intros Hcfg Hjson year Hnew Htpl Hfmt.
  destruct (scaffold_day_outside day download w text config tpl content)
    as (w' & Hrun & Hout & Hext & _); [done..|].
  exists w'. split; [exact Hrun|]. split; [|split; [exact Hext|]].
  - intros p Hp. apply Hout. intros Hin. by apply scaffold_targets_head in Hin.
  - destruct (scaffold_day_run day download w text config tpl content)
      as (w1 & Hdl & _ & _ & _ & Hrun'); [done..|].
    fold year in Hrun', Hdl. rewrite Hrun in Hrun'. injection Hrun' as ->.
    cbn [stderr set_files].
    destruct download; [|by injection Hdl as <-].
    unfold template.download_step, try_except in Hdl.
    destruct (template.download_both day year w) as [[[]|e] wd] eqn:E.
    + injection Hdl as <-. by destruct (download_both_console _ _ _ _ _ E).
    + destruct (download_both_console _ _ _ _ _ E) as [_ Herr].
      rewrite (download_both_raises _ _ _ _ _ E) in Hdl. by injection Hdl as <-.
Qed.

Lemma listed_name_in_targets year day name :
  template.get_solutions_dir (Some year) ++ [name] ∈ scaffold_targets year day →
  name = "__init__.py" ∨ name = template.day_name day.
Proof.
  unfold scaffold_targets. rewrite !elem_of_cons, elem_of_nil.
  intros [E|[E|[E|[E|[E|[E|[E|[E|[]]]]]]]]]; revert E;
    unfold template.solution_file, template.test_file, template.conftest_file,
      template.get_solutions_dir, template.get_tests_dir,
      aoc_cli.input_file, aoc_cli.example_file, aoc_cli.puzzle_file,
      aoc_cli.get_aoc_data_dir; cbn [app]; intros E; simplify_eq; auto.
Qed.

Lemma solutions_dir_head y year name :
  y ≠ Some year →
  head (template.get_solutions_dir y ++ [name]) ≠ Some (Text.py_str year).
Proof.
  intros Hy. destruct y as [y'|]; cbn.
  - intros [= E]. apply py_str_inj in E. congruence.
  - intros [= E]. symmetry in E. revert E. by apply py_str_not_literal.
Qed.

(** X3.  After a scaffold that succeeds the day is listed by
    [get_available_days] for the configured year, next to exactly the days
    that were listed before, and every other partition lists the days it
    listed before.  The two package markers the scaffold creates add no
    day. *)
Theorem scaffold_day_registers day download w text config tpl content :
  files w !! template.config_path = Some text →
  json_load text = Some config →
  let year := default 2025%Z (config !! "year") in
  files w !! template.solution_file day (Some year) = None →
  files w !! template.template_path = Some tpl →
  str_format tpl year day (Text.pad2 day) = inr content →
  ∃ w', template.scaffold_day day download w
        = (Val (template.solution_file day (Some year),
                template.test_file day (Some year),
                aoc_cli.example_file day (Some year)), w')
      ∧ ∀ partition d,
          d ∈ template.available_days partition (files w')
          ↔ (partition = Some year ∧ d = day)
            ∨ d ∈ template.available_days partition (files w).
Proof.
  intros Hcfg Hjson year Hnew Htpl Hfmt.
  destruct (scaffold_day_outside day download w text config tpl content)
    as (w' & Hrun & Hout & Hext & Hmade); [done..|].
  fold year in Hrun, Hout, Hmade.
  exists w'. split; [exact Hrun|]. intros partition d.
  rewrite !elem_of_available_days. split.
  - intros (name & Hin & Hg & Hd).
    destruct (decide (template.get_solutions_dir partition ++ [name]
                      ∈ scaffold_targets year day)) as [Ht|Ht].
    + assert (partition = Some year) as ->.
      { destruct (decide (partition = Some year)) as [|Hne]; [done|].
        apply scaffold_targets_head in Ht.
        by apply solutions_dir_head with (name:=name) in Hne. }
      apply listed_name_in_targets in Ht as [->| ->]; [by vm_compute in Hg|].
      rewrite day_of_day_name in Hd. left. by simplify_eq.
    + right. exists name. by rewrite <- Hout.
  - intros [[-> ->]|(name & Hin & Hg & Hd)].
    + exists (template.day_name day). split; [|split].
      * unfold scaffold_targets in Hmade. rewrite !Forall_cons in Hmade. by destruct_and!.
      * apply glob_day_name.
      * apply day_of_day_name.
    + exists name. split; [by apply Hext|done].
Qed.

End scaffold_props.

(** ** Scaffolding two days *)

Section order_props.
Context `{Env}.
Implicit Types (w : World) (fs : gmap path string).

(** Two days of a year share the package markers and the conftest only. *)
Lemma scaffold_targets_of_two_days year a b p :
  a ≠ b → p ∈ scaffold_targets year a → p ∈ scaffold_targets year b →
  p ∈ shared_files year.
Proof.
  intros Hab. unfold scaffold_targets, shared_files.
  rewrite !elem_of_cons, !elem_of_nil.
  unfold template.solution_file, template.test_file, template.conftest_file,
    template.day_name, template.get_solutions_dir, template.get_tests_dir,
    aoc_cli.input_file, aoc_cli.example_file, aoc_cli.puzzle_file,
    aoc_cli.get_aoc_data_dir. cbn [app].
  intros Ha Hb.
  repeat destruct Ha as [->|Ha]; try done; auto;
    repeat destruct Hb as [Hb|Hb]; try done;
    rewrite ?append_cons in Hb; simplify_eq;
    exfalso; apply Hab;
    repeat match goal with
           | E : _ +:+ Text.pad2 _ +:+ _ = _ +:+ Text.pad2 _ +:+ _ |- _ =>
               apply file_name_inj in E
           | E : Text.pad2 _ +:+ _ = Text.pad2 _ +:+ _ |- _ =>
               apply append_inj_r, pad2_inj in E
           end; done.
Qed.

Lemma scaffold_fs_shared year day content fs p :
  p ∈ shared_files year →
  template.scaffold_fs year day content fs !! p
  = Some (default (if decide (p = template.conftest_file (Some year))
                   then template.conftest_content else "") (fs !! p)).
Proof.
  unfold shared_files. rewrite !elem_of_cons, elem_of_nil.
  intros [->|[->|[->|[]]]]; unfold template.scaffold_fs.
  - rewrite decide_False by path_ne.
    rewrite !lookup_touch_fs_ne by path_ne.
    rewrite !lookup_insert_ne by path_ne.
    rewrite lookup_write_if_absent_fs_ne by path_ne.
    rewrite lookup_touch_fs_ne by path_ne.
    apply lookup_touch_fs_eq.
  - rewrite decide_False by path_ne.
    rewrite !lookup_touch_fs_ne by path_ne.
    rewrite !lookup_insert_ne by path_ne.
    rewrite lookup_write_if_absent_fs_ne by path_ne.
    rewrite lookup_touch_fs_eq.
    by rewrite lookup_touch_fs_ne by path_ne.
  - rewrite decide_True by done.
    rewrite !lookup_touch_fs_ne by path_ne.
    rewrite !lookup_insert_ne by path_ne.
    rewrite lookup_write_if_absent_fs_eq.
    by rewrite !lookup_touch_fs_ne by path_ne.
Qed.

Lemma scaffold_fs_comm year a b content_a content_b fs :
  a ≠ b →
  template.scaffold_fs year a content_a (template.scaffold_fs year b content_b fs)
  = template.scaffold_fs year b content_b (template.scaffold_fs year a content_a fs).
Proof.
  intros Hab. apply map_eq. intros p.
  destruct (decide (p ∈ scaffold_targets year a)) as [Ha|Ha];
    [|rewrite (scaffold_fs_agree year a) by exact Ha;
      apply scaffold_fs_local; by rewrite (scaffold_fs_agree year a) by exact Ha].
  destruct (decide (p ∈ scaffold_targets year b)) as [Hb|Hb];
    [|rewrite (scaffold_fs_agree year b _ (template.scaffold_fs _ _ _ _)) by exact Hb;
      apply scaffold_fs_local; by rewrite (scaffold_fs_agree year b) by exact Hb].
  pose proof (scaffold_targets_of_two_days year a b p Hab Ha Hb) as Hs.
  by rewrite !scaffold_fs_shared by done.
Qed.

Lemma not_scaffolded year (p : path) day :
  head p ≠ Some (Text.py_str year) → p ∉ scaffold_targets year day.
Proof. intros Hp Hin. by apply scaffold_targets_head in Hin. Qed.

(** X4.  Two different new days can be scaffolded one after the other, in
    either order, and both orders leave the same world: the scaffold of one
    day does not make the other fail, and neither touches what the other
    wrote. *)
Theorem scaffold_day_order a b w text config tpl content_a content_b :
  files w !! template.config_path = Some text →
  json_load text = Some config →
  let year := default 2025%Z (config !! "year") in
  files w !! template.template_path = Some tpl →
  str_format tpl year a (Text.pad2 a) = inr content_a →
  str_format tpl year b (Text.pad2 b) = inr content_b →
  files w !! template.solution_file a (Some year) = None →
  files w !! template.solution_file b (Some year) = None →
  a ≠ b →
  ∃ wa wab wb wba,
    template.scaffold_day a false w
    = (Val (template.solution_file a (Some year), template.test_file a (Some year),
            aoc_cli.example_file a (Some year)), wa)
    ∧ template.scaffold_day b false wa
      = (Val (template.solution_file b (Some year), template.test_file b (Some year),
              aoc_cli.example_file b (Some year)), wab)
    ∧ template.scaffold_day b false w
      = (Val (template.solution_file b (Some year), template.test_file b (Some year),
              aoc_cli.example_file b (Some year)), wb)
    ∧ template.scaffold_day a false wb
      = (Val (template.solution_file a (Some year), template.test_file a (Some year),
              aoc_cli.example_file a (Some year)), wba)
    ∧ wab = wba.
Proof.
  intros Hcfg Hjson year Htpl Hfa Hfb Hna Hnb Hab.
  assert (∀ d c fs, template.scaffold_fs year d c fs !! template.config_path
                    = fs !! template.config_path) as Hkc.
  { intros d c fs. apply scaffold_fs_agree, not_scaffolded. cbn.
    intros [= E]. symmetry in E. revert E. by apply py_str_not_literal. }
  assert (∀ d c fs, template.scaffold_fs year d c fs !! template.template_path
                    = fs !! template.template_path) as Hkt.
  { intros d c fs. apply scaffold_fs_agree, not_scaffolded. cbn.
    intros [= E]. symmetry in E. revert E. by apply py_str_not_literal. }
  assert (∀ d d' c fs, d ≠ d' →
            template.scaffold_fs year d c fs !! template.solution_file d' (Some year)
            = fs !! template.solution_file d' (Some year)) as Hks.
  { intros d d' c fs Hd. apply scaffold_fs_agree. intros Hin.
    assert (template.solution_file d' (Some year) ∈ scaffold_targets year d') as Hin'
      by (unfold scaffold_targets; rewrite !elem_of_cons; auto).
    pose proof (scaffold_targets_of_two_days year d d' _ Hd Hin Hin') as Hs.
    unfold shared_files in Hs. rewrite !elem_of_cons, elem_of_nil in Hs.
    destruct Hs as [E|[E|[E|[]]]]; revert E; path_ne. }
  destruct (scaffold_day_run a false w text config tpl content_a)
    as (w1 & _ & _ & _ & Hsame & Hrun_a); [done..|].
  rewrite Hsame in Hrun_a by done. clear w1 Hsame.
  destruct (scaffold_day_run b false w text config tpl content_b)
    as (w1 & _ & _ & _ & Hsame & Hrun_b); [done..|].
  rewrite Hsame in Hrun_b by done. clear w1 Hsame.
  fold year in Hrun_a, Hrun_b.
  set (wa := set_files (template.scaffold_fs year a content_a) w) in *.
  set (wb := set_files (template.scaffold_fs year b content_b) w) in *.
  destruct (scaffold_day_run b false wa text config tpl content_b)
    as (w1 & _ & _ & _ & Hsame & Hrun_ab).
  { cbn [wa files set_files]. by rewrite Hkc. }
  { done. }
  { cbn [wa files set_files]. fold year. by rewrite Hks. }
  { cbn [wa files set_files]. by rewrite Hkt. }
  { done. }
  rewrite Hsame in Hrun_ab by done. clear w1 Hsame.
  destruct (scaffold_day_run a false wb text config tpl content_a)
    as (w1 & _ & _ & _ & Hsame & Hrun_ba).
  { cbn [wb files set_files]. by rewrite Hkc. }
  { done. }
  { cbn [wb files set_files]. fold year. by rewrite Hks. }
  { cbn [wb files set_files]. by rewrite Hkt. }
  { done. }
  rewrite Hsame in Hrun_ba by done. clear w1 Hsame.
  fold year in Hrun_ab, Hrun_ba.
  eexists wa, _, wb, _.
  split; [exact Hrun_a|]. split; [exact Hrun_ab|].
  split; [exact Hrun_b|]. split; [exact Hrun_ba|].
  subst wa wb. destruct w as [fs out err n cs ps].
  unfold set_files. cbn [files stdout stderr ticks calls spawned].
  f_equal. by apply scaffold_fs_comm.
Qed.

End order_props.

(** ** Downloads *)

Section download_props.
Context `{Env}.
Implicit Types (w : World) (fs : gmap path string).

(** The two downloads, step by step. *)
Lemma download_input_run day year w :
  let target := aoc_cli.input_file day (Some year) in
  let r := aoc_download InputOnly year day in
  aoc_cli.download_input day year w
  = if aoc_installed
    then (if Z.eqb (returncode r) 0
          then if bool_decide (is_Some (aoc_cli.aoc_fs r target (files w) !! target))
               then Val target
               else Exc (Raise RuntimeError
                  ("Download succeeded but file not found at " +:+ show_path target +:+ nl +:+
                   "stdout: " +:+ out_text r +:+ nl +:+ "stderr: " +:+ err_text r))
          else Exc (Raise RuntimeError ("Failed to download input: " +:+ err_text r)),
          set_files (aoc_cli.aoc_fs r target) w)
    else (Exc (Raise RuntimeError aoc_cli.not_installed_msg), w).
Proof.
  unfold aoc_cli.download_input, aoc_cli.check_aoc_cli, aoc_cli.run_aoc, mkdir_p,
    exists_, raise, mbind, M_bind, mret, M_ret.
  destruct aoc_installed; [|done]. cbn [negb fst snd files set_files].
  destruct (Z.eqb _ 0); [|done]. cbn [negb].
  by destruct (bool_decide _).
Qed.

Lemma download_puzzle_run day year w :
  let target := aoc_cli.puzzle_file day (Some year) in
  let r := aoc_download PuzzleOnly year day in
  aoc_cli.download_puzzle day year w
  = if aoc_installed
    then (if Z.eqb (returncode r) 0
          then if bool_decide (is_Some (aoc_cli.aoc_fs r target (files w) !! target))
               then Val target
               else Exc (Raise RuntimeError
                  ("Download succeeded but file not found at " +:+ show_path target +:+ nl +:+
                   "stdout: " +:+ out_text r +:+ nl +:+ "stderr: " +:+ err_text r))
          else Exc (Raise RuntimeError ("Failed to download puzzle: " +:+ err_text r)),
          set_files (aoc_cli.aoc_fs r target) w)
    else (Exc (Raise RuntimeError aoc_cli.not_installed_msg), w).
Proof.
  unfold aoc_cli.download_puzzle, aoc_cli.check_aoc_cli, aoc_cli.run_aoc, mkdir_p,
    exists_, raise, mbind, M_bind, mret, M_ret.
  destruct aoc_installed; [|done]. cbn [negb fst snd files set_files].
  destruct (Z.eqb _ 0); [|done]. cbn [negb].
  by destruct (bool_decide _).
Qed.

Lemma download_input_result day year w :
  ∃ w', aoc_cli.download_input day year w = (Val (aoc_cli.input_file day (Some year)), w')
        ∨ ∃ msg, aoc_cli.download_input day year w = (Exc (Raise RuntimeError msg), w').
Proof.
  rewrite download_input_run. cbv zeta. repeat case_match; eauto.
Qed.


Lemma lookup_aoc_fs_ne r (target p : path) fs :
  p ≠ target → aoc_cli.aoc_fs r target fs !! p = fs !! p.
Proof.
  intros Hp. unfold aoc_cli.aoc_fs. destruct (written r); [|done].
  by apply lookup_insert_ne.
Qed.

Lemma lookup_aoc_fs_written r (target : path) fs text :
  written r = Some text → aoc_cli.aoc_fs r target fs !! target = Some text.
Proof. intros E. unfold aoc_cli.aoc_fs. rewrite E. apply lookup_insert_eq. Qed.

(** X5.  [download_input] and [download_puzzle] return only the path of the
    input, respectively the puzzle, of the day in the partition of the year,
    and only when the tool is installed, ended with status 0 and the file
    exists afterwards.  Otherwise they raise [RuntimeError], nothing else.
    Either way they print nothing and leave every other file as it was, and
    when the tool is not installed they change nothing at all. *)
Theorem download_contract day year w :
  let input := aoc_cli.input_file day (Some year) in
  let puzzle := aoc_cli.puzzle_file day (Some year) in
  (∀ p w', aoc_cli.download_input day year w = (Val p, w') →
     p = input ∧ is_Some (files w' !! input)
     ∧ aoc_installed = true ∧ returncode (aoc_download InputOnly year day) = 0)
  ∧ (∀ p w', aoc_cli.download_puzzle day year w = (Val p, w') →
     p = puzzle ∧ is_Some (files w' !! puzzle)
     ∧ aoc_installed = true ∧ returncode (aoc_download PuzzleOnly year day) = 0)
  ∧ (∀ e w', aoc_cli.download_input day year w = (Exc e, w')
             ∨ aoc_cli.download_puzzle day year w = (Exc e, w') →
     ∃ msg, e = Raise RuntimeError msg)
  ∧ (∀ r w', aoc_cli.download_input day year w = (r, w') →
     (∀ p, p ≠ input → files w' !! p = files w !! p)
     ∧ stdout w' = stdout w ∧ stderr w' = stderr w
     ∧ (aoc_installed = false → w' = w))
  ∧ (∀ r w', aoc_cli.download_puzzle day year w = (r, w') →
     (∀ p, p ≠ puzzle → files w' !! p = files w !! p)
     ∧ stdout w' = stdout w ∧ stderr w' = stderr w
     ∧ (aoc_installed = false → w' = w)).
Proof.
  intros input puzzle.
  rewrite download_input_run, download_puzzle_run. fold input puzzle.
  split_and!.
  - intros p w' E. destruct aoc_installed; [|done].
    destruct (Z.eqb_spec (returncode (aoc_download InputOnly year day)) 0); [|by simplify_eq].
    case_bool_decide; by simplify_eq.
  - intros p w' E. destruct aoc_installed; [|done].
    destruct (Z.eqb_spec (returncode (aoc_download PuzzleOnly year day)) 0); [|by simplify_eq].
    case_bool_decide; by simplify_eq.
  - intros e w' [E|E]; destruct aoc_installed; simplify_eq; eauto;
      repeat case_match; simplify_eq; eauto.
  - intros r w' E. destruct aoc_installed; simplify_eq; [|done].
    split; [|done]. intros p Hp. by apply lookup_aoc_fs_ne.
  - intros r w' E. destruct aoc_installed; simplify_eq; [|done].
    split; [|done]. intros p Hp. by apply lookup_aoc_fs_ne.
Qed.

(** The readers: the text of the file, or [FileNotFoundError]; the world is
    left as it was. *)
Lemma read_input_eq day year w :
  aoc_cli.read_input day year w
  = (match files w !! aoc_cli.input_file day year with
     | Some text => Val text
     | None =>
         Exc (Raise FileNotFoundError
                ("Input file not found: " +:+ show_path (aoc_cli.input_file day year)
                 +:+ nl +:+ "Download it with: python main.py download " +:+ Text.py_str day))
     end, w).
Proof.
  unfold aoc_cli.read_input, exists_, read_text, mbind, M_bind.
  destruct (files w !! aoc_cli.input_file day year) as [text|] eqn:E.
  - rewrite bool_decide_eq_true_2 by eauto. cbn [fst snd negb]. by rewrite E.
  - by rewrite bool_decide_eq_false_2 by (by intros [? ?]).
Qed.

Lemma read_puzzle_eq day year w :
  aoc_cli.read_puzzle day year w
  = (match files w !! aoc_cli.puzzle_file day year with
     | Some text => Val text
     | None =>
         Exc (Raise FileNotFoundError
                ("Puzzle file not found: " +:+ show_path (aoc_cli.puzzle_file day year)
                 +:+ nl +:+ "Download it with: python main.py download " +:+ Text.py_str day))
     end, w).
Proof.
  unfold aoc_cli.read_puzzle, exists_, read_text, mbind, M_bind.
  destruct (files w !! aoc_cli.puzzle_file day year) as [text|] eqn:E.
  - rewrite bool_decide_eq_true_2 by eauto. cbn [fst snd negb]. by rewrite E.
  - by rewrite bool_decide_eq_false_2 by (by intros [? ?]).
Qed.

Lemma read_example_run day year w text :
  files w !! aoc_cli.example_file day year = Some text →
  aoc_cli.read_example day year w = (Val text, w).
Proof.
  intros E. unfold aoc_cli.read_example, exists_, read_text, mbind, M_bind.
  rewrite E. rewrite bool_decide_eq_true_2 by eauto. cbn. by rewrite E.
Qed.

(** X6.  Download and read go through the same path: when the tool is
    installed, ends with status 0 and writes its target, both downloads
    return and [read_input] and [read_puzzle] of that day and year then
    return the texts the tool wrote.  The downloads land in the partition of
    the year: what [read_input] and [read_puzzle] return without a year, for
    the root partition, is what it was before. *)
Theorem download_then_read day year w text_in text_pz :
  aoc_installed = true →
  returncode (aoc_download InputOnly year day) = 0 →
  returncode (aoc_download PuzzleOnly year day) = 0 →
  written (aoc_download InputOnly year day) = Some text_in →
  written (aoc_download PuzzleOnly year day) = Some text_pz →
  ∃ w1 w2,
    aoc_cli.download_input day year w = (Val (aoc_cli.input_file day (Some year)), w1)
    ∧ aoc_cli.download_puzzle day year w1 = (Val (aoc_cli.puzzle_file day (Some year)), w2)
    ∧ aoc_cli.read_input day (Some year) w2 = (Val text_in, w2)
    ∧ aoc_cli.read_puzzle day (Some year) w2 = (Val text_pz, w2)
    ∧ (aoc_cli.read_input day None w2).1 = (aoc_cli.read_input day None w).1
    ∧ (aoc_cli.read_puzzle day None w2).1 = (aoc_cli.read_puzzle day None w).1.
Proof.
  intros Hin Hrc1 Hrc2 Hw1 Hw2.
  set (w1 := set_files (aoc_cli.aoc_fs (aoc_download InputOnly year day)
                          (aoc_cli.input_file day (Some year))) w).
  set (w2 := set_files (aoc_cli.aoc_fs (aoc_download PuzzleOnly year day)
                          (aoc_cli.puzzle_file day (Some year))) w1).
  exists w1, w2.
  assert (files w2 !! aoc_cli.input_file day (Some year) = Some text_in) as Hi.
  { cbn [w2 w1 files set_files]. rewrite lookup_aoc_fs_ne by path_ne.
    by apply lookup_aoc_fs_written. }
  assert (files w2 !! aoc_cli.puzzle_file day (Some year) = Some text_pz) as Hp
    by by apply lookup_aoc_fs_written.
  assert (∀ p : path, p ≠ aoc_cli.input_file day (Some year) →
                      p ≠ aoc_cli.puzzle_file day (Some year) →
                      files w2 !! p = files w !! p) as Hother.
  { intros p Hp1 Hp2. cbn [w2 w1 files set_files]. by rewrite !lookup_aoc_fs_ne. }
  split_and!.
  - rewrite download_input_run. cbv zeta. rewrite Hin, Hrc1. cbn [Z.eqb].
    by rewrite bool_decide_eq_true_2
      by (erewrite lookup_aoc_fs_written by done; eauto).
  - rewrite download_puzzle_run. cbv zeta. rewrite Hin, Hrc2. cbn [Z.eqb].
    by rewrite bool_decide_eq_true_2
      by (erewrite lookup_aoc_fs_written by done; eauto).
  - by apply read_input_run.
  - by apply read_puzzle_run.
  - rewrite !read_input_eq. cbn [fst]. by rewrite Hother by path_ne.
  - rewrite !read_puzzle_eq. cbn [fst]. by rewrite Hother by path_ne.
Qed.

Lemma scaffold_fs_example year day content fs :
  template.scaffold_fs year day content fs !! aoc_cli.example_file day (Some year)
  = Some (default "" (fs !! aoc_cli.example_file day (Some year))).
Proof.
  unfold template.scaffold_fs.
  rewrite !lookup_touch_fs_ne by path_ne.
  rewrite lookup_touch_fs_eq.
  rewrite !lookup_insert_ne by path_ne.
  rewrite lookup_write_if_absent_fs_ne by path_ne.
  by rewrite !lookup_touch_fs_ne by path_ne.
Qed.

(** X7.  A scaffold with a download that works prints no warning, and its
    placeholder step does not empty what was downloaded: afterwards
    [read_input] and [read_puzzle] return the downloaded texts, and
    [read_example] returns the example that was there, or the empty text of
    the fresh placeholder. *)
Theorem scaffold_day_keeps_download day w text config tpl content text_in text_pz :
  files w !! template.config_path = Some text →
  json_load text = Some config →
  let year := default 2025%Z (config !! "year") in
  let example := aoc_cli.example_file day (Some year) in
  files w !! template.solution_file day (Some year) = None →
  files w !! template.template_path = Some tpl →
  str_format tpl year day (Text.pad2 day) = inr content →
  aoc_installed = true →
  returncode (aoc_download InputOnly year day) = 0 →
  returncode (aoc_download PuzzleOnly year day) = 0 →
  written (aoc_download InputOnly year day) = Some text_in →
  written (aoc_download PuzzleOnly year day) = Some text_pz →
  ∃ w', template.scaffold_day day true w
        = (Val (template.solution_file day (Some year),
                template.test_file day (Some year), example), w')
      ∧ stdout w' = stdout w
      ∧ stderr w' = stderr w
      ∧ aoc_cli.read_input day (Some year) w' = (Val text_in, w')
      ∧ aoc_cli.read_puzzle day (Some year) w' = (Val text_pz, w')
      ∧ aoc_cli.read_example day (Some year) w'
        = (Val (default "" (files w !! example)), w').
Proof.
  intros Hcfg Hjson year example Hnew Htpl Hfmt Hin Hrc1 Hrc2 Hw1 Hw2.
  destruct (scaffold_day_run day true w text config tpl content)
    as (w1 & Hdl & Hagree & _ & _ & Hrun); [done..|].
  fold year example in Hdl, Hagree, Hrun.
  set (wi := set_files (aoc_cli.aoc_fs (aoc_download InputOnly year day)
                          (aoc_cli.input_file day (Some year))) w).
  set (wp := set_files (aoc_cli.aoc_fs (aoc_download PuzzleOnly year day)
                          (aoc_cli.puzzle_file day (Some year))) wi).
  assert (w1 = wp) as ->.
  { unfold template.download_step, try_except, template.download_both in Hdl.
    rewrite (bind_val _ _ w (aoc_cli.input_file day (Some year)) wi) in Hdl.
    2:{ rewrite download_input_run. cbv zeta. rewrite Hin, Hrc1. cbn [Z.eqb].
        by rewrite bool_decide_eq_true_2
          by (erewrite lookup_aoc_fs_written by done; eauto). }
    rewrite (bind_val _ _ wi (aoc_cli.puzzle_file day (Some year)) wp) in Hdl.
    2:{ rewrite download_puzzle_run. cbv zeta. rewrite Hin, Hrc2. cbn [Z.eqb].
        by rewrite bool_decide_eq_true_2
          by (erewrite lookup_aoc_fs_written by done; eauto). }
    by injection Hdl as <-. }
  eexists. split; [exact Hrun|]. split; [done|]. split; [done|].
  subst wp wi.
  split_and!.
  - apply read_input_run. cbn [files set_files]. rewrite scaffold_fs_input.
    rewrite lookup_aoc_fs_ne by path_ne.
    by erewrite lookup_aoc_fs_written by done.
  - apply read_puzzle_run. cbn [files set_files]. rewrite scaffold_fs_puzzle.
    by erewrite lookup_aoc_fs_written by done.
  - apply read_example_run. cbn [files set_files]. rewrite scaffold_fs_example.
    by rewrite !lookup_aoc_fs_ne by path_ne.
Qed.

End download_props.

(** ** Running and timing a day *)

Section solve_props.
Context `{Env}.
Implicit Types (w : World) (year : option Z) (day : Z).



(** [time_day] and [time_all], step by step. *)
Lemma time_day_run day year w :
  runner.time_day day year w
  = match files w !! template.test_file day year with
    | Some _ =>
        let argv := pytest_argv (show_path (template.test_file day year)) in
        match pytest_status argv with
        | inr status => (Exc (SystemExit status), (runner.run_pytest argv w).2)
        | inl e => (Exc e, w)
        end
    | None => (Exc (SystemExit 1), (eprint (ErrTestNotFound day) w).2)
    end.
Proof.
  unfold runner.time_day, exists_, mbind, M_bind.
  destruct (files w !! template.test_file day year) as [text|] eqn:E.
  - rewrite bool_decide_eq_true_2 by eauto. cbn [negb fst snd].
    unfold runner.run_pytest, pytest_argv. cbv zeta.
    by destruct (pytest_status _).
  - by rewrite bool_decide_eq_false_2 by (by intros [? ?]).
Qed.

Lemma time_all_run y w :
  runner.time_all (Some y) w
  = match template.available_days (Some y) (files w) with
    | [] => (Val (), (print NoSolutionsFound w).2)
    | _ =>
        let argv := pytest_argv (Text.py_str y +:+ "/tests/") in
        match pytest_status argv with
        | inr status => (Exc (SystemExit status), (runner.run_pytest argv w).2)
        | inl e => (Exc e, w)
        end
    end.
Proof.
  unfold runner.time_all.
  rewrite (bind_val _ _ w (template.available_days (Some y) (files w)) w) by done.
  destruct (template.available_days (Some y) (files w)); [done|].
  unfold mbind, M_bind, runner.run_pytest, pytest_argv. cbv zeta.
  by destruct (pytest_status _).
Qed.

(** X10.  After a scaffold that succeeds, [time_day] of that day finds the
    test file and [time_all] of the year finds a day, and each starts one
    pytest process, on the test file and on the tests directory of the year.
    When the process ran they end the process with its status; when it could
    not be started (no [uv]) what [subprocess.run] raised escapes, and no
    process is on record.  Before the scaffold, with no test file,
    [time_day] starts no process and ends with status 1. *)
Theorem scaffold_then_time day download w text config tpl content :
  files w !! template.config_path = Some text →
  json_load text = Some config →
  let year := default 2025%Z (config !! "year") in
  let test := template.test_file day (Some year) in
  let started (argv : list string) (run : res () * World) w' :=
    match pytest_status argv with
    | inr status =>
        run.1 = Exc (SystemExit status)
        ∧ spawned run.2 = spawned w' ++ [argv]
    | inl e => run = (Exc e, w')
    end in
  files w !! template.solution_file day (Some year) = None →
  files w !! template.template_path = Some tpl →
  str_format tpl year day (Text.pad2 day) = inr content →
  ∃ w', template.scaffold_day day download w
        = (Val (template.solution_file day (Some year), test,
                aoc_cli.example_file day (Some year)), w')
      ∧ (files w !! test = None →
         runner.time_day day (Some year) w
         = (Exc (SystemExit 1), (eprint (ErrTestNotFound day) w).2))
      ∧ started (pytest_argv (show_path test)) (runner.time_day day (Some year) w') w'
      ∧ started (pytest_argv (Text.py_str year +:+ "/tests/"))
          (runner.time_all (Some year) w') w'.
Proof.
  intros Hcfg Hjson year test started Hnew Htpl Hfmt.
  destruct (scaffold_day_outside day download w text config tpl content)
    as (w' & Hrun & _ & _ & Hmade); [done..|].
  fold year in Hrun, Hmade. subst test started.
  unfold scaffold_targets in Hmade. rewrite !Forall_cons in Hmade.
  destruct Hmade as (_ & _ & _ & Hsol & [content' Htest] & _).
  exists w'. split; [exact Hrun|]. split; [|split].
  - intros Hno. by rewrite time_day_run, Hno.
  - rewrite time_day_run, Htest. cbv zeta.
    unfold runner.run_pytest. by destruct (pytest_status _).
  - rewrite time_all_run.
    assert (day ∈ template.available_days (Some year) (files w')) as Hday.
    { apply elem_of_available_days. exists (template.day_name day).
      split; [done|]. split; [apply glob_day_name|apply day_of_day_name]. }
    destruct (template.available_days (Some year) (files w'));
      [by apply elem_of_nil in Hday|].
    cbv zeta. unfold runner.run_pytest. by destruct (pytest_status _).
Qed.


End solve_props.

(** ** The commands of [main] *)

Section command_props.
Context `{Env}.
Implicit Types (w : World) (a : cli.args).


(** What a scaffold that returns has printed: the warning of a failed
    download, if there was one. *)
Lemma scaffold_day_console day download w paths w' :
  template.scaffold_day day download w = (Val paths, w') →
  ∃ config,
    (∃ text, files w !! template.config_path = Some text ∧ json_load text = Some config)
    ∧ stderr w' = stderr w
    ∧ stdout w' = stdout w
        ++ match download,
                 (template.download_both day (default 2025%Z (config !! "year")) w).1 with
           | true, Exc e => [WarnDownload (exn_str e)]
           | _, _ => []
           end.
Proof.
  intros Hrun.
  destruct (scaffold_day_returns _ _ _ _ _ Hrun)
    as (text & config & tpl & content & Hcfg & Hjson & Hnew & Htpl & Hfmt).
  exists config. split; [by exists text|].
  destruct (scaffold_day_run day download w text config tpl content)
    as (w1 & Hdl & _ & _ & _ & Hrun'); [done..|].
  rewrite Hrun in Hrun'. injection Hrun' as _ ->. cbn [stdout stderr set_files].
  destruct download; [|injection Hdl as <-; by rewrite app_nil_r].
  unfold template.download_step, try_except in Hdl.
  destruct (template.download_both day _ w) as [[[]|e] wd] eqn:E.
  - injection Hdl as <-. destruct (download_both_console _ _ _ _ _ E) as [-> ->].
    by rewrite app_nil_r.
  - destruct (download_both_console _ _ _ _ _ E) as [Ho He].
    rewrite (download_both_raises _ _ _ _ _ E) in Hdl. injection Hdl as <-.
    cbn. by rewrite Ho, He.
Qed.

(** X12.  The [scaffold] command, by what [scaffold_day] does.  When
    [scaffold_day] raises [FileExistsError], as it does on a day whose
    solution exists, [main] prints the error on the error stream and ends
    with status 1.  When it raises anything else, as it does without the
    template, the exception escapes [main].  When it returns, [main]
    returns, having printed the four lines of the report after whatever
    [scaffold_day] printed, which is the warning of a failed download if
    there was one, and then, whenever [--download] was given, the line that
    says input and puzzle were downloaded: also when the download failed. *)
Theorem main_scaffold_outcome year_flag day download w text config :
  files w !! template.config_path = Some text →
  json_load text = Some config →
  let year := default 2025%Z (config !! "year") in
  let a := {| cli.year_flag := year_flag; cli.cmd := cli.CmdScaffold day download |} in
  ∀ r w1,
    template.scaffold_day day download w = (r, w1) →
    match r with
    | Exc e =>
        cli.main a w
        = if has_class FileExistsError e
          then (Exc (SystemExit 1), (eprint (ErrMessage (exn_str e)) w1).2)
          else (Exc e, w1)
    | Val (solution_path, test_path, example_path) =>
        ∃ w', cli.main a w = (Val (), w')
            ∧ stderr w' = stderr w
            ∧ stdout w' = stdout w
                ++ match download, (template.download_both day year w).1 with
                   | true, Exc e => [WarnDownload (exn_str e)]
                   | _, _ => []
                   end
                ++ [Scaffolded (Text.pad2 day); SolutionAt solution_path;
                    TestsAt test_path; ExampleAt example_path]
                ++ (if download then [InputAndPuzzleDownloaded] else [])
    end.
Proof.
  intros Hcfg Hjson year a r w1 Hrun.
  rewrite (main_run_command a w text config) by done.
  unfold cli.run_command. cbn [cli.cmd a].
  unfold try_except.
  destruct r as [[[solution_path test_path] example_path]|e].
  - rewrite (bind_val _ _ _ _ _ Hrun).
    destruct (scaffold_day_console _ _ _ _ _ Hrun)
      as (config' & (text' & Hcfg' & Hjson') & Herr & Hout).
    assert (text' = text) as -> by congruence.
    assert (config' = config) as -> by congruence.
    fold year in Hout.
    destruct download; eexists; (split; [reflexivity|]);
      cbn [print fst snd stdout stderr set_files]; rewrite Hout, Herr;
      (split; [done|]); by rewrite <- !app_assoc.
  - rewrite (bind_exc _ _ _ _ _ Hrun). by destruct (has_class FileExistsError e).
Qed.

(** X13.  The [download] command.  Without the tool it prints the three
    lines of the hint on the error stream and ends with status 1: the
    [sys.exit] inside the [try] is not caught by [except Exception], so no
    fourth line follows.  With both [--input-only] and [--puzzle-only] it
    downloads nothing and returns.  When the input download raises, the error
    is printed, the status is 1 and the puzzle is not fetched.  When both
    downloads return, it returns after the two confirmations. *)
Theorem main_download_outcome year_flag day input_only puzzle_only w text config :
  files w !! template.config_path = Some text →
  json_load text = Some config →
  let year := default (default 2025%Z (config !! "year")) year_flag in
  let a := {| cli.year_flag := year_flag;
              cli.cmd := cli.CmdDownload day input_only puzzle_only |} in
  (aoc_installed = false →
   cli.main a w
   = (Exc (SystemExit 1),
      (eprint AocConfigureHint (eprint AocInstallHint (eprint AocNotInstalled w).2).2).2))
  ∧ (aoc_installed = true → input_only = true → puzzle_only = true →
     cli.main a w = (Val (), w))
  ∧ (aoc_installed = true → puzzle_only = false →
     ∀ e w1, aoc_cli.download_input day year w = (Exc e, w1) →
       cli.main a w = (Exc (SystemExit 1), (eprint (ErrMessage (exn_str e)) w1).2)
       ∧ stdout w1 = stdout w
       ∧ files w1 !! aoc_cli.puzzle_file day (Some year)
         = files w !! aoc_cli.puzzle_file day (Some year))
  ∧ (aoc_installed = true → puzzle_only = false → input_only = false →
     ∀ p1 w1 p2 w2,
       aoc_cli.download_input day year w = (Val p1, w1) →
       aoc_cli.download_puzzle day year (print (DownloadedInput (Text.pad2 day)) w1).2
       = (Val p2, w2) →
       cli.main a w = (Val (), (print (DownloadedPuzzle (Text.pad2 day)) w2).2)).
Proof.
  intros Hcfg Hjson year a.
  rewrite (main_run_command a w text config) by done.
  subst a. cbn [cli.year_flag]. fold year. unfold cli.run_command. cbn [cli.cmd].
  unfold try_except, aoc_cli.check_aoc_cli.
  split_and!.
  - intros ->. done.
  - intros -> -> ->. done.
  - intros Hin -> e w1 He.
    assert (is_Exception e = true) as Hexc.
    { destruct (download_input_result day year w) as [w' [E|[msg E]]];
        rewrite E in He; by simplify_eq. }
    split; [|split].
    + rewrite Hin. unfold mbind, M_bind, mret, M_ret. cbn [negb fst snd].
      rewrite He. by rewrite Hexc.
    + rewrite download_input_run in He. cbv zeta in He. rewrite Hin in He.
      by simplify_eq.
    + rewrite download_input_run in He. cbv zeta in He. rewrite Hin in He.
      simplify_eq. cbn [files set_files]. apply lookup_aoc_fs_ne. path_ne.
  - intros Hin -> -> p1 w1 p2 w2 H1 H2.
    rewrite Hin. unfold mbind, M_bind, mret, M_ret. cbn [negb fst snd].
    rewrite H1. unfold print in H2 |- *. cbn [fst snd] in H2 |- *. by rewrite H2.
Qed.

End command_props.


(** ** A scaffold that fails half-way *)

Section failure_props.
Context `{Env}.
Implicit Types (w : World) (fs : gmap path string).

(** X14.  A scaffold is not all-or-nothing.  When the template is missing,
    or [str.format] rejects it, [scaffold_day] raises that error after the
    package markers and the conftest of the year were made (and after the
    download, when one was asked for): these exist afterwards, every other
    file is as it was, the input and the puzzle of a download apart, and
    neither the solution nor the test was written, so a later scaffold of the
    day is not refused. *)
Theorem scaffold_day_template_failure day download w text config e :
  files w !! template.config_path = Some text →
  json_load text = Some config →
  let year := default 2025%Z (config !! "year") in
  files w !! template.solution_file day (Some year) = None →
  template_failure year day (files w) = Some e →
  ∃ w', template.scaffold_day day download w = (Exc e, w')
      ∧ files w' !! template.solution_file day (Some year) = None
      ∧ files w' !! template.test_file day (Some year)
        = files w !! template.test_file day (Some year)
      ∧ Forall (λ p, is_Some (files w' !! p)) (shared_files year)
      ∧ (∀ p, p ∉ shared_files year →
              (download = true → p ≠ aoc_cli.input_file day (Some year)
                                 ∧ p ≠ aoc_cli.puzzle_file day (Some year)) →
              files w' !! p = files w !! p).
Proof.
  intros Hcfg Hjson year Hnew Hfail.
  destruct (download_step_run day year download w) as (w1 & Hdl & Hagree & _ & Hsame).
  set (fs' := template.write_if_absent_fs (template.conftest_file (Some year))
                template.conftest_content
                (touch_fs (template.get_tests_dir (Some year) ++ ["__init__.py"])
                   (touch_fs (template.get_solutions_dir (Some year) ++ ["__init__.py"])
                      (files w1)))).
  assert (∀ p, p ∉ shared_files year → fs' !! p = files w1 !! p) as Hout.
  { intros p Hp. unfold shared_files in Hp. rewrite !not_elem_of_cons in Hp.
    destruct_and!. unfold fs'.
    rewrite lookup_write_if_absent_fs_ne by done.
    by rewrite !lookup_touch_fs_ne by done. }
  assert (∀ p, p ∉ shared_files year →
               (download = true → p ≠ aoc_cli.input_file day (Some year)
                                  ∧ p ≠ aoc_cli.puzzle_file day (Some year)) →
               fs' !! p = files w !! p) as Hframe.
  { intros p Hp Hd. rewrite Hout by done. destruct download.
    - destruct Hd as [? ?]; [done|]. apply Hagree. by intros [?|?].
    - by rewrite Hsame. }
  assert (∀ p : path, p ∉ shared_files year → p ≠ aoc_cli.input_file day (Some year) →
            p ≠ aoc_cli.puzzle_file day (Some year) → fs' !! p = files w !! p) as Hframe'.
  { intros p Hp Hi Hz. by apply Hframe. }
  assert (template.template_path ∉ shared_files year) as Htp.
  { unfold shared_files. rewrite !not_elem_of_cons. split_and!; try path_ne.
    apply not_elem_of_nil. }
  exists (set_files (λ _, fs') w1).
  split.
  - unfold template.scaffold_day.
    rewrite (bind_val _ _ w config w) by by eapply load_config_run.
    fold year.
    rewrite (bind_val _ _ w false w)
      by (rewrite exists_run, Hnew; f_equal; f_equal;
          by apply bool_decide_eq_false_2; intros [? ?]).
    rewrite (bind_val _ _ w () w1) by done.
    do 5 (rewrite (bind_val (mkdir_p _) _ _ () _) by done).
    do 2 (rewrite (bind_val (touch _) _ _ () _) by done).
    rewrite (bind_val _ _ _ () _) by apply write_if_absent_run.
    assert (set_files (template.write_if_absent_fs (template.conftest_file (Some year))
                         template.conftest_content)
              (set_files (touch_fs (template.get_tests_dir (Some year) ++ ["__init__.py"]))
                 (set_files (touch_fs (template.get_solutions_dir (Some year)
                                         ++ ["__init__.py"])) w1))
            = set_files (λ _, fs') w1) as -> by done.
    unfold template.read_template, template_failure in *.
    assert (fs' !! template.template_path = files w !! template.template_path) as Ht.
    { apply Hframe'; [done|path_ne..]. }
    destruct (files w !! template.template_path) as [tpl|] eqn:Htpl.
    + erewrite (bind_val (read_text _) _ _ tpl _)
        by (unfold read_text; cbn [files set_files]; by rewrite Ht).
      destruct (str_format tpl year day (Text.pad2 day)); by simplify_eq.
    + simplify_eq.
      by erewrite (bind_exc (read_text _) _ _ _ _)
        by (unfold read_text; cbn [files set_files]; by rewrite Ht).
  - cbn [files set_files]. split_and!.
    + rewrite <- Hnew. apply Hframe'; [|path_ne..].
      unfold shared_files. rewrite !not_elem_of_cons. split_and!; try path_ne.
      apply not_elem_of_nil.
    + apply Hframe'; [|path_ne..].
      unfold shared_files. rewrite !not_elem_of_cons. split_and!; try path_ne.
      apply not_elem_of_nil.
    + unfold shared_files, fs'. repeat constructor.
      * rewrite lookup_write_if_absent_fs_ne by path_ne.
        rewrite lookup_touch_fs_ne by path_ne.
        rewrite lookup_touch_fs_eq. eauto.
      * rewrite lookup_write_if_absent_fs_ne by path_ne.
        rewrite lookup_touch_fs_eq. eauto.
      * rewrite lookup_write_if_absent_fs_eq. eauto.
    + exact Hframe.
Qed.

End failure_props.

(** ** A partition without days *)

Section empty_props.
Context `{Env}.

(** X15.  In a partition whose solutions directory holds no [day*.py] entry
    that reads as a day (the directory may be missing, or hold files of
    other names, or [day*.py] files with ASCII names that read as no
    integer), [get_available_days] returns the empty list, and [run_all] and
    [time_all] print that no solutions were found and return: no day is run
    and no process is started. *)
Theorem partition_without_days year w :
  (∀ name, is_Some (files w !! (template.get_solutions_dir year ++ [name])) →
           Text.glob_day_py name = true →
           Text.is_ascii name = true ∧ template.day_of_name name = None) →
  template.get_available_days year w = (Val [], w)
  ∧ runner.run_all year w = (Val (), (print NoSolutionsFound w).2)
  ∧ runner.time_all year w = (Val (), (print NoSolutionsFound w).2).
Proof.
  intros Hnone.
  assert (template.available_days year (files w) = []) as Hdays.
  { apply elem_of_nil_inv. intros d Hd.
    apply elem_of_available_days in Hd as (name & Hin & Hg & Hd).
    destruct (Hnone name Hin Hg) as [_ Hno]. by rewrite Hno in Hd. }
  unfold template.get_available_days, runner.run_all, runner.time_all.
  rewrite Hdays. split; [done|].
  split.
  - by rewrite (bind_val _ _ w [] w)
      by (unfold template.get_available_days; by rewrite Hdays).
  - by rewrite (bind_val _ _ w [] w)
      by (unfold template.get_available_days; by rewrite Hdays).
Qed.

End empty_props.

(** ** The further properties at concrete worlds *)

(** X1 on the input of day 7 of 2025. *)
Lemma resolve_inj_witness :
  KInput = KInput ∧ Some 2025 = Some 2025 ∧ (KInput ≠ KConftest → 7 = 7).
Proof. exact (resolve_inj 7 (Some 2025) KInput 7 (Some 2025) KInput eq_refl). Defined.

(** X2 at a fresh workspace: the scaffold of day 7, its download failing,
    leaves the root template alone. *)
Lemma scaffold_day_stays_in_partition_witness :
  ∃ w', template.scaffold_day (H:=offline) 7 true workspace
        = (Val (["2025"; "solutions"; "day07.py"], ["2025"; "tests"; "test_day07.py"],
                ["2025"; "data"; "examples"; "07.txt"]), w')
      ∧ files w' !! ["src"; "solutions"; "template.txt"]
        = files workspace !! ["src"; "solutions"; "template.txt"]
      ∧ stderr w' = [].
Proof.
  destruct (scaffold_day_stays_in_partition (H:=offline) 7 true workspace
              Demo.config_2025.2 year_2025 Demo.solution_template.2 _
              ltac:(vm_compute; reflexivity) ltac:(vm_compute; reflexivity)
              ltac:(vm_compute; reflexivity) ltac:(vm_compute; reflexivity)
              ltac:(vm_compute; reflexivity))
    as (w' & Hrun & Hout & _ & Herr).
  exists w'. split; [exact Hrun|]. split; [|exact Herr].
  apply Hout. vm_compute. discriminate.
Defined.

(** X3 at a fresh workspace: after the scaffold of day 7 the year 2025
    lists day 7. *)
Lemma scaffold_day_registers_witness :
  ∃ w', template.scaffold_day (H:=offline) 7 false workspace
        = (Val (["2025"; "solutions"; "day07.py"], ["2025"; "tests"; "test_day07.py"],
                ["2025"; "data"; "examples"; "07.txt"]), w')
      ∧ 7 ∈ template.available_days (Some 2025) (files w').
Proof.
  destruct (scaffold_day_registers (H:=offline) 7 false workspace
              Demo.config_2025.2 year_2025 Demo.solution_template.2 _
              ltac:(vm_compute; reflexivity) ltac:(vm_compute; reflexivity)
              ltac:(vm_compute; reflexivity) ltac:(vm_compute; reflexivity)
              ltac:(vm_compute; reflexivity))
    as (w' & Hrun & Hlist).
  exists w'. split; [exact Hrun|]. apply Hlist. left. split; reflexivity.
Defined.

(** X4 at a fresh workspace, for the days 1 and 2. *)
Lemma scaffold_day_order_witness :
  ∃ w12 w21,
    (template.scaffold_day (H:=offline) 2 false
       (template.scaffold_day (H:=offline) 1 false workspace).2).2 = w12
    ∧ (template.scaffold_day (H:=offline) 1 false
         (template.scaffold_day (H:=offline) 2 false workspace).2).2 = w21
    ∧ w12 = w21.
Proof.
  destruct (scaffold_day_order (H:=offline) 1 2 workspace
              Demo.config_2025.2 year_2025 Demo.solution_template.2 _ _
              ltac:(vm_compute; reflexivity) ltac:(vm_compute; reflexivity)
              ltac:(vm_compute; reflexivity) ltac:(vm_compute; reflexivity)
              ltac:(vm_compute; reflexivity) ltac:(vm_compute; reflexivity)
              ltac:(vm_compute; reflexivity) ltac:(discriminate))
    as (wa & wab & wb & wba & Ha & Hab & Hb & Hba & Heq).
  exists wab, wba. rewrite Ha, Hb. cbn [snd]. rewrite Hab, Hba. by split_and!.
Defined.

(** X5 where the tool works: the input of day 3 is returned and is there. *)
Lemma download_contract_witness :
  let run := aoc_cli.download_input (H:=online) 3 2025 workspace in
  run.1 = Val ["2025"; "data"; "inputs"; "03.txt"]
  ∧ is_Some (files run.2 !! ["2025"; "data"; "inputs"; "03.txt"]).
Proof.
  cbv zeta.
  destruct (download_contract (H:=online) 3 2025 workspace) as (Hin & _).
  destruct (aoc_cli.download_input (H:=online) 3 2025 workspace) as [r w'] eqn:E.
  assert (r = Val ["2025"; "data"; "inputs"; "03.txt"]) as ->.
  { apply (f_equal fst) in E. vm_compute in E. by symmetry. }
  destruct (Hin _ _ eq_refl) as (_ & Hsome & _).
  split; [reflexivity|exact Hsome].
Defined.

(** X6 where the tool works. *)
Lemma download_then_read_witness :
  ∃ w1 w2,
    aoc_cli.download_input (H:=online) 3 2025 workspace
    = (Val ["2025"; "data"; "inputs"; "03.txt"], w1)
    ∧ aoc_cli.download_puzzle (H:=online) 3 2025 w1
      = (Val ["2025"; "data"; "puzzles"; "03.md"], w2)
    ∧ aoc_cli.read_input 3 (Some 2025) w2 = (Val "new", w2)
    ∧ aoc_cli.read_puzzle 3 (Some 2025) w2 = (Val "new", w2).
Proof.
  destruct (download_then_read (H:=online) 3 2025 workspace "new" "new"
              eq_refl eq_refl eq_refl eq_refl eq_refl)
    as (w1 & w2 & H1 & H2 & H3 & H4 & _).
  exists w1, w2. split; [exact H1|]. split; [exact H2|]. split; [exact H3|exact H4].
Defined.

(** X7 at a fresh workspace where the tool works. *)
Lemma scaffold_day_keeps_download_witness :
  ∃ w', template.scaffold_day (H:=online) 7 true workspace
        = (Val (["2025"; "solutions"; "day07.py"], ["2025"; "tests"; "test_day07.py"],
                ["2025"; "data"; "examples"; "07.txt"]), w')
      ∧ stdout w' = []
      ∧ aoc_cli.read_input 7 (Some 2025) w' = (Val "new", w')
      ∧ aoc_cli.read_example 7 (Some 2025) w' = (Val "", w').
Proof.
  destruct (scaffold_day_keeps_download (H:=online) 7 workspace
              Demo.config_2025.2 year_2025 Demo.solution_template.2 _ "new" "new"
              ltac:(vm_compute; reflexivity) ltac:(vm_compute; reflexivity)
              ltac:(vm_compute; reflexivity) ltac:(vm_compute; reflexivity)
              ltac:(vm_compute; reflexivity)
              eq_refl eq_refl eq_refl eq_refl eq_refl)
    as (w' & Hrun & Hout & _ & Hin & _ & Hex).
  exists w'. split; [exact Hrun|]. split; [exact Hout|]. split; [exact Hin|exact Hex].
Defined.



(** X10 at a fresh workspace, where pytest runs and ends with status 0. *)
Lemma scaffold_then_time_witness :
  ∃ w', template.scaffold_day (H:=offline) 7 false workspace
        = (Val (["2025"; "solutions"; "day07.py"], ["2025"; "tests"; "test_day07.py"],
                ["2025"; "data"; "examples"; "07.txt"]), w')
      ∧ runner.time_day (H:=offline) 7 (Some 2025) workspace
        = (Exc (SystemExit 1), (eprint (ErrTestNotFound 7) workspace).2)
      ∧ (runner.time_day (H:=offline) 7 (Some 2025) w').1 = Exc (SystemExit 0)
      ∧ (runner.time_all (H:=offline) (Some 2025) w').1 = Exc (SystemExit 0).
Proof.
  destruct (scaffold_then_time (H:=offline) 7 false workspace
              Demo.config_2025.2 year_2025 Demo.solution_template.2 _
              ltac:(vm_compute; reflexivity) ltac:(vm_compute; reflexivity)
              ltac:(vm_compute; reflexivity) ltac:(vm_compute; reflexivity)
              ltac:(vm_compute; reflexivity))
    as (w' & Hrun & Hbefore & Hday & Hall).
  exists w'. split; [exact Hrun|].
  split; [exact (Hbefore ltac:(vm_compute; reflexivity))|].
  split; [exact (proj1 Hday)|exact (proj1 Hall)].
Defined.

(** Without [uv] the same [time_day] lets the error of [subprocess.run]
    escape and has no process on record. *)
Example time_day_without_uv :
  let w' := (template.scaffold_day (H:=without_uv) 7 false workspace).2 in
  let run := runner.time_day (H:=without_uv) 7 (Some 2025) w' in
  run.1 = Exc (Raise FileNotFoundError "[Errno 2] No such file or directory: 'uv'")
  ∧ spawned run.2 = [].
Proof. cbv zeta. split; vm_compute; reflexivity. Qed.


(** X12 at a fresh workspace without the tool: the warning, the report, and
    the line that says input and puzzle were downloaded. *)
Lemma main_scaffold_outcome_witness :
  ∃ w', cli.main (H:=offline)
          {| cli.year_flag := None; cli.cmd := cli.CmdScaffold 7 true |} workspace
        = (Val (), w')
      ∧ stdout w' = [WarnDownload aoc_cli.not_installed_msg;
                     Scaffolded "07";
                     SolutionAt ["2025"; "solutions"; "day07.py"];
                     TestsAt ["2025"; "tests"; "test_day07.py"];
                     ExampleAt ["2025"; "data"; "examples"; "07.txt"];
                     InputAndPuzzleDownloaded].
Proof.
  destruct (template.scaffold_day (H:=offline) 7 true workspace) as [r w1] eqn:Hrun.
  assert (r = Val (["2025"; "solutions"; "day07.py"], ["2025"; "tests"; "test_day07.py"],
                   ["2025"; "data"; "examples"; "07.txt"])) as ->.
  { apply (f_equal fst) in Hrun. vm_compute in Hrun. by symmetry. }
  destruct (main_scaffold_outcome (H:=offline) None 7 true workspace
              Demo.config_2025.2 year_2025
              ltac:(vm_compute; reflexivity) ltac:(vm_compute; reflexivity)
              _ _ Hrun)
    as (w' & Hmain & _ & Hout).
  exists w'. split; [exact Hmain|]. rewrite Hout. vm_compute. reflexivity.
Defined.

(** X13 without the tool: three lines and status 1. *)
Lemma main_download_outcome_witness :
  ∃ w', cli.main (H:=offline)
          {| cli.year_flag := Some 2024; cli.cmd := cli.CmdDownload 3 false false |}
          workspace
        = (Exc (SystemExit 1), w')
      ∧ stderr w' = [AocNotInstalled; AocInstallHint; AocConfigureHint]
      ∧ files w' = files workspace.
Proof.
  destruct (main_download_outcome (H:=offline) (Some 2024) 3 false false workspace
              Demo.config_2025.2 year_2025
              ltac:(vm_compute; reflexivity) ltac:(vm_compute; reflexivity))
    as (Hmissing & _).
  eexists. split; [exact (Hmissing eq_refl)|]. split; reflexivity.
Defined.

(** X14 at a workspace without template. *)
Lemma scaffold_day_template_failure_witness :
  ∃ w', template.scaffold_day (H:=offline) 7 false no_template
        = (Exc (Raise FileNotFoundError "/src/solutions/template.txt"), w')
      ∧ files w' !! ["2025"; "solutions"; "day07.py"] = None
      ∧ is_Some (files w' !! ["2025"; "tests"; "conftest.py"]).
Proof.
  destruct (scaffold_day_template_failure (H:=offline) 7 false no_template
              Demo.config_2025.2 year_2025 (Raise FileNotFoundError "/src/solutions/template.txt")
              ltac:(vm_compute; reflexivity) ltac:(vm_compute; reflexivity)
              ltac:(vm_compute; reflexivity) ltac:(vm_compute; reflexivity))
    as (w' & Hrun & Hsol & _ & Hshared & _).
  exists w'. split; [exact Hrun|]. split; [exact Hsol|].
  unfold shared_files in Hshared. rewrite !Forall_cons in Hshared.
  exact (proj1 (proj2 (proj2 Hshared))).
Defined.

(** X15 for the year 2023 of a fresh workspace. *)
Lemma partition_without_days_witness :
  runner.run_all (H:=offline) (Some 2023) workspace
  = (Val (), (print NoSolutionsFound workspace).2)
  ∧ runner.time_all (H:=offline) (Some 2023) workspace
    = (Val (), (print NoSolutionsFound workspace).2).
Proof.
  refine (proj2 (partition_without_days (H:=offline) (Some 2023) workspace _)).
  intros name [text Hin]. exfalso. revert Hin.
  unfold workspace, Demo.world. cbn [files].
  rewrite (not_elem_of_list_to_map_1 (M:=gmap path)); [done|].
  cbn. rewrite !not_elem_of_cons. split_and!; [done|done|apply not_elem_of_nil].
Defined.
